(** * Meta-transaction relay: forwarder contract, relay Lambda, fee computation

    A shallow embedding of the gasless-transaction system:
    - [Forwarder]: the on-chain side, [verify] (docs/implementation.md) and
      [verifyPayment] / [executeWithPayment] of TokenPaymentForwarder.sol;
    - [TokenPaymentForwarder]: the constructor and the owner's functions of
      the same contract;
    - [Relay]: the Lambda consumer, [processMetaTransaction] and [handler]
      of gasless/infrastructure/lambda/index.js, as programs over the
      external calls they await;
    - [Fee]: [calculatePayment] over IEEE binary64 numbers;
    - [Queue]: the queue's redrive policy of the Terraform configuration;
    - [Pool]: interleaved invocations of the Lambda;
    - [TypedData]: the typed-data layouts used by the signers;
    - [Ledger]: a small in-memory chain on which the programs are run;
    - [Sdk]: the client, [GaslessTransactionSDK] of route.ts;
    - [Accounts]: the [GET] and [PATCH] handlers of route.ts.

    Solidity [uint256] and [address] values are integers ([Z]); reverts and
    JavaScript exceptions are the [Err] case of [result]. *)

From Stdlib Require Import ZArith Lia Bool.
From Stdlib Require Import Floats Uint63.
From stdpp Require Import base option list gmap strings.

Open Scope Z_scope.

(** ** Results: a value, or a revert / thrown Error carrying its message *)

Inductive result (A : Type) : Type :=
| Ok (a : A)
| Err (msg : string).
Arguments Ok {A} a.
Arguments Err {A} msg.

Definition is_ok {A} (r : result A) : bool :=
  match r with Ok _ => true | Err _ => false end.

#[global] Instance result_ret : MRet result := fun _ a => Ok a.
#[global] Instance result_bind : MBind result := fun _ _ f r =>
  match r with Ok a => f a | Err m => Err m end.

(** Solidity's [require(cond, reason)]. *)
Definition require (cond : bool) (reason : string) : result unit :=
  if cond then Ok tt else Err reason.

(** ** The forwarder contract *)

Module Forwarder.

Definition address := Z.
Definition uint256 := Z.
Definition bytes32 := Z.
Definition bytes := list Byte.byte.

Definition MAX_UINT256 : Z := 2 ^ 256 - 1.

(** [struct ForwardRequest] of the forwarder ABI
    (address from, address to, uint256 value, uint256 gas, uint256 nonce,
    bytes data). *)
Record ForwardRequest := {
  from : address;
  to : address;
  value : uint256;
  gas : uint256;
  nonce : uint256;
  data : bytes
}.

(** [struct PaymentInfo { uint256 payment; bytes paymentSignature; }] *)
Record PaymentInfo := {
  payment : uint256;
  paymentSignature : bytes
}.

(** Contract storage: the nonce registry of the parent forwarder and the
    two state variables of TokenPaymentForwarder. *)
Record Storage := {
  _nonces : gmap address uint256;
  paymentToken : address;
  minPayment : uint256
}.

(** Reading a Solidity mapping: absent keys read as zero. *)
Definition getNonce (st : Storage) (a : address) : uint256 :=
  default 0 (_nonces st !! a).

(** [abi.encode] of static words: each argument as one 32-byte big-endian
    word. *)
Fixpoint be_bytes (n : nat) (w : Z) : bytes :=
  match n with
  | O => []
  | S n' =>
      be_bytes n' (Z.shiftr w 8)
        ++ [default Byte.x00 (Byte.of_N (Z.to_N (Z.land w 255)))]
  end.

Definition abi_encode (words : list Z) : bytes :=
  flat_map (be_bytes 32) words.

Section Verifier.

(** The primitives [verify] is written over. They belong to the EVM and
    to the inherited EIP-712 / ECDSA library code: the hash, the type
    hash constant, the domain-bound digest and signature recovery, which
    like every Solidity call either returns or reverts. *)
Variable keccak256 : bytes -> bytes32.
Variable _TYPEHASH : bytes32.
Variable _hashTypedDataV4 : bytes32 -> bytes32.
Variable recover : bytes32 -> bytes -> result address.

(** The struct hash of a request: the fields in the order [verify]
    encodes them. *)
Definition structHash (req : ForwardRequest) : bytes32 :=
  keccak256 (abi_encode
    [_TYPEHASH; from req; to req; value req; gas req; nonce req;
     keccak256 (data req)]).

(** The domain-bound digest signatures are verified over. *)
Definition digest (req : ForwardRequest) : bytes32 :=
  _hashTypedDataV4 (structHash req).

(** docs/implementation.md, [verify]:
<<
      address signer = _hashTypedDataV4(keccak256(abi.encode(
          _TYPEHASH, req.from, req.to, req.value, req.gas, req.nonce,
          keccak256(req.data)))).recover(signature);
      return _nonces[req.from] == req.nonce && signer == req.from;
>> *)
Definition verify (st : Storage) (req : ForwardRequest) (signature : bytes)
  : result bool :=
  signer ← recover (digest req) signature;
  mret ((getNonce st (from req) =? nonce req) && (signer =? from req)).

Section Payment.

(** The payment token is another contract; [verifyPayment] only reads
    its [allowance] view. *)
Variable allowance : address -> address -> uint256.
Variable this : address.

(** TokenPaymentForwarder.sol, [verifyPayment]. *)
Definition verifyPayment (st : Storage) (req : ForwardRequest)
    (paymentInfo : PaymentInfo) : bool :=
  if payment paymentInfo <? minPayment st then false
  else if allowance (from req) this <? payment paymentInfo then false
  else true.

End Payment.

Section Execute.

(** The token's state and the two calls the contract makes into it,
    and the inherited [execute] of the parent forwarder. *)
Variable Token : Type.
Variable token_allowance : Token -> address -> address -> uint256.
Variable token_transferFrom :
  Token -> address -> address -> uint256 -> result (bool * Token).
Variable execute :
  Storage * Token -> ForwardRequest -> bytes ->
  result ((bool * bytes) * (Storage * Token)).
Variable this : address.

(** TokenPaymentForwarder.sol, [executeWithPayment]. A revert discards
    every state change, so only the [Ok] case carries a state. *)
Definition executeWithPayment (s : Storage * Token)
    (req : ForwardRequest) (signature : bytes)
    (paymentInfo : PaymentInfo)
  : result ((bool * bytes) * (Storage * Token)) :=
  let '(st, tok) := s in
  valid ← verify st req signature;
  _ ← require valid "TokenPaymentForwarder: invalid signature";
  _ ← require (verifyPayment (token_allowance tok) this st req paymentInfo)
        "TokenPaymentForwarder: invalid payment";
  '(paid, tok') ← token_transferFrom tok (from req) this
                    (payment paymentInfo);
  _ ← require paid "TokenPaymentForwarder: payment failed";
  '((success, returndata), s') ← execute (st, tok') req signature;
  _ ← require success "TokenPaymentForwarder: forward request failed";
  mret ((success, returndata), s').

End Execute.

End Verifier.

End Forwarder.

(** ** The owner's functions of the forwarder contract *)

Module TokenPaymentForwarder.

Import Forwarder.

(** The contract's state: the storage [verify] and [verifyPayment] read,
    and the owner slot of the inherited [Ownable], which the constructor
    of [Ownable] sets to the deployer. *)
Record Contract := {
  storage : Storage;
  _owner : address
}.

(** The events the contract declares. *)
Inductive Log :=
| PaymentReceived (from : address) (amount : uint256)
| MinPaymentUpdated (newAmount : uint256)
| PaymentTokenUpdated (newToken : address).

(** [modifier onlyOwner]: the caller must be the owner. *)
Definition onlyOwner (c : Contract) (msg_sender : address) : result unit :=
  require (_owner c =? msg_sender) "Ownable: caller is not the owner".

(** [constructor(address _paymentToken, uint256 _minPayment)] *)
Definition constructor (msg_sender _paymentToken : address)
    (_minPayment : uint256) : result Contract :=
  _ ← require (negb (_paymentToken =? 0)) "Invalid token address";
  mret {| storage := {| _nonces := ∅;
                        paymentToken := _paymentToken;
                        minPayment := _minPayment |};
          _owner := msg_sender |}.

(** [isTrustedForwarder(address forwarder)] *)
Definition isTrustedForwarder (this forwarder : address) : bool :=
  forwarder =? this.

(** [setMinPayment(uint256 _minPayment) external onlyOwner] *)
Definition setMinPayment (c : Contract) (msg_sender : address)
    (_minPayment : uint256) : result (Contract * list Log) :=
  _ ← onlyOwner c msg_sender;
  mret ({| storage := {| _nonces := _nonces (storage c);
                         paymentToken := paymentToken (storage c);
                         minPayment := _minPayment |};
           _owner := _owner c |},
        [MinPaymentUpdated _minPayment]).

(** [setPaymentToken(address _paymentToken) external onlyOwner] *)
Definition setPaymentToken (c : Contract) (msg_sender : address)
    (_paymentToken : address) : result (Contract * list Log) :=
  _ ← onlyOwner c msg_sender;
  _ ← require (negb (_paymentToken =? 0)) "Invalid token address";
  mret ({| storage := {| _nonces := _nonces (storage c);
                         paymentToken := _paymentToken;
                         minPayment := minPayment (storage c) |};
           _owner := _owner c |},
        [PaymentTokenUpdated _paymentToken]).

Section Withdraw.

(** The token's state and its [transfer], called by the contract itself. *)
Variable Token : Type.
Variable token_transfer :
  Token -> address -> address -> uint256 -> result (bool * Token).
Variable this : address.

(** [withdrawPayments(address recipient, uint256 amount) external onlyOwner] *)
Definition withdrawPayments (c : Contract) (tok : Token)
    (msg_sender recipient : address) (amount : uint256) : result Token :=
  _ ← onlyOwner c msg_sender;
  _ ← require (negb (recipient =? 0)) "Invalid recipient";
  '(sent, tok') ← token_transfer tok this recipient amount;
  _ ← require sent "TokenPaymentForwarder: withdrawal failed";
  mret tok'.

End Withdraw.

(** A transaction calling one of the two setters. A reverted transaction
    leaves the contract as it was. *)
Inductive Call :=
| SetMinPayment (msg_sender : address) (_minPayment : uint256)
| SetPaymentToken (msg_sender : address) (_paymentToken : address).

Definition transact (c : Contract) (call : Call) : Contract :=
  match call with
  | SetMinPayment sender v =>
      match setMinPayment c sender v with Ok (c', _) => c' | Err _ => c end
  | SetPaymentToken sender t =>
      match setPaymentToken c sender t with Ok (c', _) => c' | Err _ => c end
  end.

(** The values the owner passed to [setMinPayment], in order. *)
Definition ownerMinimums (owner : address) (calls : list Call) : list uint256 :=
  omap (fun call =>
          match call with
          | SetMinPayment sender v => if owner =? sender then Some v else None
          | SetPaymentToken _ _ => None
          end) calls.

End TokenPaymentForwarder.

(** ** Fee computation of the relay: [calculatePayment]

    JavaScript numbers are IEEE 754 binary64 values; they are modelled by
    the standard library's [spec_float] with its binary64 operations. *)

Module Fee.


Definition double := spec_float.

Definition fmul : double -> double -> double := SFmul 53 1024.
Definition fdiv : double -> double -> double := SFdiv 53 1024.

(** An integer as the exact (unrounded) operand of a division. *)
Definition exact (z : Z) : double :=
  match z with
  | Z0 => S754_zero false
  | Zpos p => S754_finite false p 0
  | Zneg p => S754_finite true p 0
  end.

(** A decimal string such as ["0.0042"]: the integer [digits] scaled by
    [10 ^ -scale]. *)
Record decimal := { digits : Z; scale : Z }.

(** [ethers.utils.formatEther]: the exact decimal expansion of
    [wei / 10^18]. *)
Definition formatEther (wei : Z) : decimal :=
  {| digits := wei; scale := 18 |}.

(** [parseFloat] of a decimal string: the double nearest to its value
    (ties to even), i.e. the correctly rounded quotient. *)
Definition parseFloat (s : decimal) : double :=
  fdiv (exact (digits s)) (exact (10 ^ scale s)).

(** The number literals of [calculatePayment]. *)
Definition ethToUsdRate : double := exact 3000.
Definition profitMargin : double := parseFloat {| digits := 11; scale := 1 |}.

(** [Number.prototype.toFixed(fractionDigits)]: for a finite [x] below
    [10^21], the integer [n] for which [n / 10^fractionDigits - x] is as
    close to zero as possible, the larger one on a tie (applied to the
    magnitude, the sign put back in front). [None] stands for the outputs
    that are not plain decimals: exponent notation from [10^21] on,
    "NaN" and "Infinity". *)
Definition toFixed (fractionDigits : Z) (x : double) : option decimal :=
  match x with
  | S754_zero _ => Some {| digits := 0; scale := fractionDigits |}
  | S754_finite s m e =>
      let num := Zpos m * 2 ^ Z.max e 0 in
      let den := 2 ^ Z.max (- e) 0 in
      if 10 ^ 21 * den <=? num then None
      else
        let n := (2 * num * 10 ^ fractionDigits + den) / (2 * den) in
        Some {| digits := if s then - n else n; scale := fractionDigits |}
  | _ => None
  end.

(** [ethers.utils.parseUnits(str, decimals)] on the output of [toFixed].
    Trailing zeros of the fraction are dropped before its length is
    compared with [decimals]. The texts of the two errors are the reasons
    the library gives; the messages of the thrown errors begin with
    them. *)
Definition parseUnits (str : option decimal) (decimals : Z) : result Z :=
  match str with
  | Some d =>
      if scale d <=? decimals then Ok (digits d * 10 ^ (decimals - scale d))
      else if digits d mod 10 ^ (scale d - decimals) =? 0
      then Ok (digits d / 10 ^ (scale d - decimals))
      else Err "fractional component exceeds decimals"
  | None => Err "invalid decimal value"
  end.

(** lambda/index.js, [calculatePayment(gasLimit, gasPrice)]. *)
Definition calculatePayment (gasLimit gasPrice : Z) : result Z :=
  let gasCost := gasLimit * gasPrice in
  let ethCost := formatEther gasCost in
  let usdCost := fmul (parseFloat ethCost) ethToUsdRate in
  let totalUsdCost := fmul usdCost profitMargin in
  parseUnits (toFixed 6 totalUsdCost) 6.

(** The minimum payment in the specification's words: the fee price times
    the gas limit times a markup [num / den], rounded up to a whole base
    unit. *)
Definition minPayment_spec (num den : Z) (gasPrice gasLimit : Z) : Z :=
  - ((- (gasPrice * gasLimit * num)) / den).

(** The factor [calculatePayment] applies to a gas cost in wei, as an exact
    fraction: 3000 USD per ether, times 1.1, in base units of 10^-6 USD,
    per 10^18 wei, that is 33 / 10^10. *)
Definition factor_num : Z := 33.
Definition factor_den : Z := 10 ^ 10.

End Fee.

(** ** The relay Lambda: programs over awaited external calls *)

Module Relay.

Definition address := Z.
Definition bytes := list Byte.byte.

(** The body of a queue message after [JSON.parse]: the request fields and
    the signature, which the Lambda reads, and the [payment] the sender
    offered, which is part of the submitted message. *)
Record MetaTx := {
  from : address;
  to : address;
  value : Z;
  gas : Z;
  nonce : Z;
  data : bytes;
  signature : bytes;
  payment : option Z
}.

(** An [ethers.Wallet]; only its address is ever read. *)
Record Wallet := { wallet_address : address }.

(** A submitted transaction (the response) and its receipt. *)
Record TxResponse := { hash : Z }.
Record TxReceipt := { transactionHash : Z }.

(** The tuple passed to the forwarder's [verify] and [execute]. *)
Definition requestTuple (metaTx : MetaTx) : Forwarder.ForwardRequest :=
  {| Forwarder.from := from metaTx; Forwarder.to := to metaTx;
     Forwarder.value := value metaTx; Forwarder.gas := gas metaTx;
     Forwarder.nonce := nonce metaTx; Forwarder.data := data metaTx |}.

(** The same message with another [payment] offered. *)
Definition withPayment (metaTx : MetaTx) (offered : option Z) : MetaTx :=
  {| from := from metaTx; to := to metaTx; value := value metaTx;
     gas := gas metaTx; nonce := nonce metaTx; data := data metaTx;
     signature := signature metaTx; payment := offered |}.

(** The external calls the Lambda awaits, indexed by what they resolve to.
    Each one may instead reject, which throws at the [await]. *)
Inductive Ext : Type -> Type :=
| KmsDecrypt : Ext Wallet
| ForwarderVerify (req : Forwarder.ForwardRequest) (sig : bytes) : Ext bool
| GetGasPrice : Ext Z
| UsdtAllowance (owner spender : address) : Ext Z
| ForwarderExecute (req : Forwarder.ForwardRequest) (sig : bytes)
    (gasLimit gasPrice : Z) : Ext TxResponse
| TxWait (tx : TxResponse) : Ext TxReceipt
| UsdtTransferFrom (sender recipient : address) (amount : Z) : Ext TxResponse
| SqsDeleteMessage (receiptHandle : string) : Ext unit.

(** An async function: it returns, throws, or awaits an external call and
    continues with its outcome. *)
Inductive Prog (A : Type) : Type :=
| Ret (a : A)
| Throw (msg : string)
| Await {X : Type} (e : Ext X) (k : result X -> Prog A).
Arguments Ret {A} a.
Arguments Throw {A} msg.
Arguments Await {A X} e k.

Fixpoint bind {A B} (p : Prog A) (f : A -> Prog B) : Prog B :=
  match p with
  | Ret a => f a
  | Throw m => Throw m
  | Await e k => Await e (fun r => bind (k r) f)
  end.

#[global] Instance prog_ret : MRet Prog := fun _ a => Ret a.
#[global] Instance prog_bind : MBind Prog := fun _ _ f p => bind p f.

(** [await call]: a rejection throws. *)
Definition await {X} (e : Ext X) : Prog X :=
  Await e (fun r => match r with Ok x => Ret x | Err m => Throw m end).

(** A synchronous library call that may throw. *)
Definition lift {A} (r : result A) : Prog A :=
  match r with Ok a => Ret a | Err m => Throw m end.

(** [try { p } catch (error) { h(error.message) }] *)
Fixpoint try_catch {A} (p : Prog A) (h : string -> Prog A) : Prog A :=
  match p with
  | Ret a => Ret a
  | Throw m => h m
  | Await e k => Await e (fun r => try_catch (k r) h)
  end.

(** *** Running a program against an environment *)

(** The world outside the Lambda (ledger, key service, queue API): a state
    and the outcome of each call in it. *)
Record Env := {
  World : Type;
  answer : forall X, Ext X -> World -> result X * World
}.

(** One awaited call with its outcome. *)
Inductive Event : Type :=
| Ev {X : Type} (e : Ext X) (r : result X).

Record Run (W A : Type) := {
  outcome : result A;
  final : W;
  trace : list Event
}.
Arguments outcome {W A} r.
Arguments final {W A} r.
Arguments trace {W A} r.

Fixpoint run (E : Env) {A} (p : Prog A) (w : World E) : Run (World E) A :=
  match p with
  | Ret a => {| outcome := Ok a; final := w; trace := [] |}
  | Throw m => {| outcome := Err m; final := w; trace := [] |}
  | Await e k =>
      let rw := answer E _ e w in
      let r := run E (k (fst rw)) (snd rw) in
      {| outcome := outcome r; final := final r;
         trace := Ev e (fst rw) :: trace r |}
  end.

(** *** lambda/index.js *)

(** [const config]: the two settings that are numbers. *)
Record Config := {
  minPayment : Z;
  gasBuffer : Fee.double
}.

Definition config : Config :=
  {| minPayment := 1000000;  (* parseUnits("1", 6) *)
     gasBuffer := Fee.parseFloat {| Fee.digits := 11; Fee.scale := 1 |} |}.

Section Lambda.

Variable cfg : Config.

(** [BigNumber.prototype.mul] applied to a JavaScript number, as in
    [gasPrice.mul(config.gasBuffer)] where the factor is the non-integer
    1.1. Whether the library yields a value or throws for it is the
    library's; the Lambda is modelled over the function, and
    [Ledger.BigNumber_mul] is that of ethers v5. *)
Variable BigNumber_mul : Z -> Fee.double -> result Z.

(** [JSON.parse(message.body)] *)
Variable JSON_parse : string -> result MetaTx.

(** [getRelayerKey] *)
Definition getRelayerKey : Prog Wallet := await KmsDecrypt.

(** [verifyAllowance(userAddress, amount)] *)
Definition verifyAllowance (userAddress : address) (amount : Z) : Prog bool :=
  relayer ← getRelayerKey;
  allowance ← await (UsdtAllowance userAddress (wallet_address relayer));
  mret (amount <=? allowance).

(** What [processMetaTransaction] resolves to. *)
Record Receipt := {
  metaTxHash : Z;
  paymentTxHash : Z;
  usdtAmount : Z
}.

(** [processMetaTransaction(metaTx)] *)
Definition processMetaTransaction (metaTx : MetaTx) : Prog Receipt :=
  relayer ← getRelayerKey;
  valid ← await (ForwarderVerify (requestTuple metaTx) (signature metaTx));
  if negb valid then Throw "Invalid signature"
  else
    gasPrice ← await GetGasPrice;
    requiredPayment ← lift (Fee.calculatePayment (gas metaTx) gasPrice);
    hasAllowance ← verifyAllowance (from metaTx) requiredPayment;
    if negb hasAllowance then Throw "Insufficient USDT allowance"
    else
      bufferedPrice ← lift (BigNumber_mul gasPrice (gasBuffer cfg));
      tx ← await (ForwarderExecute (requestTuple metaTx) (signature metaTx)
                    (gas metaTx) bufferedPrice);
      receipt ← await (TxWait tx);
      paymentTx ← await (UsdtTransferFrom (from metaTx)
                           (wallet_address relayer) requiredPayment);
      _ ← await (TxWait paymentTx);
      mret {| metaTxHash := transactionHash receipt;
              paymentTxHash := hash paymentTx;
              usdtAmount := requiredPayment |}.

(** A record of [event.Records]. *)
Record Message := {
  body : string;
  receiptHandle : string
}.

#[global] Instance Message_eq_dec : EqDecision Message.
Proof. solve_decision. Defined.

(** An element of [results]. *)
Inductive Entry :=
| Processed (r : Receipt)
| Failed (error : string).

(** The handler's response, its body before [JSON.stringify]. *)
Inductive Response :=
| Status200 (results : list Entry)
| Status500 (error : string).

(** The inner [try]/[catch] of the loop body. [results.push(result)]
    runs before [deleteMessage] is awaited, so a rejected delete leaves
    both the result and the error in [results]. *)
Definition processAndDelete (message : Message) (metaTx : MetaTx)
  : Prog (list Entry) :=
  try_catch
    (result ← processMetaTransaction metaTx;
     try_catch
       (_ ← await (SqsDeleteMessage (receiptHandle message));
        mret [Processed result])
       (fun error => Ret [Processed result; Failed error]))
    (fun error =>
       (* Message will return to queue after visibility timeout *)
       Ret [Failed error]).

(** The [for (const message of messages)] loop; [JSON.parse] is outside
    the inner [try], so its exception leaves the loop. *)
Fixpoint forMessages (messages : list Message) (results : list Entry)
  : Prog (list Entry) :=
  match messages with
  | [] => Ret results
  | message :: rest =>
      metaTx ← lift (JSON_parse (body message));
      pushed ← processAndDelete message metaTx;
      forMessages rest (results ++ pushed)
  end.

(** [exports.handler] *)
Definition handler (Records : list Message) : Prog Response :=
  try_catch
    (results ← forMessages Records [];
     mret (Status200 results))
    (fun _ => Ret (Status500 "Internal server error")).

End Lambda.

End Relay.

(** ** Several Lambda invocations against one world

    Each worker is an invocation suspended at an [await]; a scheduling step
    lets the environment answer the awaited call of one worker. *)

Module Pool.

Import Relay.

Record Worker (A : Type) := {
  prog : Prog A;
  seen : list Event
}.
Arguments prog {A} w.
Arguments seen {A} w.

Record State (E : Env) (A : Type) := {
  world : World E;
  workers : list (Worker A)
}.
Arguments world {E A} s.
Arguments workers {E A} s.





End Pool.

(** ** The queue in front of the Lambda (Terraform, [aws_sqs_queue]) *)

Module Queue.

Import Relay.

(** [resource "aws_sqs_queue" "meta_tx_queue"] *)
Record Config := {
  fifo_queue : bool;
  visibility_timeout_seconds : Z;
  message_retention_seconds : Z;
  maxReceiveCount : nat
}.

Definition meta_tx_queue : Config :=
  {| fifo_queue := true;
     visibility_timeout_seconds := 300;
     message_retention_seconds := 86400;
     maxReceiveCount := 3 |}.

(** A message held by the source queue, with the number of times it has
    been received so far. *)
Record Held := {
  message : Message;
  receiveCount : nat
}.

Record State := {
  pending : list Held;
  deadLetter : list Message
}.

Definition enqueue (m : Message) (q : State) : State :=
  {| pending := pending q ++ [{| message := m; receiveCount := 0 |}];
     deadLetter := deadLetter q |}.

(** The receipt handles the consumer deleted: the [deleteMessage] calls
    that resolved. *)
Definition deletedHandle (ev : Event) : option string :=
  match ev with
  | Ev e r =>
      match e in Ext X return result X -> option string with
      | SqsDeleteMessage h => fun r => if is_ok r then Some h else None
      | _ => fun _ => None
      end r
  end.

Definition deleted (t : list Event) : list string :=
  omap deletedHandle t.

(** The redrive policy: a message already received [maxReceiveCount] times
    is moved to the dead-letter queue instead of being received again. *)
Definition redrive (cfg : Config) (q : State) : State :=
  {| pending := filter (fun h => (receiveCount h < maxReceiveCount cfg)%nat)
                  (pending q);
     deadLetter := deadLetter q
       ++ map message
            (filter (fun h => ¬ (receiveCount h < maxReceiveCount cfg)%nat)
               (pending q)) |}.

(** Receiving counts one more receive for each message handed out. *)
Definition received (h : Held) : Held :=
  {| message := message h; receiveCount := S (receiveCount h) |}.

Section Consumer.

Variable config : Relay.Config.
Variable BigNumber_mul : Z -> Fee.double -> result Z.
Variable JSON_parse : string -> result MetaTx.
Variable cfg : Config.
Variable E : Env.

Record Poll := {
  ledger : World E;
  queue : State;
  deliveries : list (list Message);
  responses : list (result Response)
}.

(** One delivery: the visible messages are handed to the handler as
    [event.Records]; those it deleted are gone, the others become
    visible again after the visibility timeout, in their order. *)
Definition poll (p : Poll) : Poll :=
  let q := redrive cfg (queue p) in
  match pending q with
  | [] => {| ledger := ledger p; queue := q;
             deliveries := deliveries p; responses := responses p |}
  | _ =>
      let batch := map received (pending q) in
      let r := run E (handler config BigNumber_mul JSON_parse (map message batch))
                 (ledger p) in
      {| ledger := final r;
         queue :=
           {| pending :=
                filter (fun h => receiptHandle (message h) ∉ deleted (trace r))
                  batch;
              deadLetter := deadLetter q |};
         deliveries := deliveries p ++ [map message batch];
         responses := responses p ++ [outcome r] |}
  end.

Definition polls (n : nat) (p : Poll) : Poll := Nat.iter n poll p.

(** A message arrives in an empty queue. *)
Definition arrival (w : World E) (m : Message) : Poll :=
  {| ledger := w;
     queue := enqueue m {| pending := []; deadLetter := [] |};
     deliveries := [];
     responses := [] |}.


End Consumer.

End Queue.

(** ** An in-memory ledger

    A deterministic stand-in for the ledger, the key service and the queue
    API, used to run the Lambda on concrete inputs. *)

Module Ledger.

Import Relay.

(** Stand-ins for the hash and for signature recovery. A signature is 65
    bytes; its first byte names the signer. Recovery reverts on any other
    length, as the ECDSA library's [recover] does. *)
Definition keccak256 (b : bytes) : Z :=
  foldl (fun acc x => (acc * 257 + Z.of_N (Byte.to_N x)) mod 2 ^ 256) 0 b.

Definition _TYPEHASH : Z :=
  keccak256 (Forwarder.be_bytes 4 1179603536).

Definition _hashTypedDataV4 (structHash : Z) : Z :=
  keccak256 (Forwarder.abi_encode [6401; structHash]).

Definition recover (digest : Z) (sig : bytes) : result Z :=
  if (length sig =? 65)%nat
  then Ok (Z.of_N (Byte.to_N (hd Byte.x00 sig)))
  else Err "ECDSA: invalid signature length".

Definition sign (signer : Byte.byte) : bytes := signer :: replicate 64 Byte.x00.

Definition verify : Forwarder.Storage -> Forwarder.ForwardRequest -> bytes
                    -> result bool :=
  Forwarder.verify keccak256 _TYPEHASH _hashTypedDataV4 recover.

Record State := {
  forwarder : Forwarder.Storage;
  allowances : gmap (Z * Z) Z;
  balances : gmap Z Z;
  gasPriceNow : Z;
  mined : Z;
  reverted : list Z
}.

Definition relayerAddress : Z := 82.

Definition allowanceOf (s : State) (owner spender : Z) : Z :=
  default 0 (allowances s !! (owner, spender)).

Definition balanceOf (s : State) (a : Z) : Z :=
  default 0 (balances s !! a).

Definition setNonce (st : Forwarder.Storage) (a n : Z) : Forwarder.Storage :=
  {| Forwarder._nonces := <[a := n]> (Forwarder._nonces st);
     Forwarder.paymentToken := Forwarder.paymentToken st;
     Forwarder.minPayment := Forwarder.minPayment st |}.

(** Modelled from the spec: the parent forwarder's [execute], which is not
    under src/. A request that verifies is executed and advances its
    signer's nonce by exactly one; otherwise the transaction reverts and
    the nonce is unchanged. The transaction is mined either way. *)
Definition execute (s : State) (req : Forwarder.ForwardRequest) (sig : bytes)
  : TxResponse * State :=
  let accepted :=
    match verify (forwarder s) req sig with Ok true => true | _ => false end in
  ({| hash := mined s |},
   {| forwarder :=
        if accepted
        then setNonce (forwarder s) (Forwarder.from req) (Forwarder.nonce req + 1)
        else forwarder s;
      allowances := allowances s;
      balances := balances s;
      gasPriceNow := gasPriceNow s;
      mined := mined s + 1;
      reverted := if accepted then reverted s else mined s :: reverted s |}).

(** The token's [transferFrom] called by the relayer: it needs the
    sender's allowance to the relayer and the sender's balance. *)
Definition transferFrom (s : State) (sender recipient amount : Z)
  : result TxResponse * State :=
  if (amount <=? allowanceOf s sender relayerAddress)
     && (amount <=? balanceOf s sender)
  then
    (Ok {| hash := mined s |},
     {| forwarder := forwarder s;
        allowances :=
          <[(sender, relayerAddress) :=
              allowanceOf s sender relayerAddress - amount]> (allowances s);
        balances :=
          <[recipient := balanceOf s recipient + amount]>
            (<[sender := balanceOf s sender - amount]> (balances s));
        gasPriceNow := gasPriceNow s;
        mined := mined s + 1;
        reverted := reverted s |})
  else (Err "cannot estimate gas; transaction may fail", s).

Definition answer (X : Type) (e : Ext X) (s : State) : result X * State :=
  match e in Ext X return result X * State with
  | KmsDecrypt => (Ok {| wallet_address := relayerAddress |}, s)
  | ForwarderVerify req sig => (verify (forwarder s) req sig, s)
  | GetGasPrice => (Ok (gasPriceNow s), s)
  | UsdtAllowance owner spender => (Ok (allowanceOf s owner spender), s)
  | ForwarderExecute req sig _ _ =>
      let '(tx, s') := execute s req sig in (Ok tx, s')
  | TxWait tx =>
      if bool_decide (hash tx ∈ reverted s)
      then (Err "transaction failed", s)
      else (Ok {| transactionHash := hash tx |}, s)
  | UsdtTransferFrom sender recipient amount =>
      transferFrom s sender recipient amount
  | SqsDeleteMessage _ => (Ok tt, s)
  end.

Definition env : Env := Build_Env State answer.

(** [BigNumber.prototype.mul] of ethers v5 applied to a JavaScript number.
    The factor goes through [BigNumber.from], which throws for a number
    with a fractional part (fault "underflow") and for one outside the safe
    integers (fault "overflow"); an integer factor multiplies exactly. The
    texts stand for the messages of the thrown errors, which begin with
    them. *)
Definition MAX_SAFE : Z := 2 ^ 53 - 1.

Definition BigNumber_mul (x : Z) (factor : Fee.double) : result Z :=
  match factor with
  | SpecFloat.S754_zero _ => Ok 0
  | SpecFloat.S754_finite s m e =>
      if (e <? 0) && negb (Zpos m mod 2 ^ (- e) =? 0) then Err "underflow"
      else
        let magnitude := if 0 <=? e then Zpos m * 2 ^ e else Zpos m / 2 ^ (- e) in
        if MAX_SAFE <=? magnitude then Err "overflow"
        else Ok (x * (if s then - magnitude else magnitude))
  | SpecFloat.S754_infinity _ => Err "overflow"
  | SpecFloat.S754_nan => Err "invalid BigNumber string"
  end.

(** Message bodies of the examples: a body names a signer, a nonce and the
    payment offered. *)
Definition alice : Z := 65.

Definition request (n : Z) (offered : option Z) : MetaTx :=
  {| from := alice; to := 900; value := 0; gas := 500000; nonce := n;
     data := []; signature := sign Byte.x41; payment := offered |}.

Definition JSON_parse (body : string) : result MetaTx :=
  if String.eqb body "n0" then Ok (request 0 (Some 1000000))
  else if String.eqb body "n1" then Ok (request 1 (Some 1000000))
  else if String.eqb body "forged"
  then Ok {| from := alice; to := 900; value := 0; gas := 500000; nonce := 0;
             data := []; signature := sign Byte.x4d; payment := Some 1000000 |}
  else Err "Unexpected token in JSON".

Definition msg (body handle : string) : Message :=
  {| body := body; receiptHandle := handle |}.

Definition genesis (allowance balance : Z) : State :=
  {| forwarder := {| Forwarder._nonces := ∅; Forwarder.paymentToken := 777;
                     Forwarder.minPayment := 1000000 |};
     allowances := {[ (alice, relayerAddress) := allowance ]};
     balances := {[ alice := balance ]};
     gasPriceNow := 20000000000;
     mined := 0;
     reverted := [] |}.

(** The entries the handler answers with for a batch on the ledger. *)
Definition replies (Records : list Message) (s : State) : list Entry :=
  match outcome (run env (handler config BigNumber_mul JSON_parse Records) s) with
  | Ok (Status200 results) => results
  | _ => []
  end.

End Ledger.

(** ** Typed data of the signers *)

Module TypedData.

(** A [TypedDataField]. *)
Record Field := { name : string; type : string }.

(** An EIP-712 domain. *)
Record Domain := {
  domain_name : string;
  version : string;
  chainId : Z;
  verifyingContract : Z
}.

Record Signer := {
  domain : Domain;
  types_ForwardRequest : list Field
}.

(** route.ts, [GaslessTransactionSDK.getDomainData] and [signRequest]. *)
Definition getDomainData (chain forwarderAddress : Z) : Domain :=
  {| domain_name := "TokenPaymentForwarder";
     version := "0.0.1";
     chainId := chain;
     verifyingContract := forwarderAddress |}.

Definition signRequest (chain forwarderAddress : Z) : Signer :=
  {| domain := getDomainData chain forwarderAddress;
     types_ForwardRequest :=
       [ {| name := "from"; type := "address" |};
         {| name := "to"; type := "address" |};
         {| name := "value"; type := "uint256" |};
         {| name := "gas"; type := "uint256" |};
         {| name := "nonce"; type := "uint256" |};
         {| name := "data"; type := "bytes" |};
         {| name := "payment"; type := "uint256" |} ] |}.

(** The contract test ("Gasless Transactions"): [domain] and [types] of
    both test cases. *)
Definition CHAIN_ID : Z := 31337.

Definition test_signTypedData (forwarderAddress : Z) : Signer :=
  {| domain :=
       {| domain_name := "MinimalForwarder";
          version := "0.0.1";
          chainId := CHAIN_ID;
          verifyingContract := forwarderAddress |};
     types_ForwardRequest :=
       [ {| name := "from"; type := "address" |};
         {| name := "to"; type := "address" |};
         {| name := "value"; type := "uint256" |};
         {| name := "gas"; type := "uint256" |};
         {| name := "nonce"; type := "uint256" |};
         {| name := "data"; type := "bytes" |} ] |}.

(** The signers of the system, for a deployment on the test chain. *)
Definition signers (forwarderAddress : Z) : list Signer :=
  [ signRequest CHAIN_ID forwarderAddress;
    test_signTypedData forwarderAddress ].

(** The word [verify] encodes for a field of the request ([data] hashed). *)
Definition fieldWord (keccak256 : list Byte.byte -> Z)
    (req : Forwarder.ForwardRequest) (field : string) : Z :=
  if String.eqb field "from" then Forwarder.from req
  else if String.eqb field "to" then Forwarder.to req
  else if String.eqb field "value" then Forwarder.value req
  else if String.eqb field "gas" then Forwarder.gas req
  else if String.eqb field "nonce" then Forwarder.nonce req
  else if String.eqb field "data" then keccak256 (Forwarder.data req)
  else 0.

(** The layout the specification gives. *)
Definition spec_fields : list Field :=
  [ {| name := "from"; type := "address" |};
    {| name := "to"; type := "address" |};
    {| name := "value"; type := "uint256" |};
    {| name := "gas"; type := "uint256" |};
    {| name := "nonce"; type := "uint256" |};
    {| name := "data"; type := "bytes" |} ].

Definition conforms (forwarderAddress : Z) (s : Signer) : Prop :=
  types_ForwardRequest s = spec_fields
  /\ domain_name (domain s) = "TokenPaymentForwarder"
  /\ version (domain s) = "0.0.1"
  /\ verifyingContract (domain s) = forwarderAddress.

(** EIP-712 [encodeType]: the string whose hash is the type hash. *)
Definition encodeType (primary : string) (fields : list Field) : string :=
  primary +:+ "("
    +:+ String.concat "," (map (fun f => type f +:+ " " +:+ name f) fields)
    +:+ ")".

End TypedData.

(** ** Reading traces *)

Module Trace.

Import Relay.

(** The token transfers requested: sender, recipient, amount. *)
Definition transfer (ev : Event) : option (address * address * Z) :=
  match ev with
  | Ev e _ =>
      match e with
      | UsdtTransferFrom s r a => Some (s, r, a)
      | _ => None
      end
  end.

Definition transfers (t : list Event) : list (address * address * Z) :=
  omap transfer t.

(** The gas prices the provider reported. *)
Definition gasPrice (ev : Event) : option Z :=
  match ev with
  | Ev e r =>
      match e in Ext X return result X -> option Z with
      | GetGasPrice => fun r => match r with Ok p => Some p | Err _ => None end
      | _ => fun _ => None
      end r
  end.

Definition gasPrices (t : list Event) : list Z := omap gasPrice t.

(** The requests submitted to the forwarder's [execute]: a request in
    this list has reached Executing. *)
Definition submission (ev : Event)
  : option (Forwarder.ForwardRequest * bytes) :=
  match ev with
  | Ev e _ =>
      match e with
      | ForwarderExecute req sig _ _ => Some (req, sig)
      | _ => None
      end
  end.

Definition submitted (t : list Event)
  : list (Forwarder.ForwardRequest * bytes) :=
  omap submission t.

(** The requests the forwarder's [verify] accepted or refused. *)
Definition verdict (ev : Event)
  : option (Forwarder.ForwardRequest * bytes * bool) :=
  match ev with
  | Ev e r =>
      match e in Ext X return result X -> _ with
      | ForwarderVerify req sig =>
          fun r => match r with Ok b => Some (req, sig, b) | Err _ => None end
      | _ => fun _ => None
      end r
  end.

Definition verdicts (t : list Event)
  : list (Forwarder.ForwardRequest * bytes * bool) :=
  omap verdict t.

(** The allowances the token reported. *)
Definition allowance (ev : Event) : option Z :=
  match ev with
  | Ev e r =>
      match e in Ext X return result X -> option Z with
      | UsdtAllowance _ _ =>
          fun r => match r with Ok a => Some a | Err _ => None end
      | _ => fun _ => None
      end r
  end.

Definition allowances (t : list Event) : list Z := omap allowance t.

(** [holds P p t]: [P] holds of the events seen so far, [t], and of every
    longer sequence the program [p] can still produce, whatever the
    environment answers. *)
Fixpoint holds {A} (P : list Event -> Prop) (p : Prog A) (t : list Event)
  : Prop :=
  P t /\
  match p with
  | Await e k => forall r, holds P (k r) (t ++ [Ev e r])
  | _ => True
  end.

(** [ends P p t]: however [p] finishes after the events [t], [P] holds of
    all the events and of the result. *)
Fixpoint ends {A} (P : list Event -> result A -> Prop) (p : Prog A)
    (t : list Event) : Prop :=
  match p with
  | Ret a => P t (Ok a)
  | Throw m => P t (Err m)
  | Await e k => forall r, ends P (k r) (t ++ [Ev e r])
  end.

End Trace.

(** ** Two invocations in flight *)

Module InFlight.

Import Relay.


End InFlight.

(** ** Async functions over any set of awaited calls *)

Module Async.

Inductive Prog (Call : Type -> Type) (A : Type) : Type :=
| Ret (a : A)
| Throw (msg : string)
| Await {X : Type} (c : Call X) (k : result X -> Prog Call A).
Arguments Ret {Call A} a.
Arguments Throw {Call A} msg.
Arguments Await {Call A X} c k.

Fixpoint bind {Call A B} (p : Prog Call A) (f : A -> Prog Call B)
  : Prog Call B :=
  match p with
  | Ret a => f a
  | Throw m => Throw m
  | Await c k => Await c (fun r => bind (k r) f)
  end.

#[global] Instance prog_ret {Call} : MRet (Prog Call) := fun _ a => Ret a.
#[global] Instance prog_bind {Call} : MBind (Prog Call) :=
  fun _ _ f p => bind p f.

(** [await call]: a rejection throws. *)
Definition await {Call X} (c : Call X) : Prog Call X :=
  Await c (fun r => match r with Ok x => Ret x | Err m => Throw m end).

(** A synchronous library call that may throw. *)
Definition lift {Call A} (r : result A) : Prog Call A :=
  match r with Ok a => Ret a | Err m => Throw m end.

(** [try { p } catch (error) { h(error.message) }] *)
Fixpoint try_catch {Call A} (p : Prog Call A) (h : string -> Prog Call A)
  : Prog Call A :=
  match p with
  | Ret a => Ret a
  | Throw m => h m
  | Await c k => Await c (fun r => try_catch (k r) h)
  end.

(** One awaited call with its outcome. *)
Inductive Event (Call : Type -> Type) : Type :=
| Ev {X : Type} (c : Call X) (r : result X).
Arguments Ev {Call X} c r.

(** The services behind the calls: a state and the outcome of each call
    in it. *)
Record Env (Call : Type -> Type) := {
  World : Type;
  answer : forall X, Call X -> World -> result X * World
}.
Arguments World {Call} e.
Arguments answer {Call} e X c w.

Fixpoint run {Call A} (E : Env Call) (p : Prog Call A) (w : World E)
  : result A * list (Event Call) :=
  match p with
  | Ret a => (Ok a, [])
  | Throw m => (Err m, [])
  | Await c k =>
      let rw := answer E _ c w in
      let r := run E (k (fst rw)) (snd rw) in
      (fst r, Ev c (fst rw) :: snd r)
  end.

(** [ends P p t]: however [p] finishes after the events [t], [P] holds of
    all the events and of the result. *)
Fixpoint ends {Call A} (P : list (Event Call) -> result A -> Prop)
    (p : Prog Call A) (t : list (Event Call)) : Prop :=
  match p with
  | Ret a => P t (Ok a)
  | Throw m => P t (Err m)
  | Await c k => forall r, ends P (k r) (t ++ [Ev c r])
  end.

End Async.

(** ** The client SDK (route.ts, [GaslessTransactionSDK]) *)

Module Sdk.

Import Async.

Definition address := Z.
Definition bytes := list Byte.byte.

(** [interface ForwardRequest]; the numeric strings are their numbers. *)
Record ForwardRequest := {
  from : address;
  to : address;
  value : Z;
  gas : Z;
  nonce : Z;
  data : bytes;
  payment : Z
}.

(** An [ethers.ContractTransaction]. *)
Record ContractTransaction := { tx_hash : Z }.

(** The [Response] of [fetch]: its [ok] flag; the body is read by the
    awaited [text()] and [json()]. *)
Record FetchResponse := { ok : bool; response_id : Z }.

(** What the relayer answers. *)
Record Submitted := { transactionHash : string }.

(** The calls the SDK awaits. *)
Inductive Call : Type -> Type :=
| getAddress : Call address
| balanceOf (account : address) : Call Z
| approve (spender : address) (amount : Z) : Call ContractTransaction
| allowance (owner spender : address) : Call Z
| wait (tx : ContractTransaction) : Call unit
| getNonce (from : address) : Call Z
| minPayment : Call Z
| getNetwork : Call Z
| _signTypedData (domain : TypedData.Domain) (types : list TypedData.Field)
    (request : ForwardRequest) : Call bytes
| fetch (url : string) (request : ForwardRequest) (signature : bytes)
    : Call FetchResponse
| response_text (response : FetchResponse) : Call string
| response_json (response : FetchResponse) : Call Submitted.

Section Class.

(** The functions of the ethers library the class calls, on the strings
    its callers pass: [ethers.utils.parseUnits(value, decimals)], which
    throws on a string it does not accept, [ethers.utils.formatUnits(value,
    decimals)], and [usdtContract.interface.encodeFunctionData('transfer',
    [recipient, amount])], which throws on a recipient that is no address
    and on an amount outside uint256. *)
Variable parseUnits : string -> Z -> result Z.
Variable formatUnits : Z -> Z -> string.
Variable encodeFunctionData_transfer : string -> Z -> result bytes.

(** [this.usdtContract.address], [this.forwarderContract.address] and
    [this.relayerUrl]. *)
Variable usdtAddress : address.
Variable forwarderAddress : address.
Variable relayerUrl : string.

(** [hasUSDTBalance(amount)] *)
Definition hasUSDTBalance (amount : string) : Prog Call bool :=
  userAddress ← await getAddress;
  balance ← await (balanceOf userAddress);
  requiredAmount ← lift (parseUnits amount 6);
  mret (requiredAmount <=? balance).

(** [approveUSDT(amount)] *)
Definition approveUSDT (amount : string) : Prog Call ContractTransaction :=
  parsedAmount ← lift (parseUnits amount 6);
  await (approve forwarderAddress parsedAmount).

(** [getDomainData()] *)
Definition getDomainData : Prog Call TypedData.Domain :=
  chainId ← await getNetwork;
  mret (TypedData.getDomainData chainId forwarderAddress).

(** [signRequest(request)] *)
Definition signRequest (request : ForwardRequest) : Prog Call bytes :=
  domain ← getDomainData;
  await (_signTypedData domain
           (TypedData.types_ForwardRequest
              (TypedData.signRequest (TypedData.chainId domain) forwarderAddress))
           request).

(** [createForwardRequest(recipient, amount, payment)]: the call data is
    encoded from the parsed amount before the payment is parsed. *)
Definition createForwardRequest (recipient amount payment : string)
  : Prog Call ForwardRequest :=
  from ← await getAddress;
  nonce ← await (getNonce from);
  transferred ← lift (parseUnits amount 6);
  transferData ← lift (encodeFunctionData_transfer recipient transferred);
  paid ← lift (parseUnits payment 6);
  mret {| from := from;
          to := usdtAddress;
          value := 0;
          gas := 300000;
          nonce := nonce;
          data := transferData;
          payment := paid |}.

(** [submitToRelayer(request, signature)] *)
Definition submitToRelayer (request : ForwardRequest) (signature : bytes)
  : Prog Call Submitted :=
  response ← await (fetch relayerUrl request signature);
  if negb (ok response) then
    text ← await (response_text response);
    Throw ("Relayer error: " +:+ text)
  else await (response_json response).

(** [transferUSDT(recipient, amount, payment)] *)
Definition transferUSDT (recipient amount payment : string)
  : Prog Call Submitted :=
  transferred ← lift (parseUnits amount 6);
  paid ← lift (parseUnits payment 6);
  let totalAmount := transferred + paid in
  enough ← hasUSDTBalance (formatUnits totalAmount 6);
  if negb enough then Throw "Insufficient USDT balance"
  else
    userAddress ← await getAddress;
    allowed ← await (allowance userAddress forwarderAddress);
    _ ← (if allowed <? totalAmount then
           approveTx ← approveUSDT (formatUnits totalAmount 6);
           await (wait approveTx)
         else mret tt);
    request ← createForwardRequest recipient amount payment;
    signature ← signRequest request;
    submitToRelayer request signature.

(** [getMinimumPayment()] *)
Definition getMinimumPayment : Prog Call string :=
  minimum ← await minPayment;
  mret (formatUnits minimum 6).

End Class.

(** *** Reading the SDK's calls *)

Definition approval (ev : Event Call) : option (address * Z) :=
  match ev with
  | Ev c _ => match c with approve s a => Some (s, a) | _ => None end
  end.

Definition approvals (t : list (Event Call)) : list (address * Z) :=
  omap approval t.

(** What was signed, with the signature obtained. *)
Definition signing (ev : Event Call)
  : option (TypedData.Domain * list TypedData.Field * ForwardRequest * bytes) :=
  match ev with
  | Ev c r =>
      match c in Call X return result X -> _ with
      | _signTypedData d tys req =>
          fun r => match r with Ok sig => Some (d, tys, req, sig) | Err _ => None end
      | _ => fun _ => None
      end r
  end.

Definition signings (t : list (Event Call)) := omap signing t.

(** What was posted to the relayer. *)
Definition post (ev : Event Call) : option (string * ForwardRequest * bytes) :=
  match ev with
  | Ev c _ => match c with fetch u req sig => Some (u, req, sig) | _ => None end
  end.

Definition posts (t : list (Event Call)) := omap post t.

(** The balances, allowances, nonces, addresses and chain ids read. *)
Definition balanceRead (ev : Event Call) : option Z :=
  match ev with
  | Ev c r =>
      match c in Call X return result X -> option Z with
      | balanceOf _ => fun r => match r with Ok b => Some b | Err _ => None end
      | _ => fun _ => None
      end r
  end.

Definition allowanceRead (ev : Event Call) : option Z :=
  match ev with
  | Ev c r =>
      match c in Call X return result X -> option Z with
      | allowance _ _ => fun r => match r with Ok b => Some b | Err _ => None end
      | _ => fun _ => None
      end r
  end.

Definition nonceRead (ev : Event Call) : option (address * Z) :=
  match ev with
  | Ev c r =>
      match c in Call X return result X -> option (address * Z) with
      | getNonce a => fun r => match r with Ok n => Some (a, n) | Err _ => None end
      | _ => fun _ => None
      end r
  end.

Definition addressRead (ev : Event Call) : option address :=
  match ev with
  | Ev c r =>
      match c in Call X return result X -> option address with
      | getAddress => fun r => match r with Ok a => Some a | Err _ => None end
      | _ => fun _ => None
      end r
  end.

Definition networkRead (ev : Event Call) : option Z :=
  match ev with
  | Ev c r =>
      match c in Call X return result X -> option Z with
      | getNetwork => fun r => match r with Ok a => Some a | Err _ => None end
      | _ => fun _ => None
      end r
  end.

(** The responses of the relayer, what their [text()] resolved to, and the
    calls of [json()]. *)
Definition fetched (ev : Event Call) : option FetchResponse :=
  match ev with
  | Ev c r =>
      match c in Call X return result X -> option FetchResponse with
      | fetch _ _ _ => fun r => match r with Ok x => Some x | Err _ => None end
      | _ => fun _ => None
      end r
  end.

Definition textRead (ev : Event Call) : option string :=
  match ev with
  | Ev c r =>
      match c in Call X return result X -> option string with
      | response_text _ => fun r => match r with Ok x => Some x | Err _ => None end
      | _ => fun _ => None
      end r
  end.

Definition jsonRead (ev : Event Call) : option (result Submitted) :=
  match ev with
  | Ev c r =>
      match c in Call X return result X -> option (result Submitted) with
      | response_json _ => fun r => Some r
      | _ => fun _ => None
      end r
  end.

(** *** An in-memory stand-in for the services behind the SDK

    One user, one token, one forwarder, and a relayer that accepts or
    refuses every submission. *)
Record Chain := {
  user : address;
  usdtBalance : Z;
  usdtAllowance : Z;
  forwarderNonce : Z;
  network : Z;
  relayerAccepts : bool
}.

Definition respond (X : Type) (c : Call X) (w : Chain) : result X * Chain :=
  match c in Call X return result X * Chain with
  | getAddress => (Ok (user w), w)
  | balanceOf _ => (Ok (usdtBalance w), w)
  | approve _ amount =>
      (Ok {| tx_hash := 1 |},
       {| user := user w; usdtBalance := usdtBalance w; usdtAllowance := amount;
          forwarderNonce := forwarderNonce w; network := network w;
          relayerAccepts := relayerAccepts w |})
  | allowance _ _ => (Ok (usdtAllowance w), w)
  | wait _ => (Ok tt, w)
  | getNonce _ => (Ok (forwarderNonce w), w)
  | minPayment => (Ok 1000000, w)
  | getNetwork => (Ok (network w), w)
  | _signTypedData _ _ _ => (Ok (Ledger.sign Byte.x41), w)
  | fetch _ _ _ => (Ok {| ok := relayerAccepts w; response_id := 0 |}, w)
  | response_text _ => (Ok "queue unavailable", w)
  | response_json _ => (Ok {| transactionHash := "0x01" |}, w)
  end.

Definition services : Env Call := {| World := Chain; answer := respond |}.

(** A user holding [balance] base units who has approved [allowed]. *)
Definition holder (balance allowed : Z) (accepts : bool) : Chain :=
  {| user := Ledger.alice; usdtBalance := balance; usdtAllowance := allowed;
     forwarderNonce := 0; network := TypedData.CHAIN_ID;
     relayerAccepts := accepts |}.

(** Tables standing in for the library on the strings of the class's
    usage example, [transferUSDT("0xRECIPIENT", "10.0", "1.0")], and on
    the total formatted from them; what the library does on other
    arguments is outside the tables. *)
Definition parseUnits_example (value : string) (decimals : Z) : result Z :=
  if negb (decimals =? 6) then Err "outside the table"
  else if String.eqb value "10.0" then Ok 10000000
  else if String.eqb value "1.0" then Ok 1000000
  else if String.eqb value "11.0" then Ok 11000000
  else Err "outside the table".

Definition formatUnits_example (value decimals : Z) : string :=
  if (value =? 11000000) && (decimals =? 6) then "11.0" else "outside the table".

(** The recipient of the examples, and the call data of
    [transfer(address,uint256)] for it: the selector 0xa9059cbb and the two
    arguments as 32-byte words. *)
Definition bob : string := "0x0000000000000000000000000000000000000042".

Definition encodeFunctionData_example (recipient : string) (amount : Z)
  : result bytes :=
  if String.eqb recipient bob && (0 <=? amount)
     && (amount <=? Forwarder.MAX_UINT256)
  then Ok (Forwarder.be_bytes 4 2835717307 ++ Forwarder.abi_encode [66; amount])
  else Err "outside the table".

(** [transferUSDT] of the usage example, to [bob], and the request it
    builds for ["10.0"] and ["1.0"]. *)
Definition example (amount payment : string) : Prog Call Submitted :=
  transferUSDT parseUnits_example formatUnits_example
    encodeFunctionData_example 777 70 "https://relayer" bob amount payment.

Definition example_request : ForwardRequest :=
  {| from := Ledger.alice; to := 777; value := 0; gas := 300000; nonce := 0;
     data := Forwarder.be_bytes 4 2835717307
             ++ Forwarder.abi_encode [66; 10000000];
     payment := 1000000 |}.

End Sdk.

(** ** The account route (route.ts, [GET] and [PATCH]) *)

Module Accounts.

Import Async.

#[local] Set Warnings "-register-all".

(** A value produced by [request.json()]. The members of an object are in
    the order of the text; a repeated key reads as its last occurrence. *)
Inductive Json :=
| JNull
| JBool (b : bool)
| JNumber (x : Fee.double)
| JString (s : string)
| JArray (items : list Json)
| JObject (members : list (string * Json)).

(** [session?.user?.email] reads through these. *)
Record User := { email : option string }.
Record Session := { user : option User }.

(** [NextResponse.json(body, { status })] (status 200 when not given) and
    [NextResponse.error()]. *)
Inductive Response :=
| NextResponse_json (body : Json) (status : Z)
| NextResponse_error.

Inductive Call : Type -> Type :=
| getServerSession : Call (option Session)
| request_json : Call Json
| getWallet (address : option string) (email : string) : Call Json
| updateWalletName (address email name : string) : Call Json
| logger_error (error : string) : Call unit.

(** [!value] *)
Definition falsy (v : Json) : bool :=
  match v with
  | JNull => true
  | JBool b => negb b
  | JNumber x =>
      match x with S754_zero _ | S754_nan => true | _ => false end
  | JString s => String.eqb s ""
  | JArray _ | JObject _ => false
  end.

(** [typeof value] *)
Definition typeof (v : Json) : string :=
  match v with
  | JNull | JArray _ | JObject _ => "object"
  | JBool _ => "boolean"
  | JNumber _ => "number"
  | JString _ => "string"
  end.

(** [value[key]] on a parsed object; [None] is [undefined]. *)
Definition get (key : string) (v : Json) : option Json :=
  match v with
  | JObject members =>
      last (omap (fun kv => if String.eqb (fst kv) key then Some (snd kv) else None)
              members)
  | _ => None
  end.

(** [key in value], for a key that no prototype defines. *)
Definition has (key : string) (v : Json) : bool :=
  match get key v with Some _ => true | None => false end.

(** [typeof rawBody.name !== 'string'] *)
Definition name_is_string (v : Json) : bool :=
  match get "name" v with
  | Some w => String.eqb (typeof w) "string"
  | None => false
  end.

(** The type guard of [PATCH]. *)
Definition invalid_body (rawBody : Json) : bool :=
  falsy rawBody
  || negb (String.eqb (typeof rawBody) "object")
  || negb (has "name" rawBody)
  || negb (name_is_string rawBody).

(** [session?.user?.email] when it is truthy. *)
Definition session_email (session : option Session) : option string :=
  match session with
  | Some {| user := Some {| email := Some e |} |} =>
      if String.eqb e "" then None else Some e
  | _ => None
  end.

Definition not_authorized : Response :=
  NextResponse_json (JObject [("message", JString "Not authorized")]) 401.

Definition invalid_request_body : Response :=
  NextResponse_json (JObject [("message", JString "Invalid request body")]) 400.

(** [x || ''] on an optional string. *)
Definition or_empty (s : option string) : string := default "" s.

(** [export async function GET(request, { params })] *)
Definition GET (address : option string) : Prog Call Response :=
  try_catch
    (session ← await getServerSession;
     match session_email session with
     | None => mret not_authorized
     | Some email =>
         wallet ← await (getWallet address email);
         mret (NextResponse_json wallet 200)
     end)
    (fun error =>
       _ ← await (logger_error error);
       mret NextResponse_error).

(** [export async function PATCH(request, { params })] *)
Definition PATCH (address : option string) : Prog Call Response :=
  try_catch
    (session ← await getServerSession;
     match session_email session with
     | None => mret not_authorized
     | Some email =>
         rawBody ← await request_json;
         if invalid_body rawBody then mret invalid_request_body
         else
           let name :=
             match get "name" rawBody with Some (JString s) => Some s | _ => None end in
           updated ← await (updateWalletName (or_empty address) email
                              (or_empty name));
           mret (NextResponse_json updated 200)
     end)
    (fun error =>
       _ ← await (logger_error error);
       mret NextResponse_error).

(** The updates requested: address, e-mail and name. *)
Definition update (ev : Event Call) : option (string * string * string) :=
  match ev with
  | Ev c _ =>
      match c with
      | updateWalletName a e n => Some (a, e, n)
      | _ => None
      end
  end.

Definition updates (t : list (Event Call)) := omap update t.

(** The wallets looked up: address and e-mail. *)
Definition lookup_wallet (ev : Event Call) : option (option string * string) :=
  match ev with
  | Ev c _ =>
      match c with
      | getWallet a e => Some (a, e)
      | _ => None
      end
  end.

Definition lookups (t : list (Event Call)) := omap lookup_wallet t.

(** The request bodies read and the sessions obtained. *)
Definition bodyRead (ev : Event Call) : option Json :=
  match ev with
  | Ev c r =>
      match c in Call X return result X -> option Json with
      | request_json => fun r => match r with Ok b => Some b | Err _ => None end
      | _ => fun _ => None
      end r
  end.

Definition sessionRead (ev : Event Call) : option (option Session) :=
  match ev with
  | Ev c r =>
      match c in Call X return result X -> option (option Session) with
      | getServerSession => fun r => match r with Ok s => Some s | Err _ => None end
      | _ => fun _ => None
      end r
  end.

Definition logged (ev : Event Call) : option string :=
  match ev with
  | Ev c _ => match c with logger_error m => Some m | _ => None end
  end.

(** *** An in-memory stand-in for the session and wallet services *)

Record Visit := {
  visitor : option Session;
  sent : result Json
}.

Definition serve (X : Type) (c : Call X) (v : Visit) : result X * Visit :=
  match c in Call X return result X * Visit with
  | getServerSession => (Ok (visitor v), v)
  | request_json => (sent v, v)
  | getWallet a e =>
      (Ok (JObject [("address", JString (or_empty a)); ("owner", JString e)]), v)
  | updateWalletName a e n =>
      (Ok (JObject [("address", JString a); ("name", JString n)]), v)
  | logger_error _ => (Ok tt, v)
  end.

Definition site : Env Call := {| World := Visit; answer := serve |}.

(** A signed-in visitor sending [body]. *)
Definition signed_in (mail : string) (body : result Json) : Visit :=
  {| visitor := Some {| user := Some {| email := Some mail |} |};
     sent := body |}.

End Accounts.

(** A double that is not a negative number. *)
Definition not_negative (x : Fee.double) : Prop :=
  match x with S754_finite true _ _ => False | _ => True end.

(** ** More readings of the Lambda's calls *)

Module Observed.

Import Relay.

(** The relayer wallets the key service returned. *)
Definition wallet (ev : Event) : option Wallet :=
  match ev with
  | Ev e r =>
      match e in Ext X return result X -> option Wallet with
      | KmsDecrypt => fun r => match r with Ok w => Some w | Err _ => None end
      | _ => fun _ => None
      end r
  end.

Definition wallets (t : list Event) : list Wallet := omap wallet t.

(** The allowances asked for: owner and spender. *)
Definition allowanceQuery (ev : Event) : option (address * address) :=
  match ev with
  | Ev e _ =>
      match e with
      | UsdtAllowance owner spender => Some (owner, spender)
      | _ => None
      end
  end.

Definition allowanceQueries (t : list Event) : list (address * address) :=
  omap allowanceQuery t.

(** Whether the event is a call of the key service. *)
Definition decrypt (ev : Event) : bool :=
  match ev with
  | Ev e _ => match e with KmsDecrypt => true | _ => false end
  end.

Definition decrypts (t : list Event) : nat :=
  length (filter (fun ev => decrypt ev = true) t).

End Observed.

(** * Properties *)

(** ** The verifier *)

Section VerifierFacts.

Variable keccak256 : Forwarder.bytes -> Z.
Variable _TYPEHASH : Z.
Variable _hashTypedDataV4 : Z -> Z.
Variable recover : Z -> Forwarder.bytes -> result Z.

Abbreviation verify := (Forwarder.verify keccak256 _TYPEHASH _hashTypedDataV4 recover).
Abbreviation digest := (Forwarder.digest keccak256 _TYPEHASH _hashTypedDataV4).

(** [verify] returns whatever recovery returns, compared with the request. *)
Lemma verify_recovered st req sig signer :
  recover (digest req) sig = Ok signer ->
  verify st req sig =
    Ok ((Forwarder.getNonce st (Forwarder.from req) =? Forwarder.nonce req)
        && (signer =? Forwarder.from req)).
Proof. intros H. unfold Forwarder.verify. rewrite H. reflexivity. Qed.

(** A revert inside recovery is a revert of [verify]. *)
Lemma verify_recover_fault st req sig msg :
  recover (digest req) sig = Err msg -> verify st req sig = Err msg.
Proof. intros H. unfold Forwarder.verify. rewrite H. reflexivity. Qed.

Lemma verify_true_inv st req sig :
  verify st req sig = Ok true ->
  recover (digest req) sig = Ok (Forwarder.from req)
  /\ Forwarder.nonce req = Forwarder.getNonce st (Forwarder.from req).
Proof.
  unfold Forwarder.verify.
  destruct (recover (digest req) sig) as [signer|msg]; cbn; [|discriminate].
  intros [= H]. apply andb_true_iff in H as [Hn Hs].
  apply Z.eqb_eq in Hn, Hs. subst signer. auto.
Qed.

(** C1 (as amended): [verify] returns true exactly when the identity
    recovered from the signature over the domain-bound digest is
    [request.from] and [request.nonce] is the current nonce of the
    registry; hence a request whose nonce no longer matches is never
    accepted: [verify] is false whatever identity the signature recovers
    to, it reverts when recovery reverts, and [executeWithPayment], which
    requires it first, reverts in both cases. *)
Theorem verify_true_iff st req sig :
  (verify st req sig = Ok true <->
     recover (digest req) sig = Ok (Forwarder.from req)
     /\ Forwarder.nonce req = Forwarder.getNonce st (Forwarder.from req))
  /\ (Forwarder.nonce req <> Forwarder.getNonce st (Forwarder.from req) ->
      verify st req sig <> Ok true
      /\ (forall signer, recover (digest req) sig = Ok signer ->
            verify st req sig = Ok false)
      /\ (forall Token allowance transferFrom execute this tok paymentInfo,
            is_ok (Forwarder.executeWithPayment keccak256 _TYPEHASH
                     _hashTypedDataV4 recover Token allowance transferFrom
                     execute this (st, tok) req sig paymentInfo) = false)
      /\ (forall msg, recover (digest req) sig = Err msg ->
            verify st req sig = Err msg)).
Proof.
  split.
  - split; [apply verify_true_inv|].
    intros [Hr Hn]. rewrite (verify_recovered _ _ _ _ Hr), <- Hn.
    by rewrite !Z.eqb_refl.
  - intros Hn.
    assert (Hfalse : forall signer, recover (digest req) sig = Ok signer ->
              verify st req sig = Ok false).
    { intros signer Hr. rewrite (verify_recovered _ _ _ _ Hr).
      destruct (Z.eqb_spec (Forwarder.getNonce st (Forwarder.from req))
                  (Forwarder.nonce req)); [congruence | reflexivity]. }
    split; [|split; [exact Hfalse|split]].
    + intros Ht. apply verify_true_inv in Ht as [_ Ht]. contradiction.
    + intros. unfold Forwarder.executeWithPayment.
      destruct (verify st req sig) as [[|]|msg] eqn:Hv; try reflexivity.
      apply verify_true_inv in Hv as [_ Hv]. contradiction.
    + intros msg. apply verify_recover_fault.
Qed.

End VerifierFacts.

(** A replayed request (nonce 0 after the registry moved to 1) with a
    well-formed signature of its sender: [verify] is false. *)
Lemma verify_true_iff_witness :
  Ledger.verify
    (Ledger.setNonce (Ledger.forwarder (Ledger.genesis 0 0)) Ledger.alice 1)
    (Relay.requestTuple (Ledger.request 0 None)) (Ledger.sign Byte.x41)
  = Ok false.
Proof.
  refine (proj1 (proj2 (proj2 (verify_true_iff Ledger.keccak256
            Ledger._TYPEHASH Ledger._hashTypedDataV4 Ledger.recover _ _ _) _))
            Ledger.alice _).
  - vm_compute. discriminate.
  - reflexivity.
Defined.

(** The same replayed request carrying a three-byte signature: [verify]
    does not return false, it reverts. *)
Lemma stale_request_with_short_signature_reverts :
  Forwarder.nonce (Relay.requestTuple (Ledger.request 0 None))
    <> Forwarder.getNonce
         (Ledger.setNonce (Ledger.forwarder (Ledger.genesis 0 0)) Ledger.alice 1)
         (Forwarder.from (Relay.requestTuple (Ledger.request 0 None)))
  /\ Ledger.verify
       (Ledger.setNonce (Ledger.forwarder (Ledger.genesis 0 0)) Ledger.alice 1)
       (Relay.requestTuple (Ledger.request 0 None))
       [Byte.x41; Byte.x00; Byte.x00]
     <> Ok false
  /\ is_ok
       (Ledger.verify
          (Ledger.setNonce (Ledger.forwarder (Ledger.genesis 0 0)) Ledger.alice 1)
          (Relay.requestTuple (Ledger.request 0 None))
          [Byte.x41; Byte.x00; Byte.x00])
     = false.
Proof.
  split; [vm_compute; discriminate|].
  split; [vm_compute; discriminate | vm_compute; reflexivity].
Qed.

(** ** The payment policy *)

(** C2: [verifyPayment] accepts exactly when the payment reaches
    [minPayment] and the sender's allowance to the forwarder covers the
    payment; every payment below the floor is rejected, one unit below it
    and, under a positive floor, zero included. *)
Theorem verifyPayment_true_iff allowance this st req paymentInfo :
  (Forwarder.verifyPayment allowance this st req paymentInfo = true <->
     Forwarder.minPayment st <= Forwarder.payment paymentInfo
     /\ Forwarder.payment paymentInfo <= allowance (Forwarder.from req) this)
  /\ (forall low,
        Forwarder.payment low < Forwarder.minPayment st ->
        Forwarder.verifyPayment allowance this st req low = false)
  /\ (forall sig,
        Forwarder.verifyPayment allowance this st req
          {| Forwarder.payment := Forwarder.minPayment st - 1;
             Forwarder.paymentSignature := sig |} = false)
  /\ (forall sig,
        0 < Forwarder.minPayment st ->
        Forwarder.verifyPayment allowance this st req
          {| Forwarder.payment := 0; Forwarder.paymentSignature := sig |}
        = false).
Proof.
  unfold Forwarder.verifyPayment. repeat split.
  - destruct (Z.ltb_spec (Forwarder.payment paymentInfo) (Forwarder.minPayment st));
      [discriminate | lia].
  - destruct (Z.ltb_spec (Forwarder.payment paymentInfo) (Forwarder.minPayment st));
      [discriminate|].
    destruct (Z.ltb_spec (allowance (Forwarder.from req) this)
                (Forwarder.payment paymentInfo)); [discriminate | lia].
  - intros [Hmin Hall].
    destruct (Z.ltb_spec (Forwarder.payment paymentInfo) (Forwarder.minPayment st));
      [lia|].
    destruct (Z.ltb_spec (allowance (Forwarder.from req) this)
                (Forwarder.payment paymentInfo)); [lia | reflexivity].
  - intros low Hlow.
    destruct (Z.ltb_spec (Forwarder.payment low) (Forwarder.minPayment st));
      [reflexivity | lia].
  - intros sig. cbn.
    destruct (Z.ltb_spec (Forwarder.minPayment st - 1) (Forwarder.minPayment st));
      [reflexivity | lia].
  - intros sig Hpos. cbn.
    destruct (Z.ltb_spec 0 (Forwarder.minPayment st)); [reflexivity | lia].
Qed.

(** The scenario of the specification: 999999 offered under a floor of
    1000000 is rejected; 1000000 with enough allowance is accepted. *)
Lemma verifyPayment_true_iff_witness :
  Forwarder.verifyPayment (fun _ _ => 5000000) 1
    (Ledger.forwarder (Ledger.genesis 0 0))
    (Relay.requestTuple (Ledger.request 0 None))
    {| Forwarder.payment := 999999; Forwarder.paymentSignature := [] |} = false
  /\ Forwarder.verifyPayment (fun _ _ => 5000000) 1
       (Ledger.forwarder (Ledger.genesis 0 0))
       (Relay.requestTuple (Ledger.request 0 None))
       {| Forwarder.payment := 1000000; Forwarder.paymentSignature := [] |} = true.
Proof.
  split.
  - apply (proj1 (proj2 (verifyPayment_true_iff _ _ _ _
                           {| Forwarder.payment := 0;
                              Forwarder.paymentSignature := [] |}))).
    cbn. lia.
  - apply (proj1 (verifyPayment_true_iff _ _ _ _ _)). cbn. lia.
Defined.

(** ** Runs of relay programs *)

#[local] Set Warnings "-clear-no-such-hyp".

#[global] Arguments Fee.calculatePayment : simpl never.
#[global] Arguments Trace.holds : simpl never.
#[global] Arguments Trace.ends : simpl never.

Section RunFacts.

Import Relay.

Variable E : Env.

Lemma run_bind {A B} (p : Prog A) (f : A -> Prog B) w :
  run E (bind p f) w =
    match outcome (run E p w) with
    | Ok a =>
        {| outcome := outcome (run E (f a) (final (run E p w)));
           final := final (run E (f a) (final (run E p w)));
           trace := trace (run E p w)
                      ++ trace (run E (f a) (final (run E p w))) |}
    | Err m =>
        {| outcome := Err m; final := final (run E p w);
           trace := trace (run E p w) |}
    end.
Proof.
  revert w. induction p as [a|m|X e k IH]; intros w; cbn.
  - by destruct (run E (f a) w).
  - done.
  - rewrite IH. by destruct (outcome (run E (k _) _)).
Qed.

Lemma run_try_catch {A} (p : Prog A) (h : string -> Prog A) w :
  run E (try_catch p h) w =
    match outcome (run E p w) with
    | Ok a =>
        {| outcome := Ok a; final := final (run E p w);
           trace := trace (run E p w) |}
    | Err m =>
        {| outcome := outcome (run E (h m) (final (run E p w)));
           final := final (run E (h m) (final (run E p w)));
           trace := trace (run E p w)
                      ++ trace (run E (h m) (final (run E p w))) |}
    end.
Proof.
  revert w. induction p as [a|m|X e k IH]; intros w; cbn.
  - done.
  - by destruct (run E (h m) w).
  - rewrite IH. by destruct (outcome (run E (k _) _)).
Qed.

Lemma holds_here {A} P (p : Prog A) t : Trace.holds P p t -> P t.
Proof. destruct p; intros [H _]; exact H. Qed.

(** What holds along every path holds of the trace of a run. *)
Lemma holds_run {A} P (p : Prog A) t w :
  Trace.holds P p t -> P (t ++ trace (run E p w)).
Proof.
  revert t w. induction p as [a|m|X e k IH]; intros t w Hp; cbn.
  - rewrite app_nil_r. exact (holds_here _ _ _ Hp).
  - rewrite app_nil_r. exact (holds_here _ _ _ Hp).
  - destruct Hp as [_ Hk]. rewrite cons_middle, app_assoc. apply IH, Hk.
Qed.

Lemma ends_run {A} P (p : Prog A) t w :
  Trace.ends P p t -> P (t ++ trace (run E p w)) (outcome (run E p w)).
Proof.
  revert t w. induction p as [a|m|X e k IH]; intros t w Hp; cbn.
  - rewrite app_nil_r. exact Hp.
  - rewrite app_nil_r. exact Hp.
  - rewrite cons_middle, app_assoc. apply IH, Hp.
Qed.

End RunFacts.

Lemma holds_await {A X} P (e : Relay.Ext X)
    (k : result X -> Relay.Prog A) t :
  P t -> (forall r, Trace.holds P (k r) (t ++ [Relay.Ev e r])) ->
  Trace.holds P (Relay.Await e k) t.
Proof. intros; split; assumption. Qed.

Lemma holds_ret {A} P (a : A) t : P t -> Trace.holds P (Relay.Ret a) t.
Proof. intros; split; [assumption | exact I]. Qed.

Lemma holds_throw {A} P m t : P t -> Trace.holds (A:=A) P (Relay.Throw m) t.
Proof. intros; split; [assumption | exact I]. Qed.

(** One step through [processMetaTransaction]: the next await with either
    outcome, the next library call, the next test. *)
Ltac holds_step :=
  lazymatch goal with
  | |- Trace.holds _ (if negb ?b then _ else _) _ => destruct b eqn:?; cbn
  | |- Trace.holds _ (Relay.lift ?r ≫= _) _ => destruct r eqn:?; cbn
  | |- Trace.holds _ (Relay.Await _ _) _ =>
      apply holds_await; [|intros [?|?]; cbn]
  | |- Trace.holds _ (Relay.Ret _) _ => apply holds_ret
  | |- Trace.holds _ (mret _) _ => apply holds_ret
  | |- Trace.holds _ (Relay.Throw _) _ => apply holds_throw
  end.

Ltac ends_step :=
  lazymatch goal with
  | |- Trace.ends _ (if negb ?b then _ else _) _ => destruct b eqn:?; cbn
  | |- Trace.ends _ (Relay.lift ?r ≫= _) _ => destruct r eqn:?; cbn
  | |- Trace.ends _ (Relay.Await _ _) _ =>
      unfold Trace.ends; fold @Trace.ends; intros [?|?]; cbn
  | |- Trace.ends _ (Relay.Ret _) _ => unfold Trace.ends
  | |- Trace.ends _ (mret _) _ => unfold Trace.ends, mret, Relay.prog_ret
  | |- Trace.ends _ (Relay.Throw _) _ => unfold Trace.ends
  end.

Ltac unfold_process :=
  unfold Relay.processMetaTransaction, Relay.verifyAllowance,
    Relay.getRelayerKey; cbn.

Section ProcessFacts.

Import Relay.

Variable cfg : Config.
Variable BigNumber_mul : Z -> Fee.double -> result Z.

Abbreviation process := (processMetaTransaction cfg BigNumber_mul).

(** [processMetaTransaction] never calls [deleteMessage]. *)
Lemma process_deletes_nothing m :
  Trace.holds (fun t => Queue.deleted t = []) (process m) [].
Proof. unfold_process. repeat holds_step; reflexivity. Qed.

(** A request the forwarder's [verify] refuses ends in the Error
    "Invalid signature", before any price or allowance is read. *)
Lemma process_refused m :
  Trace.ends
    (fun t o => forall req sig, (req, sig, false) ∈ Trace.verdicts t ->
       o = Err "Invalid signature" /\ Trace.submitted t = []
       /\ Trace.transfers t = [])
    (process m) [].
Proof.
  unfold_process. repeat ends_step; cbn; intros req sig; set_solver.
Qed.

End ProcessFacts.


(** A request the token reports too small an allowance for ends in the
    Error "Insufficient USDT allowance" and is never submitted. *)
Lemma process_insufficient cfg BigNumber_mul m :
  Trace.ends
    (fun t o => forall gp required a,
       Trace.gasPrices t = [gp] ->
       Fee.calculatePayment (Relay.gas m) gp = Ok required ->
       Trace.allowances t = [a] -> a < required ->
       o = Err "Insufficient USDT allowance" /\ Trace.submitted t = [])
    (Relay.processMetaTransaction cfg BigNumber_mul m) [].
Proof.
  unfold_process. repeat ends_step; cbn; intros gp required a'; try discriminate.
  all: intros [= <-] Hc [= <-] Hlt; try (split; reflexivity).
  all: exfalso; rewrite Hc in *; simplify_eq; lia.
Qed.

(** When [BigNumber.mul] rejects the configured buffer, every run ends with
    an exception before anything is submitted or transferred. *)
Lemma process_stops_at_rejected_buffer cfg BigNumber_mul m :
  (forall gasPrice,
     is_ok (BigNumber_mul gasPrice (Relay.gasBuffer cfg)) = false) ->
  Trace.ends
    (fun t o => is_ok o = false /\ Trace.submitted t = []
                /\ Trace.transfers t = [])
    (Relay.processMetaTransaction cfg BigNumber_mul m) [].
Proof.
  intros Hmul. unfold_process. repeat ends_step; cbn; try done.
  all: match goal with
       | H : _ ?g (Relay.gasBuffer _) = Ok _ |- _ =>
           pose proof (Hmul g) as Hg; rewrite H in Hg; discriminate
       end.
Qed.


(** ** The handler *)

#[global] Arguments Relay.processMetaTransaction : simpl never.

Lemma deleted_app t1 t2 :
  Queue.deleted (t1 ++ t2) = Queue.deleted t1 ++ Queue.deleted t2.
Proof. apply omap_app. Qed.

Section HandlerFacts.

Import Relay.

Variable E : Env.
Variable cfg : Config.
Variable BigNumber_mul : Z -> Fee.double -> result Z.
Variable JSON_parse : string -> result MetaTx.

Abbreviation process := (processMetaTransaction cfg BigNumber_mul).
Abbreviation handle := (handler cfg BigNumber_mul JSON_parse).

Lemma process_run_deletes_nothing m w :
  Queue.deleted (trace (run E (process m) w)) = [].
Proof.
  exact (holds_run E _ _ [] w (process_deletes_nothing cfg BigNumber_mul m)).
Qed.

(** The loop body on one parsed message: a failed processing is recorded
    and nothing else happens; a successful one is followed by the delete. *)
Lemma run_processAndDelete message metaTx w :
  run E (processAndDelete cfg BigNumber_mul message metaTx) w =
    match outcome (run E (process metaTx) w) with
    | Err m =>
        {| outcome := Ok [Failed m];
           final := final (run E (process metaTx) w);
           trace := trace (run E (process metaTx) w) |}
    | Ok rc =>
        {| outcome :=
             Ok (match fst (answer E _ (SqsDeleteMessage (receiptHandle message))
                              (final (run E (process metaTx) w))) with
                 | Ok _ => [Processed rc]
                 | Err m => [Processed rc; Failed m]
                 end);
           final := snd (answer E _ (SqsDeleteMessage (receiptHandle message))
                           (final (run E (process metaTx) w)));
           trace := trace (run E (process metaTx) w)
                      ++ [Ev (SqsDeleteMessage (receiptHandle message))
                            (fst (answer E _ (SqsDeleteMessage (receiptHandle message))
                                    (final (run E (process metaTx) w))))] |}
    end.
Proof.
  unfold processAndDelete, mbind, prog_bind.
  rewrite run_try_catch, run_bind.
  destruct (outcome (run E (process metaTx) w)) as [rc|m]; cbn.
  - destruct (answer E unit (SqsDeleteMessage (receiptHandle message))
                (final (run E (process metaTx) w))) as [[[]|m] w']; cbn.
    all: by rewrite ?app_nil_r.
  - by rewrite app_nil_r.
Qed.

Lemma deleted_processAndDelete message metaTx w :
  Queue.deleted (trace (run E (processAndDelete cfg BigNumber_mul message metaTx) w)) =
    match outcome (run E (process metaTx) w) with
    | Ok _ =>
        if is_ok (fst (answer E _ (SqsDeleteMessage (receiptHandle message))
                         (final (run E (process metaTx) w))))
        then [receiptHandle message] else []
    | Err _ => []
    end.
Proof.
  rewrite run_processAndDelete.
  destruct (outcome (run E (process metaTx) w)); cbn.
  - rewrite deleted_app, (process_run_deletes_nothing metaTx w).
    cbn. by destruct (is_ok _).
  - apply process_run_deletes_nothing.
Qed.

Lemma trace_handler Records w :
  trace (run E (handle Records) w) = trace (run E (forMessages cfg BigNumber_mul JSON_parse Records []) w).
Proof.
  unfold handler, mbind, prog_bind. rewrite run_try_catch, run_bind.
  destruct (outcome (run E (forMessages _ _ _ Records []) w)); cbn;
    by rewrite app_nil_r.
Qed.

Lemma processAndDelete_returns message metaTx w :
  exists pushed,
    outcome (run E (processAndDelete cfg BigNumber_mul message metaTx) w) = Ok pushed.
Proof.
  rewrite run_processAndDelete.
  destruct (outcome (run E (process metaTx) w)); cbn; eauto.
Qed.

Lemma deleted_forMessages Records results w h :
  h ∈ Queue.deleted (trace (run E (forMessages cfg BigNumber_mul JSON_parse Records results) w)) ->
  exists message metaTx w',
    message ∈ Records /\ receiptHandle message = h
    /\ JSON_parse (body message) = Ok metaTx
    /\ is_ok (outcome (run E (process metaTx) w')) = true.
Proof.
  revert results w. induction Records as [|message rest IH]; intros results w; cbn.
  - intros Hin. by apply elem_of_nil in Hin.
  - destruct (JSON_parse (body message)) as [metaTx|err] eqn:Hparse; cbn;
      [|intros Hin; by apply elem_of_nil in Hin].
    unfold mbind, prog_bind. rewrite run_bind.
    destruct (processAndDelete_returns message metaTx w) as [pushed ->]. cbn.
    rewrite deleted_app, deleted_processAndDelete.
    intros [Hin|Hin]%elem_of_app.
    + destruct (outcome (run E (process metaTx) w)) eqn:Hout;
        [|by apply elem_of_nil in Hin].
      destruct (is_ok _); [|by apply elem_of_nil in Hin].
      apply list_elem_of_singleton in Hin as ->.
      exists message, metaTx, w. rewrite Hout. set_solver.
    + destruct (IH _ _ Hin) as (m' & mt' & w' & ? & ? & ? & ?).
      exists m', mt', w'. set_solver.
Qed.

Lemma run_handler_failing message metaTx w err :
  JSON_parse (body message) = Ok metaTx ->
  outcome (run E (process metaTx) w) = Err err ->
  run E (handle [message]) w =
    {| outcome := Ok (Status200 [Failed err]);
       final := final (run E (process metaTx) w);
       trace := trace (run E (process metaTx) w) |}.
Proof.
  intros Hparse Hout. unfold handler, mbind, prog_bind.
  rewrite run_try_catch, run_bind. cbn. rewrite Hparse. cbn.
  unfold mbind, prog_bind. rewrite run_bind, run_processAndDelete, Hout. cbn.
  by rewrite !app_nil_r.
Qed.


(** What the forwarder refuses, the Lambda throws as "Invalid signature". *)
Lemma run_process_refused metaTx w req sig :
  (req, sig, false) ∈ Trace.verdicts (trace (run E (process metaTx) w)) ->
  outcome (run E (process metaTx) w) = Err "Invalid signature".
Proof.
  intros Hin.
  exact (proj1 (ends_run E _ _ [] w (process_refused cfg BigNumber_mul metaTx)
                  req sig Hin)).
Qed.

Lemma run_process_insufficient metaTx w gp required a :
  Trace.gasPrices (trace (run E (process metaTx) w)) = [gp] ->
  Fee.calculatePayment (gas metaTx) gp = Ok required ->
  Trace.allowances (trace (run E (process metaTx) w)) = [a] ->
  a < required ->
  outcome (run E (process metaTx) w) = Err "Insufficient USDT allowance".
Proof.
  intros Hgp Hc Ha Hlt.
  exact (proj1 (ends_run E _ _ [] w (process_insufficient cfg BigNumber_mul metaTx)
                  gp required a Hgp Hc Ha Hlt)).
Qed.

End HandlerFacts.

(** ** The queue consumer *)

#[global] Arguments Relay.handler : simpl never.

Section QueueFacts.

Import Relay.

Variable E : Env.
Variable cfg : Config.
Variable BigNumber_mul : Z -> Fee.double -> result Z.
Variable JSON_parse : string -> result MetaTx.
Variable policy : Queue.Config.

Abbreviation process := (processMetaTransaction cfg BigNumber_mul).
Abbreviation handle := (handler cfg BigNumber_mul JSON_parse).
Abbreviation poll := (Queue.poll cfg BigNumber_mul JSON_parse policy E).
Abbreviation polls := (Queue.polls cfg BigNumber_mul JSON_parse policy E).

(** A message whose processing fails stays in the source queue, received
    once more. *)
Lemma poll_redelivers (p : Queue.Poll E) m c metaTx err :
  Queue.pending (Queue.queue E p) = [{| Queue.message := m; Queue.receiveCount := c |}] ->
  (c < Queue.maxReceiveCount policy)%nat ->
  JSON_parse (body m) = Ok metaTx ->
  outcome (run E (process metaTx) (Queue.ledger E p)) = Err err ->
  poll p =
    {| Queue.ledger := final (run E (process metaTx) (Queue.ledger E p));
       Queue.queue :=
         {| Queue.pending := [{| Queue.message := m; Queue.receiveCount := S c |}];
            Queue.deadLetter := Queue.deadLetter (Queue.queue E p) |};
       Queue.deliveries := Queue.deliveries E p ++ [[m]];
       Queue.responses := Queue.responses E p ++ [Ok (Status200 [Failed err])] |}.
Proof.
  intros Hq Hc Hparse Hout. unfold Queue.poll, Queue.redrive. rewrite Hq.
  cbn. destruct (decide (c < Queue.maxReceiveCount policy)%nat); [|lia].
  destruct (decide (¬ (c < Queue.maxReceiveCount policy)%nat)); [lia|]. cbn.
  rewrite (run_handler_failing E cfg BigNumber_mul JSON_parse m metaTx _ err Hparse Hout).
  cbn. rewrite (process_run_deletes_nothing E cfg BigNumber_mul metaTx).
  rewrite decide_True by apply not_elem_of_nil.
  by rewrite app_nil_r.
Qed.






End QueueFacts.

(** ** Retries and the dead-letter queue *)

Section RetryFacts.

Import Relay.

Variable E : Env.
Variable cfg : Config.
Variable BigNumber_mul : Z -> Fee.double -> result Z.
Variable JSON_parse : string -> result MetaTx.
Variable policy : Queue.Config.

Abbreviation process := (processMetaTransaction cfg BigNumber_mul).
Abbreviation handle := (handler cfg BigNumber_mul JSON_parse).
Abbreviation poll := (Queue.poll cfg BigNumber_mul JSON_parse policy E).
Abbreviation polls := (Queue.polls cfg BigNumber_mul JSON_parse policy E).


End RetryFacts.

(** ** Rejected requests *)

(** C3 (as amended): a request that fails signature or nonce verification
    or the allowance check makes [processMetaTransaction] throw; the
    handler records the error and does not delete the message, which stays
    in the queue, received once more, for redelivery. The handler deletes a
    message only after [processMetaTransaction] returned for it, that is
    after the request was settled. *)
Theorem handler_deletes_only_settled E cfg BigNumber_mul JSON_parse :
  (forall metaTx w req sig,
     (req, sig, false)
       ∈ Trace.verdicts
           (Relay.trace (Relay.run E (Relay.processMetaTransaction cfg BigNumber_mul metaTx) w)) ->
     Relay.outcome (Relay.run E (Relay.processMetaTransaction cfg BigNumber_mul metaTx) w)
       = Err "Invalid signature")
  /\ (forall metaTx w gasPrice required allowance,
        Trace.gasPrices
          (Relay.trace (Relay.run E (Relay.processMetaTransaction cfg BigNumber_mul metaTx) w))
          = [gasPrice] ->
        Fee.calculatePayment (Relay.gas metaTx) gasPrice = Ok required ->
        Trace.allowances
          (Relay.trace (Relay.run E (Relay.processMetaTransaction cfg BigNumber_mul metaTx) w))
          = [allowance] ->
        allowance < required ->
        Relay.outcome (Relay.run E (Relay.processMetaTransaction cfg BigNumber_mul metaTx) w)
          = Err "Insufficient USDT allowance")
  /\ (forall message metaTx w err,
        JSON_parse (Relay.body message) = Ok metaTx ->
        Relay.outcome (Relay.run E (Relay.processMetaTransaction cfg BigNumber_mul metaTx) w)
          = Err err ->
        Relay.outcome (Relay.run E (Relay.handler cfg BigNumber_mul JSON_parse [message]) w)
          = Ok (Relay.Status200 [Relay.Failed err])
        /\ Queue.deleted
             (Relay.trace (Relay.run E (Relay.handler cfg BigNumber_mul JSON_parse [message]) w))
           = []
        /\ forall policy c deadLetter deliveries responses,
             (c < Queue.maxReceiveCount policy)%nat ->
             Queue.queue E
               (Queue.poll cfg BigNumber_mul JSON_parse policy E
                  {| Queue.ledger := w;
                     Queue.queue :=
                       {| Queue.pending :=
                            [{| Queue.message := message; Queue.receiveCount := c |}];
                          Queue.deadLetter := deadLetter |};
                     Queue.deliveries := deliveries;
                     Queue.responses := responses |})
             = {| Queue.pending :=
                    [{| Queue.message := message; Queue.receiveCount := S c |}];
                  Queue.deadLetter := deadLetter |})
  /\ (forall Records w handle,
        handle ∈ Queue.deleted
                   (Relay.trace (Relay.run E (Relay.handler cfg BigNumber_mul JSON_parse Records) w)) ->
        exists message metaTx w',
          message ∈ Records /\ Relay.receiptHandle message = handle
          /\ JSON_parse (Relay.body message) = Ok metaTx
          /\ is_ok (Relay.outcome
                      (Relay.run E (Relay.processMetaTransaction cfg BigNumber_mul metaTx) w'))
             = true).
Proof.
  split; [|split; [|split]].
  - intros metaTx w req sig. apply run_process_refused.
  - intros metaTx w gp required a. apply run_process_insufficient.
  - intros message metaTx w err Hparse Hout.
    rewrite (run_handler_failing E cfg BigNumber_mul JSON_parse message metaTx w err
               Hparse Hout). cbn.
    split; [reflexivity|]. split; [apply process_run_deletes_nothing|].
    intros policy c dl ds rs Hc.
    by rewrite (poll_redelivers E cfg BigNumber_mul JSON_parse policy _ message c
                  metaTx err) by done.
  - intros Records w handle. rewrite trace_handler. apply deleted_forMessages.
Qed.

(** A request signed by someone else than its sender: the handler answers
    with the error and deletes nothing; the message is still in the queue
    and is handed to the handler again. *)
Lemma rejected_message_is_redelivered :
  Relay.outcome
    (Relay.run Ledger.env
       (Relay.handler Relay.config Ledger.BigNumber_mul Ledger.JSON_parse
          [Ledger.msg "forged" "h0"])
       (Ledger.genesis (10 ^ 9) (10 ^ 9)))
  = Ok (Relay.Status200 [Relay.Failed "Invalid signature"])
  /\ Queue.deleted
       (Relay.trace
          (Relay.run Ledger.env
             (Relay.handler Relay.config Ledger.BigNumber_mul Ledger.JSON_parse
                [Ledger.msg "forged" "h0"])
             (Ledger.genesis (10 ^ 9) (10 ^ 9))))
     = []
  /\ Queue.queue Ledger.env
       (Queue.polls Relay.config Ledger.BigNumber_mul Ledger.JSON_parse
          Queue.meta_tx_queue Ledger.env 2
          (Queue.arrival Ledger.env (Ledger.genesis (10 ^ 9) (10 ^ 9))
             (Ledger.msg "forged" "h0")))
     = {| Queue.pending :=
            [{| Queue.message := Ledger.msg "forged" "h0";
                Queue.receiveCount := 2 |}];
          Queue.deadLetter := [] |}
  /\ Queue.deliveries Ledger.env
       (Queue.polls Relay.config Ledger.BigNumber_mul Ledger.JSON_parse
          Queue.meta_tx_queue Ledger.env 2
          (Queue.arrival Ledger.env (Ledger.genesis (10 ^ 9) (10 ^ 9))
             (Ledger.msg "forged" "h0")))
     = [[Ledger.msg "forged" "h0"]; [Ledger.msg "forged" "h0"]].
Proof. repeat split; vm_compute; reflexivity. Qed.

(** ** Faults of verification *)

(** C10 (as amended): [verify] returns false, without reverting, whenever
    recovery yields an identity and that identity is not [request.from]
    (a digest mismatch) or the nonce is not current. A revert of recovery
    itself (a malformed signature, one of the wrong length) is a revert of
    [verify]. In the Lambda a false [verify] is thrown as the Error
    "Invalid signature", which the handler catches and reports for that
    message. *)
Theorem verify_false_or_fault keccak256 _TYPEHASH _hashTypedDataV4 recover
    st req sig :
  (forall signer,
     recover (Forwarder.digest keccak256 _TYPEHASH _hashTypedDataV4 req) sig
       = Ok signer ->
     signer <> Forwarder.from req
     \/ Forwarder.nonce req <> Forwarder.getNonce st (Forwarder.from req) ->
     Forwarder.verify keccak256 _TYPEHASH _hashTypedDataV4 recover st req sig
       = Ok false)
  /\ (forall msg,
        recover (Forwarder.digest keccak256 _TYPEHASH _hashTypedDataV4 req) sig
          = Err msg ->
        Forwarder.verify keccak256 _TYPEHASH _hashTypedDataV4 recover st req sig
          = Err msg)
  /\ (forall E cfg BigNumber_mul JSON_parse message metaTx w rq sg,
        JSON_parse (Relay.body message) = Ok metaTx ->
        (rq, sg, false)
          ∈ Trace.verdicts
              (Relay.trace
                 (Relay.run E (Relay.processMetaTransaction cfg BigNumber_mul metaTx) w)) ->
        Relay.outcome
          (Relay.run E (Relay.processMetaTransaction cfg BigNumber_mul metaTx) w)
          = Err "Invalid signature"
        /\ Relay.outcome
             (Relay.run E (Relay.handler cfg BigNumber_mul JSON_parse [message]) w)
           = Ok (Relay.Status200 [Relay.Failed "Invalid signature"])).
Proof.
  split; [|split].
  - intros signer Hr Hne. rewrite (verify_recovered _ _ _ _ _ _ _ _ Hr).
    f_equal. apply andb_false_iff.
    destruct Hne as [Hne|Hne]; [right | left]; apply Z.eqb_neq; congruence.
  - intros msg. apply verify_recover_fault.
  - intros E cfg BigNumber_mul JSON_parse message metaTx w rq sg Hparse Hin.
    pose proof (run_process_refused E cfg BigNumber_mul metaTx w rq sg Hin) as Hout.
    split; [exact Hout|].
    by rewrite (run_handler_failing E cfg BigNumber_mul JSON_parse message metaTx w
                  _ Hparse Hout).
Qed.

(** A three-byte signature makes [verify] revert; and a request the
    forwarder refuses makes [processMetaTransaction] throw. *)
Lemma verify_reverts_on_short_signature :
  Ledger.verify (Ledger.forwarder (Ledger.genesis 0 0))
    (Relay.requestTuple (Ledger.request 0 None)) [Byte.x41; Byte.x00; Byte.x00]
  = Err "ECDSA: invalid signature length"
  /\ Ledger.JSON_parse "forged"
     = Ok {| Relay.from := Ledger.alice; Relay.to := 900; Relay.value := 0;
             Relay.gas := 500000; Relay.nonce := 0; Relay.data := [];
             Relay.signature := Ledger.sign Byte.x4d;
             Relay.payment := Some 1000000 |}
  /\ Relay.outcome
       (Relay.run Ledger.env
          (Relay.processMetaTransaction Relay.config Ledger.BigNumber_mul
             {| Relay.from := Ledger.alice; Relay.to := 900; Relay.value := 0;
                Relay.gas := 500000; Relay.nonce := 0; Relay.data := [];
                Relay.signature := Ledger.sign Byte.x4d;
                Relay.payment := Some 1000000 |})
          (Ledger.genesis (10 ^ 9) (10 ^ 9)))
     = Err "Invalid signature".
Proof. repeat split. Qed.

Lemma verify_false_or_fault_witness :
  Ledger.verify (Ledger.forwarder (Ledger.genesis 0 0))
    (Relay.requestTuple (Ledger.request 0 None)) (Ledger.sign Byte.x4d)
  = Ok false.
Proof.
  refine (proj1 (verify_false_or_fault Ledger.keccak256 Ledger._TYPEHASH
                   Ledger._hashTypedDataV4 Ledger.recover _ _ _) 77 _ _).
  - reflexivity.
  - left. vm_compute. discriminate.
Defined.

#[global] Arguments Ledger.verify : simpl never.
#[global] Arguments Ledger.transferFrom : simpl never.

(** ** What the Lambda collects *)

(** [BigNumber.mul] rejects the configured buffer, the number 1.1, whatever
    the gas price. *)
Lemma config_buffer_is_rejected gasPrice :
  is_ok (Ledger.BigNumber_mul gasPrice (Relay.gasBuffer Relay.config)) = false.
Proof. reflexivity. Qed.

(** C5: as configured, [processMetaTransaction] collects nothing. Whatever
    the services answer, it throws without having submitted the request or
    requested a transfer: [gasPrice.mul(config.gasBuffer)] is evaluated
    with the number 1.1 after the payment was computed and the allowance
    checked, and before [execute] is called. On the ledger, for a request
    of 500000 gas signed by its sender at a gas price of 20 gwei, the
    forwarder accepts the request, the required payment is 33000000 base
    units and the allowance read covers it; the run ends in an exception
    with no transfer requested and the ledger as it was. The [payment]
    field of the message is not read: the program is the same whatever it
    holds. *)
Theorem required_payment_is_not_collected :
  (forall E m w,
     is_ok (Relay.outcome
              (Relay.run E
                 (Relay.processMetaTransaction Relay.config Ledger.BigNumber_mul m)
                 w)) = false
     /\ Trace.submitted
          (Relay.trace
             (Relay.run E
                (Relay.processMetaTransaction Relay.config Ledger.BigNumber_mul m)
                w)) = []
     /\ Trace.transfers
          (Relay.trace
             (Relay.run E
                (Relay.processMetaTransaction Relay.config Ledger.BigNumber_mul m)
                w)) = [])
  /\ (forall m offered,
        Relay.processMetaTransaction Relay.config Ledger.BigNumber_mul
          (Relay.withPayment m offered)
        = Relay.processMetaTransaction Relay.config Ledger.BigNumber_mul m)
  /\ Trace.verdicts
       (Relay.trace
          (Relay.run Ledger.env
             (Relay.processMetaTransaction Relay.config Ledger.BigNumber_mul
                (Ledger.request 0 (Some 1000000)))
             (Ledger.genesis (10 ^ 9) (10 ^ 9))))
     = [(Relay.requestTuple (Ledger.request 0 (Some 1000000)),
         Ledger.sign Byte.x41, true)]
  /\ Trace.gasPrices
       (Relay.trace
          (Relay.run Ledger.env
             (Relay.processMetaTransaction Relay.config Ledger.BigNumber_mul
                (Ledger.request 0 (Some 1000000)))
             (Ledger.genesis (10 ^ 9) (10 ^ 9))))
     = [20000000000]
  /\ Fee.calculatePayment 500000 20000000000 = Ok 33000000
  /\ Trace.allowances
       (Relay.trace
          (Relay.run Ledger.env
             (Relay.processMetaTransaction Relay.config Ledger.BigNumber_mul
                (Ledger.request 0 (Some 1000000)))
             (Ledger.genesis (10 ^ 9) (10 ^ 9))))
     = [1000000000]
  /\ Trace.transfers
       (Relay.trace
          (Relay.run Ledger.env
             (Relay.processMetaTransaction Relay.config Ledger.BigNumber_mul
                (Ledger.request 0 (Some 1000000)))
             (Ledger.genesis (10 ^ 9) (10 ^ 9))))
     = []
  /\ is_ok
       (Relay.outcome
          (Relay.run Ledger.env
             (Relay.processMetaTransaction Relay.config Ledger.BigNumber_mul
                (Ledger.request 0 (Some 1000000)))
             (Ledger.genesis (10 ^ 9) (10 ^ 9))))
     = false
  /\ Relay.final
       (Relay.run Ledger.env
          (Relay.processMetaTransaction Relay.config Ledger.BigNumber_mul
             (Ledger.request 0 (Some 1000000)))
          (Ledger.genesis (10 ^ 9) (10 ^ 9)))
     = Ledger.genesis (10 ^ 9) (10 ^ 9).
Proof.
  split; [|split; [reflexivity|]].
  - intros E m w.
    exact (ends_run E _ _ [] w
             (process_stops_at_rejected_buffer Relay.config Ledger.BigNumber_mul m
                config_buffer_is_rejected)).
  - repeat (split; [vm_compute; reflexivity|]). vm_compute. reflexivity.
Qed.

(** ** Two invocations in flight *)




(** ** The typed data signed and verified *)

(** The words [verify] hashes are the type hash followed by the six fields
    of the specification's layout, in its order, [data] hashed. *)
Lemma structHash_fields keccak256 _TYPEHASH req :
  Forwarder.structHash keccak256 _TYPEHASH req
  = keccak256 (Forwarder.abi_encode
      (_TYPEHASH :: map (TypedData.fieldWord keccak256 req)
                      (map TypedData.name TypedData.spec_fields))).
Proof. reflexivity. Qed.

(** C6 (as amended): [verify] hashes exactly the fields from, to, value,
    gas, nonce, data, in that order, [data] hashed; the contract test signs
    exactly these six fields under the domain name "MinimalForwarder"; and
    every signer's typed data starts with these six fields, in that order
    and with those types, under version "0.0.1", the chain id and the
    forwarder as verifying contract. *)
Theorem signers_share_six_fields forwarderAddress :
  Forall (fun s =>
            take 6 (TypedData.types_ForwardRequest s) = TypedData.spec_fields
            /\ TypedData.version (TypedData.domain s) = "0.0.1"
            /\ TypedData.chainId (TypedData.domain s) = TypedData.CHAIN_ID
            /\ TypedData.verifyingContract (TypedData.domain s) = forwarderAddress)
    (TypedData.signers forwarderAddress)
  /\ (forall keccak256 _TYPEHASH req,
        Forwarder.structHash keccak256 _TYPEHASH req
        = keccak256 (Forwarder.abi_encode
            (_TYPEHASH :: map (TypedData.fieldWord keccak256 req)
                            (map TypedData.name TypedData.spec_fields))))
  /\ TypedData.types_ForwardRequest (TypedData.test_signTypedData forwarderAddress)
     = TypedData.spec_fields
  /\ TypedData.domain_name
       (TypedData.domain (TypedData.test_signTypedData forwarderAddress))
     = "MinimalForwarder".
Proof.
  split; [|repeat split].
  repeat constructor.
Qed.

(** Neither signer conforms to the layout of the specification: the SDK
    signs seven fields, the test signs under another domain name; their
    type strings differ. *)
Lemma signers_do_not_conform :
  ~ Forall (TypedData.conforms 4096) (TypedData.signers 4096)
  /\ ~ TypedData.conforms 4096 (TypedData.signRequest TypedData.CHAIN_ID 4096)
  /\ ~ TypedData.conforms 4096 (TypedData.test_signTypedData 4096)
  /\ TypedData.encodeType "ForwardRequest"
       (TypedData.types_ForwardRequest
          (TypedData.signRequest TypedData.CHAIN_ID 4096))
     = "ForwardRequest(address from,address to,uint256 value,uint256 gas,uint256 nonce,bytes data,uint256 payment)"
  /\ TypedData.encodeType "ForwardRequest"
       (TypedData.types_ForwardRequest (TypedData.test_signTypedData 4096))
     = "ForwardRequest(address from,address to,uint256 value,uint256 gas,uint256 nonce,bytes data)".
Proof.
  assert (Hsdk : ~ TypedData.conforms 4096
                     (TypedData.signRequest TypedData.CHAIN_ID 4096)).
  { intros [Hfields _]. discriminate Hfields. }
  assert (Htest : ~ TypedData.conforms 4096 (TypedData.test_signTypedData 4096)).
  { intros (_ & Hname & _). discriminate Hname. }
  repeat split; try assumption.
  intros Hall. apply Forall_cons in Hall as [Hs _]. by apply Hsdk.
Qed.

#[global] Arguments Trace.submitted : simpl never.
#[global] Arguments Trace.verdicts : simpl never.

(** ** Rounding of binary64 operations *)

(** The number of binary digits brackets a positive number. *)
Lemma digits2_pos_bounds p :
  2 ^ (Zpos (digits2_pos p) - 1) <= Zpos p < 2 ^ Zpos (digits2_pos p).
Proof.
  induction p as [p IH|p IH|]; cbn [digits2_pos].
  - rewrite Pos2Z.inj_succ, Pos2Z.inj_xI.
    replace (Z.succ (Zpos (digits2_pos p)) - 1) with (Z.succ (Zpos (digits2_pos p) - 1)) by lia.
    rewrite !Z.pow_succ_r by lia.
    generalize dependent (2 ^ (Z.pos (digits2_pos p) - 1)).
    generalize dependent (2 ^ Z.pos (digits2_pos p)). intros; lia.
  - rewrite Pos2Z.inj_succ, (Pos2Z.inj_xO p).
    replace (Z.succ (Zpos (digits2_pos p)) - 1) with (Z.succ (Zpos (digits2_pos p) - 1)) by lia.
    rewrite !Z.pow_succ_r by lia.
    generalize dependent (2 ^ (Z.pos (digits2_pos p) - 1)).
    generalize dependent (2 ^ Z.pos (digits2_pos p)). intros; lia.
  - cbn. lia.
Qed.

(** One shift halves the mantissa. *)
Lemma shr_1_m mrs : 0 <= shr_m mrs -> shr_m (shr_1 mrs) = shr_m mrs / 2.
Proof.
  destruct mrs as [m r s]. cbn [shr_m]. intros Hm.
  destruct m as [|[p|p|]|p]; cbn [shr_1 shr_m].
  - reflexivity.
  - rewrite (Pos2Z.inj_xI p). apply Z.div_unique with 1; lia.
  - rewrite (Pos2Z.inj_xO p). apply Z.div_unique with 0; lia.
  - reflexivity.
  - lia.
Qed.

Lemma iter_shr_1_m p : forall mrs,
  0 <= shr_m mrs ->
  shr_m (SpecFloat.iter_pos shr_1 p mrs) = shr_m mrs / 2 ^ Zpos p.
Proof.
  assert (Hdiv : forall a b, 0 <= a -> 0 < b -> 0 <= a / b)
    by (intros; apply Z.div_pos; lia).
  induction p as [p IH|p IH|]; intros mrs Hm; cbn [SpecFloat.iter_pos].
  - pose proof (shr_1_m mrs Hm) as H1.
    assert (H2 : 0 <= shr_m (shr_1 mrs)) by (rewrite H1; apply Hdiv; lia).
    pose proof (IH _ H2) as H3.
    assert (H4 : 0 <= shr_m (SpecFloat.iter_pos shr_1 p (shr_1 mrs))).
    { rewrite H3. apply Hdiv; [lia|]. apply Z.pow_pos_nonneg; lia. }
    rewrite (IH _ H4), H3, H1, !Z.div_div by (try apply Z.pow_pos_nonneg; lia).
    f_equal. rewrite (Pos2Z.inj_xI p), Z.pow_add_r, Z.pow_mul_r by lia.
    change (2 ^ 2) with (2 * 2). change (2 ^ 1) with 2.
    rewrite Z.pow_mul_l. lia.
  - pose proof (IH _ Hm) as H3.
    assert (H4 : 0 <= shr_m (SpecFloat.iter_pos shr_1 p mrs)).
    { rewrite H3. apply Hdiv; [lia|]. apply Z.pow_pos_nonneg; lia. }
    rewrite (IH _ H4), H3, !Z.div_div by (try apply Z.pow_pos_nonneg; lia).
    f_equal. rewrite (Pos2Z.inj_xO p), Z.pow_mul_r by lia.
    change (2 ^ 2) with (2 * 2). rewrite Z.pow_mul_l. reflexivity.
  - rewrite shr_1_m by lia. reflexivity.
Qed.

Lemma shr_spec mrs e n :
  0 <= shr_m mrs -> 0 <= n ->
  snd (shr mrs e n) = e + n
  /\ shr_m (fst (shr mrs e n)) = shr_m mrs / 2 ^ n.
Proof.
  intros Hm Hn. destruct n as [|p|p]; cbn [shr fst snd]; [| |lia].
  - rewrite Z.add_0_r, Z.pow_0_r, Z.div_1_r. done.
  - split; [reflexivity|]. by apply iter_shr_1_m.
Qed.

Lemma shr_m_record_of_loc m l : shr_m (shr_record_of_loc m l) = m.
Proof. by destruct l as [|[]]. Qed.

Lemma round_nearest_even_bounds m l :
  m <= round_nearest_even m l <= m + 1.
Proof.
  destruct l as [|[]]; cbn; try lia. destruct (Z.even m); lia.
Qed.

Lemma Zdigits2_unique m k :
  0 < k -> 2 ^ (k - 1) <= m < 2 ^ k -> Zdigits2 m = k.
Proof.
  intros Hk [Hlo Hhi].
  assert (0 < m) by (pose proof (Z.pow_pos_nonneg 2 (k - 1)); lia).
  destruct m as [|p|p]; try lia. cbn [Zdigits2].
  pose proof (digits2_pos_bounds p) as [Hl Hh].
  destruct (Z.lt_trichotomy (Zpos (digits2_pos p)) k) as [Hlt|[Heq|Hgt]];
    [|exact Heq|].
  - pose proof (Z.pow_le_mono_r 2 (Zpos (digits2_pos p)) (k - 1)). lia.
  - pose proof (Z.pow_le_mono_r 2 k (Zpos (digits2_pos p) - 1)). lia.
Qed.

Lemma Zdigits2_bounds m :
  0 < m -> 2 ^ (Zdigits2 m - 1) <= m < 2 ^ Zdigits2 m.
Proof.
  destruct m as [|p|p]; try lia. intros _. apply digits2_pos_bounds.
Qed.

(** Rounding a positive mantissa of at least 53 digits to binary64, away
    from the subnormal range and from overflow: the result is a normal
    number whose exponent grew by [k], within one unit [2^k] in the last
    place of the mantissa it rounds and of its successor. *)
Lemma binary_round_aux_spec mx ex lx :
  0 < mx ->
  53 <= Zdigits2 mx ->
  -1074 <= ex + (Zdigits2 mx - 53) ->
  ex + (Zdigits2 mx - 53) + 1 <= 971 ->
  exists m k,
    binary_round_aux 53 1024 false mx ex lx = S754_finite false m (ex + k)
    /\ Zdigits2 mx - 53 <= k <= Zdigits2 mx - 52
    /\ 2 ^ 52 <= Zpos m < 2 ^ 53
    /\ Zpos m * 2 ^ k <= mx + 2 ^ k
    /\ mx + 1 <= Zpos m * 2 ^ k + 2 ^ k.
Proof.
  intros Hpos Hdig Hmin Hmax.
  set (n := Zdigits2 mx - 53).
  pose proof (Zdigits2_bounds mx Hpos) as [Hlo Hhi].
  assert (Hn : 0 <= n) by (unfold n; lia).
  assert (Hpn : 0 < 2 ^ n) by (apply Z.pow_pos_nonneg; lia).
  assert (Hsplit : 2 ^ (Zdigits2 mx - 1) = 2 ^ 52 * 2 ^ n /\ 2 ^ Zdigits2 mx = 2 ^ 53 * 2 ^ n).
  { split; rewrite <- Z.pow_add_r by lia; f_equal; unfold n; lia. }
  destruct Hsplit as [Hs1 Hs2]. rewrite Hs1 in Hlo. rewrite Hs2 in Hhi.
  set (m1 := mx / 2 ^ n).
  assert (Hm1 : m1 * 2 ^ n <= mx < (m1 + 1) * 2 ^ n).
  { unfold m1. pose proof (Z.div_mod mx (2 ^ n)). pose proof (Z.mod_pos_bound mx (2 ^ n)). lia. }
  assert (Hm1b : 2 ^ 52 <= m1 < 2 ^ 53) by nia.
  unfold binary_round_aux, shr_fexp, fexp, emin.
  replace (Z.max (Zdigits2 mx + ex - 53) (3 - 1024 - 53) - ex) with n by (unfold n; lia).
  destruct (shr_spec (shr_record_of_loc mx lx) ex n) as [He1 Hsm1];
    [rewrite shr_m_record_of_loc; lia | lia |].
  rewrite shr_m_record_of_loc in Hsm1. fold m1 in Hsm1.
  destruct (shr (shr_record_of_loc mx lx) ex n) as [mrs' e']. cbn [fst snd] in *.
  subst e'. rewrite Hsm1.
  pose proof (round_nearest_even_bounds m1 (loc_of_shr_record mrs')) as Hr.
  set (m2 := round_nearest_even m1 (loc_of_shr_record mrs')) in *.
  destruct (Z.eq_dec m2 (2 ^ 53)) as [Hover|Hnorm].
  - (* the rounded mantissa reached 2^53 *)
    rewrite Hover.
    assert (Hd : Zdigits2 (2 ^ 53) = 54) by reflexivity.
    rewrite Hd.
    replace (Z.max (54 + (ex + n) - 53) (3 - 1024 - 53) - (ex + n)) with 1 by lia.
    exists (Z.to_pos (2 ^ 52)), (n + 1).
    split; [|split; [unfold n; lia|split; [done|]]].
    + cbn [shr_record_of_loc shr SpecFloat.iter_pos shr_1 shr_m].
      replace (ex + n + 1 <=? 1024 - 53) with true by (symmetry; apply Z.leb_le; lia).
      f_equal. lia.
    + rewrite Z.pow_add_r by lia. change (Z.pos (Z.to_pos (2 ^ 52))) with (2 ^ 52).
      change (2 ^ 1) with 2. change (2 ^ 53) with (2 * 2 ^ 52) in *. nia.
  - assert (Hd : Zdigits2 m2 = 53) by (apply Zdigits2_unique; lia).
    rewrite Hd.
    replace (Z.max (53 + (ex + n) - 53) (3 - 1024 - 53) - (ex + n)) with 0 by lia.
    cbn [shr_record_of_loc shr shr_m].
    destruct m2 as [|p|p] eqn:Hm2; try lia.
    exists p, n.
    replace (ex + n <=? 1024 - 53) with true by (symmetry; apply Z.leb_le; lia).
    split; [reflexivity|]. split; [unfold n; lia|]. split; [lia|]. nia.
Qed.

Lemma Zdigits2_ge m k : 0 < k -> 2 ^ (k - 1) <= m -> k <= Zdigits2 m.
Proof.
  intros Hk Hm.
  assert (0 < m) by (pose proof (Z.pow_pos_nonneg 2 (k - 1)); lia).
  pose proof (Zdigits2_bounds m) as [_ Hhi]; [lia|].
  destruct (Z.le_gt_cases k (Zdigits2 m)) as [|Hlt]; [done|].
  pose proof (Z.pow_le_mono_r 2 (Zdigits2 m) (k - 1)). lia.
Qed.

Lemma Zdigits2_le m k : 0 < m -> m < 2 ^ k -> Zdigits2 m <= k.
Proof.
  intros Hm Hk.
  pose proof (Zdigits2_bounds m Hm) as [Hlo _].
  destruct (Z.le_gt_cases (Zdigits2 m) k) as [|Hlt]; [done|].
  pose proof (Z.pow_le_mono_r 2 k (Zdigits2 m - 1)). lia.
Qed.

(** A binary64 product of a positive normal number and a positive number
    of at most [b] digits. *)
Lemma fmul_spec b mx ex my ey :
  0 <= b <= 53 ->
  2 ^ 52 <= Zpos mx < 2 ^ 53 ->
  Zpos my < 2 ^ b ->
  -1000 <= ex + ey <= 900 ->
  exists m k,
    Fee.fmul (S754_finite false mx ex) (S754_finite false my ey)
      = S754_finite false m (ex + ey + k)
    /\ 0 <= k <= b + 1
    /\ 2 ^ 52 <= Zpos m < 2 ^ 53
    /\ Zpos m * 2 ^ k <= Zpos mx * Zpos my + 2 ^ k
    /\ Zpos mx * Zpos my < Zpos m * 2 ^ k + 2 ^ k.
Proof.
  intros Hb Hmx Hmy He.
  unfold Fee.fmul, SFmul. cbn [xorb].
  rewrite Pos2Z.inj_mul.
  assert (Hlo : 2 ^ (53 - 1) <= Zpos mx * Zpos my) by (change (53 - 1) with 52; nia).
  assert (Hhi : Zpos mx * Zpos my < 2 ^ (53 + b)).
  { rewrite Z.pow_add_r by lia.
    assert (0 < 2 ^ b) by (apply Z.pow_pos_nonneg; lia). nia. }
  pose proof (Zdigits2_ge _ 53 eq_refl Hlo) as Hd1.
  assert (Hpos : 0 < Zpos mx * Zpos my) by nia.
  pose proof (Zdigits2_le _ (53 + b) Hpos Hhi) as Hd2.
  destruct (binary_round_aux_spec (Zpos mx * Zpos my) (ex + ey) loc_Exact)
    as (m & k & Hr & Hk & Hm & Ha & Hb'); try lia.
  exists m, k. rewrite Hr. repeat split; lia.
Qed.

(** The gas cost in ether as a double: the quotient by [10^18], rounded. *)
Lemma parseFloat_formatEther_spec g :
  0 < g <= 10 ^ 21 ->
  exists m k s,
    Fee.parseFloat (Fee.formatEther g) = S754_finite false m (k - s)
    /\ 43 <= s <= 112
    /\ 0 <= k <= 2
    /\ 2 ^ 52 <= Zpos m < 2 ^ 53
    /\ (Zpos m * 2 ^ k - 2 ^ k) * 10 ^ 18 <= g * 2 ^ s
    /\ g * 2 ^ s < (Zpos m * 2 ^ k + 2 ^ k) * 10 ^ 18.
Proof.
  intros [Hpos Hmax].
  destruct g as [|pg|pg]; try lia.
  unfold Fee.parseFloat, Fee.formatEther, Fee.fdiv. cbn [Fee.digits Fee.scale Fee.exact].
  change (10 ^ 18) with 1000000000000000000. cbn [Fee.exact SFdiv xorb].
  unfold SFdiv_core_binary, fexp, emin.
  change (Zdigits2 1000000000000000000) with 60.
  set (d1 := Zdigits2 (Zpos pg)).
  pose proof (Zdigits2_bounds (Zpos pg) Hpos) as [Hlo Hhi]. fold d1 in Hlo, Hhi.
  assert (Hd1 : 1 <= d1 <= 70).
  { split.
    - apply (Zdigits2_ge (Zpos pg) 1); [lia|]. change (2 ^ (1 - 1)) with 1. lia.
    - apply Zdigits2_le; [lia|]. change (2 ^ 70) with 1180591620717411303424. lia. }
  replace (Z.min (Z.max (d1 + 0 - (60 + 0) - 53) (3 - 1024 - 53)) (0 - 0))
    with (d1 - 113) by lia.
  replace (0 - 0 - (d1 - 113)) with (113 - d1) by lia.
  set (s := 113 - d1).
  assert (Hs : 43 <= s <= 112) by (unfold s; lia).
  destruct s as [|ps|ps] eqn:Hseq; try lia. rewrite <- Hseq in *.
  rewrite Z.shiftl_mul_pow2 by lia.
  set (S := 2 ^ s).
  assert (HS : 2 ^ (d1 - 1) * S = 2 ^ 112 /\ 2 ^ d1 * S = 2 ^ 113).
  { unfold S. split; rewrite <- Z.pow_add_r by lia; f_equal; unfold s in *; lia. }
  destruct HS as [HS1 HS2].
  assert (HSpos : 0 < S) by (apply Z.pow_pos_nonneg; lia).
  pose proof (Z.div_eucl_eq (Zpos pg * S) 1000000000000000000) as Hdiv.
  pose proof (Z.mod_pos_bound (Zpos pg * S) 1000000000000000000) as Hmod.
  unfold Z.modulo in Hmod.
  destruct (Z.div_eucl (Zpos pg * S) 1000000000000000000) as [q r].
  specialize (Hdiv ltac:(lia)). specialize (Hmod ltac:(lia)).
  assert (Hq : 2 ^ 52 <= q < 2 ^ 54).
  { change (2 ^ 112) with (2 ^ 52 * 1152921504606846976) in HS1.
    change (2 ^ 113) with (2 ^ 54 * 576460752303423488) in HS2.
    nia. }
  assert (Hdq : 53 <= Zdigits2 q <= 54).
  { split; [apply Zdigits2_ge; [lia|]; change (53 - 1) with 52; lia|].
    apply Zdigits2_le; lia. }
  destruct (binary_round_aux_spec q (d1 - 113) (new_location 1000000000000000000 r))
    as (m & k & Hr & Hk & Hm & Ha & Hb); try lia.
  exists m, (k), s. rewrite Hr.
  assert (Hpk : 0 < 2 ^ k) by (apply Z.pow_pos_nonneg; lia).
  split; [f_equal; unfold s in *; lia|].
  split; [lia|]. split; [lia|]. split; [lia|].
  change (10 ^ 18) with 1000000000000000000. fold S.
  split; nia.
Qed.

Lemma profitMargin_value :
  Fee.profitMargin = S754_finite false 4953959590107546 (-52).
Proof. vm_compute. reflexivity. Qed.

(** C9 (as amended): [calculatePayment] converts the gas cost
    [gasLimit * gasPrice] from wei to ether, multiplies by the fixed rate
    3000 and the fixed margin 1.1 in double precision, and rounds to the
    nearest base unit with [toFixed(6)], not up: for gas costs up to
    10^21 wei it returns an amount at most 0.51 base units away from the
    exact [gasLimit * gasPrice * 33 / 10^10]. *)
Theorem calculatePayment_within_one_unit gasLimit gasPrice :
  0 <= gasLimit * gasPrice <= 10 ^ 21 ->
  exists n,
    Fee.calculatePayment gasLimit gasPrice = Ok n
    /\ 100 * Z.abs (n * Fee.factor_den - Fee.factor_num * (gasLimit * gasPrice))
       <= 51 * Fee.factor_den.
Proof.
  intros [Hlo Hhi]. unfold Fee.calculatePayment.
  set (g := gasLimit * gasPrice) in *.
  destruct (Z.eq_dec g 0) as [->|Hne].
  { exists 0. split; [reflexivity|]. unfold Fee.factor_den, Fee.factor_num. lia. }
  destruct (parseFloat_formatEther_spec g) as (m0 & k0 & s & -> & Hs & Hk0 & Hm0 & Ha0 & Hb0);
    [lia|].
  unfold Fee.ethToUsdRate. cbn [Fee.exact].
  destruct (fmul_spec 12 m0 (k0 - s) 3000 0) as (m1 & k1 & -> & Hk1 & Hm1 & Ha1 & Hb1);
    [lia | lia | change (2 ^ 12) with 4096; lia | lia |].
  rewrite profitMargin_value.
  destruct (fmul_spec 53 m1 (k0 - s + 0 + k1) 4953959590107546 (-52))
    as (m2 & k2 & -> & Hk2 & Hm2 & Ha2 & Hb2);
    [lia | lia | change (2 ^ 53) with 9007199254740992; lia | lia |].
  set (e2 := k0 - s + 0 + k1 + -52 + k2).
  assert (He2 : e2 <= -1) by (unfold e2; lia).
  unfold Fee.toFixed.
  replace (Z.max e2 0) with 0 by lia. replace (Z.max (- e2) 0) with (- e2) by lia.
  set (den := 2 ^ (- e2)).
  assert (Hden : 0 < den) by (apply Z.pow_pos_nonneg; lia).
  change (2 ^ 0) with 1. rewrite Z.mul_1_r.
  assert (Hbig : (10 ^ 21 * den <=? Zpos m2) = false).
  { apply Z.leb_gt. change (2 ^ 53) with 9007199254740992 in Hm2.
    change (10 ^ 21) with 1000000000000000000000. nia. }
  rewrite Hbig. cbn [Fee.parseUnits Fee.scale Fee.digits].
  change (6 <=? 6) with true. cbv iota. change (10 ^ (6 - 6)) with 1.
  rewrite Z.mul_1_r.
  set (n := (2 * Zpos m2 * 10 ^ 6 + den) / (2 * den)).
  exists n. split; [reflexivity|].
  (* the scaled quantities *)
  set (K0 := 2 ^ k0) in *. set (K1 := 2 ^ k1) in *. set (K2 := 2 ^ k2) in *.
  set (S := 2 ^ s) in *.
  assert (HK0 : 0 < K0) by (apply Z.pow_pos_nonneg; lia).
  assert (HK1 : 0 < K1) by (apply Z.pow_pos_nonneg; lia).
  assert (HK2 : 0 < K2) by (apply Z.pow_pos_nonneg; lia).
  assert (HS : 0 < S) by (apply Z.pow_pos_nonneg; lia).
  assert (HT : den * (K2 * (K1 * K0)) = S * 2 ^ 52).
  { unfold den, K0, K1, K2, S. rewrite <- !Z.pow_add_r by lia.
    f_equal. unfold e2. lia. }
  assert (Hn : 2 * den * n <= 2 * Zpos m2 * 10 ^ 6 + den < 2 * den * (n + 1)).
  { unfold n. pose proof (Z.div_mod (2 * Zpos m2 * 10 ^ 6 + den) (2 * den)).
    pose proof (Z.mod_pos_bound (2 * Zpos m2 * 10 ^ 6 + den) (2 * den)). lia. }
  clearbody n den K0 K1 K2 S. clear e2 He2 Hbig.
  unfold Fee.factor_den, Fee.factor_num.
  change (10 ^ 21) with 1000000000000000000000 in *.
  change (10 ^ 18) with 1000000000000000000 in *.
  change (10 ^ 10) with 10000000000 in *.
  change (10 ^ 6) with 1000000 in *.
  change (2 ^ 52) with 4503599627370496 in *.
  change (2 ^ 53) with 9007199254740992 in *.
  set (U1 := K1 * K0) in *. set (U2 := K2 * U1) in *.
  assert (HU1 : 0 < U1) by (unfold U1; apply Z.mul_pos_pos; lia).
  assert (HU2 : 0 < U2) by (unfold U2; apply Z.mul_pos_pos; lia).
  set (A0 := Zpos m0 * K0) in *.
  assert (HA0 : 4503599627370496 * K0 <= A0)
    by (unfold A0; apply Z.mul_le_mono_nonneg_r; lia).
  set (A1 := Zpos m1 * U1).
  assert (HA1 : 4503599627370496 * U1 <= A1)
    by (unfold A1; apply Z.mul_le_mono_nonneg_r; lia).
  assert (HA1a : A1 <= 3000 * A0 + U1).
  { unfold A1, U1, A0. rewrite Z.mul_assoc.
    apply Z.le_trans with ((Zpos m0 * 3000 + K1) * K0); [|lia].
    apply Z.mul_le_mono_nonneg_r; lia. }
  assert (HA1b : 3000 * A0 <= A1 + U1).
  { unfold A1, U1, A0. rewrite Z.mul_assoc.
    apply Z.le_trans with ((Zpos m1 * K1 + K1) * K0); [|lia].
    replace (3000 * (Zpos m0 * K0)) with (Zpos m0 * 3000 * K0) by lia.
    apply Z.mul_le_mono_nonneg_r; lia. }
  set (A2 := Zpos m2 * U2).
  assert (HA2 : 4503599627370496 * U2 <= A2)
    by (unfold A2; apply Z.mul_le_mono_nonneg_r; lia).
  assert (HA2a : A2 <= 4953959590107546 * A1 + U2).
  { unfold A2, U2, A1. rewrite Z.mul_assoc.
    apply Z.le_trans with ((Zpos m1 * 4953959590107546 + K2) * U1); [|lia].
    apply Z.mul_le_mono_nonneg_r; lia. }
  assert (HA2b : 4953959590107546 * A1 <= A2 + U2).
  { unfold A2, U2, A1. rewrite Z.mul_assoc.
    apply Z.le_trans with ((Zpos m2 * K2 + K2) * U1); [|lia].
    replace (4953959590107546 * (Zpos m1 * U1))
      with (Zpos m1 * 4953959590107546 * U1) by lia.
    apply Z.mul_le_mono_nonneg_r; lia. }
  set (T := den * U2) in *.
  assert (HN : 2 * (T * n) <= 2000000 * A2 + T < 2 * (T * n) + 2 * T).
  { unfold T, A2. split.
    - replace (2 * (den * U2 * n)) with (2 * den * n * U2) by lia.
      replace (2000000 * (Zpos m2 * U2) + den * U2)
        with ((2 * Zpos m2 * 1000000 + den) * U2) by lia.
      apply Z.mul_le_mono_nonneg_r; lia.
    - replace (2 * (den * U2 * n) + 2 * (den * U2)) with (2 * den * (n + 1) * U2) by lia.
      replace (2000000 * (Zpos m2 * U2) + den * U2)
        with ((2 * Zpos m2 * 1000000 + den) * U2) by lia.
      apply Z.mul_lt_mono_pos_r; lia. }
  set (P := g * S) in *.
  assert (HP : 0 < P <= 1000000000000000000000 * S).
  { unfold P. split; [apply Z.mul_pos_pos; lia|].
    apply Z.mul_le_mono_nonneg_r; lia. }
  assert (HA0a : (A0 - K0) * 1000000000000000000 <= P) by (unfold A0; lia).
  assert (HA0b : P < (A0 + K0) * 1000000000000000000) by (unfold A0; lia).
  assert (Hgoal : 100 * Z.abs (T * n * 10000000000 - 33 * P * 4503599627370496)
                  <= 51 * 10000000000 * T).
  { clearbody A0 A1 A2 P T U1 U2.
    clear - HT HN HP HA0 HA0a HA0b HA1 HA1a HA1b HA2 HA2a HA2b HS HK0 HU1 HU2.
    lia. }
  unfold P in Hgoal. rewrite HT in *.
  assert (Hfac : S * 4503599627370496 * n * 10000000000 - 33 * (g * S) * 4503599627370496
                 = (n * 10000000000 - 33 * g) * (S * 4503599627370496)) by ring.
  rewrite Hfac in Hgoal.
  rewrite Z.abs_mul, (Z.abs_eq (S * 4503599627370496)) in Hgoal by lia.
  apply (Z.mul_le_mono_pos_r _ _ (S * 4503599627370496)); [lia|].
  rewrite <- (Z.mul_assoc 100). exact Hgoal.
Qed.

Lemma calculatePayment_within_one_unit_witness :
  exists n,
    Fee.calculatePayment 500000 20000000000 = Ok n
    /\ 100 * Z.abs (n * Fee.factor_den - Fee.factor_num * (500000 * 20000000000))
       <= 51 * Fee.factor_den.
Proof.
  apply (calculatePayment_within_one_unit 500000 20000000000).
  vm_compute. split; discriminate.
Defined.

(** A gas cost of 10^8 wei is worth a third of a base unit: rounded up it
    is 1, and with any markup of at least 1.0 on the bare product it is
    more; [calculatePayment] returns 0. One wei above 20 gwei on 500000
    gas, the exact amount exceeds 33000000 and [calculatePayment] returns
    33000000, not 33000001. *)
Lemma calculatePayment_rounds_to_nearest :
  Fee.calculatePayment 1 100000000 = Ok 0
  /\ Fee.minPayment_spec Fee.factor_num Fee.factor_den 100000000 1 = 1
  /\ (forall num den, 0 < den <= num ->
        1 <= Fee.minPayment_spec num den 100000000 1)
  /\ Fee.calculatePayment 500000 20000000001 = Ok 33000000
  /\ Fee.minPayment_spec Fee.factor_num Fee.factor_den 20000000001 500000
     = 33000001.
Proof.
  split; [vm_compute; reflexivity|]. split; [vm_compute; reflexivity|].
  split; [|split; vm_compute; reflexivity].
  intros num den [Hden Hnum]. unfold Fee.minPayment_spec.
  assert (H : - (100000000 * 1 * num) / den < 0)
    by (apply Z.div_lt_upper_bound; lia).
  lia.
Qed.

(** The model agrees with the machine's binary64 arithmetic. *)
Example profitMargin_is_the_double_1_1 :
  Prim2SF (PrimFloat.div (PrimFloat.of_uint63 11%uint63) (PrimFloat.of_uint63 10%uint63))
  = Fee.profitMargin.
Proof. vm_compute. reflexivity. Qed.

Example usd_cost_agrees_with_hardware :
  Prim2SF
    (PrimFloat.mul
       (PrimFloat.mul
          (PrimFloat.div (PrimFloat.of_uint63 3333333333333333%uint63)
             (PrimFloat.of_uint63 1000000000000000000%uint63))
          (PrimFloat.of_uint63 3000%uint63))
       (PrimFloat.div (PrimFloat.of_uint63 11%uint63) (PrimFloat.of_uint63 10%uint63)))
  = Fee.fmul
      (Fee.fmul (Fee.parseFloat (Fee.formatEther 3333333333333333))
         Fee.ethToUsdRate)
      Fee.profitMargin.
Proof. vm_compute. reflexivity. Qed.

(** * Further properties *)

(** ** What [processMetaTransaction] does before it executes and charges *)

Section SubmissionFacts.

Import Relay.

Variable cfg : Config.
Variable BigNumber_mul : Z -> Fee.double -> result Z.

Abbreviation process := (processMetaTransaction cfg BigNumber_mul).

Lemma process_names_relayer m :
  Trace.holds
    (fun t =>
       (forall owner spender,
          (owner, spender) ∈ Observed.allowanceQueries t ->
          owner = from m
          /\ exists w, w ∈ Observed.wallets t /\ spender = wallet_address w)
       /\ (forall sender recipient amount,
             (sender, recipient, amount) ∈ Trace.transfers t ->
             exists w, w ∈ Observed.wallets t /\ recipient = wallet_address w))
    (process m) [].
Proof.
  unfold_process. repeat holds_step; cbn.
  all: split; [intros o' s'|intros s' r' a']; try set_solver.
  all: intros [=]%list_elem_of_singleton; subst.
  all: try (split; [reflexivity|]); eexists; split; [|reflexivity]; set_solver.
Qed.

Lemma process_call_count m :
  Trace.ends
    (fun t o => (length t <= 9)%nat /\ (Observed.decrypts t <= 2)%nat
                /\ (is_ok o = true ->
                    length t = 9%nat /\ Observed.decrypts t = 2%nat))
    (process m) [].
Proof.
  unfold_process. repeat ends_step; cbn.
  all: split; [lia|]; split; [vm_compute; lia|].
  all: intros Hok; try discriminate Hok; split; reflexivity.
Qed.

End SubmissionFacts.

(** If [BigNumber.mul] rejects the configured [gasBuffer] (a non-integer
    factor), [processMetaTransaction] throws for every request: nothing is
    ever submitted for execution and no transfer is requested. *)
Theorem rejected_buffer_stops_every_request E cfg BigNumber_mul m w :
  (forall gasPrice,
     is_ok (BigNumber_mul gasPrice (Relay.gasBuffer cfg)) = false) ->
  is_ok (Relay.outcome (Relay.run E (Relay.processMetaTransaction cfg BigNumber_mul m) w))
    = false
  /\ Trace.submitted
       (Relay.trace (Relay.run E (Relay.processMetaTransaction cfg BigNumber_mul m) w))
     = []
  /\ Trace.transfers
       (Relay.trace (Relay.run E (Relay.processMetaTransaction cfg BigNumber_mul m) w))
     = [].
Proof.
  intros Hmul.
  exact (ends_run E _ _ [] w (process_stops_at_rejected_buffer cfg BigNumber_mul m Hmul)).
Qed.

Lemma rejected_buffer_stops_every_request_witness :
  is_ok (Relay.outcome
           (Relay.run Ledger.env
              (Relay.processMetaTransaction Relay.config
                 (fun _ _ => Err "underflow") (Ledger.request 0 None))
              (Ledger.genesis (10 ^ 9) (10 ^ 9))))
    = false
  /\ Trace.submitted
       (Relay.trace
          (Relay.run Ledger.env
             (Relay.processMetaTransaction Relay.config
                (fun _ _ => Err "underflow") (Ledger.request 0 None))
             (Ledger.genesis (10 ^ 9) (10 ^ 9))))
     = []
  /\ Trace.transfers
       (Relay.trace
          (Relay.run Ledger.env
             (Relay.processMetaTransaction Relay.config
                (fun _ _ => Err "underflow") (Ledger.request 0 None))
             (Ledger.genesis (10 ^ 9) (10 ^ 9))))
     = [].
Proof.
  apply (rejected_buffer_stops_every_request Ledger.env Relay.config
           (fun _ _ => Err "underflow") (Ledger.request 0 None)
           (Ledger.genesis (10 ^ 9) (10 ^ 9))).
  intros gasPrice. reflexivity.
Defined.

(** The allowance [processMetaTransaction] checks is the one the sender
    granted to the address of the wallet the key service returned, and
    every transfer it requests goes to such a wallet's address. *)
Theorem fee_is_for_the_relayer_wallet E cfg BigNumber_mul m w :
  (forall owner spender,
     (owner, spender)
       ∈ Observed.allowanceQueries
           (Relay.trace (Relay.run E (Relay.processMetaTransaction cfg BigNumber_mul m) w)) ->
     owner = Relay.from m
     /\ exists wallet,
          wallet ∈ Observed.wallets
                     (Relay.trace
                        (Relay.run E (Relay.processMetaTransaction cfg BigNumber_mul m) w))
          /\ spender = Relay.wallet_address wallet)
  /\ (forall sender recipient amount,
        (sender, recipient, amount)
          ∈ Trace.transfers
              (Relay.trace (Relay.run E (Relay.processMetaTransaction cfg BigNumber_mul m) w)) ->
        exists wallet,
          wallet ∈ Observed.wallets
                     (Relay.trace
                        (Relay.run E (Relay.processMetaTransaction cfg BigNumber_mul m) w))
          /\ recipient = Relay.wallet_address wallet).
Proof. exact (holds_run E _ _ [] w (process_names_relayer cfg BigNumber_mul m)). Qed.

(** One run of [processMetaTransaction] awaits at most nine calls, at most
    two of them decryptions of the relayer key; a run that returns awaited
    exactly nine, with exactly two decryptions ([getRelayerKey] is called
    again inside [verifyAllowance]). *)
Theorem settled_request_awaits_nine_calls E cfg BigNumber_mul m w :
  (length (Relay.trace (Relay.run E (Relay.processMetaTransaction cfg BigNumber_mul m) w))
     <= 9)%nat
  /\ (Observed.decrypts
        (Relay.trace (Relay.run E (Relay.processMetaTransaction cfg BigNumber_mul m) w))
      <= 2)%nat
  /\ (is_ok (Relay.outcome
               (Relay.run E (Relay.processMetaTransaction cfg BigNumber_mul m) w)) = true ->
      length (Relay.trace (Relay.run E (Relay.processMetaTransaction cfg BigNumber_mul m) w))
        = 9%nat
      /\ Observed.decrypts
           (Relay.trace (Relay.run E (Relay.processMetaTransaction cfg BigNumber_mul m) w))
         = 2%nat).
Proof. exact (ends_run E _ _ [] w (process_call_count cfg BigNumber_mul m)). Qed.

(** ** The handler's response *)

Section ResponseFacts.

Import Relay.

Variable E : Env.
Variable cfg : Config.
Variable BigNumber_mul : Z -> Fee.double -> result Z.
Variable JSON_parse : string -> result MetaTx.

Abbreviation forAll := (forMessages cfg BigNumber_mul JSON_parse).
Abbreviation handle := (handler cfg BigNumber_mul JSON_parse).

(** The loop body pushes one entry, or two when the delete was rejected. *)
Lemma processAndDelete_pushes message metaTx w :
  exists pushed,
    outcome (run E (processAndDelete cfg BigNumber_mul message metaTx) w) = Ok pushed
    /\ (1 <= length pushed <= 2)%nat.
Proof.
  rewrite run_processAndDelete.
  destruct (outcome (run E (processMetaTransaction cfg BigNumber_mul metaTx) w)); cbn.
  - destruct (fst (answer E unit _ _)); eexists; split; try reflexivity; cbn; lia.
  - eexists; split; [reflexivity | cbn; lia].
Qed.

(** The loop ends with an exception exactly when a body does not parse. *)
Lemma run_forMessages Records results w :
  match outcome (run E (forAll Records results) w) with
  | Ok all =>
      Forall (fun message => is_ok (JSON_parse (body message)) = true) Records
      /\ (length results + length Records <= length all
          <= length results + 2 * length Records)%nat
  | Err _ =>
      Exists (fun message => is_ok (JSON_parse (body message)) = false) Records
  end.
Proof.
  revert results w. induction Records as [|message rest IH]; intros results w.
  - cbn. split; [constructor | lia].
  - cbn. destruct (JSON_parse (body message)) as [metaTx|err] eqn:Hparse; cbn.
    + unfold mbind, prog_bind. rewrite run_bind.
      destruct (processAndDelete_pushes message metaTx w) as (pushed & -> & Hlen).
      cbn. specialize (IH (results ++ pushed)
                          (final (run E (processAndDelete cfg BigNumber_mul message metaTx) w))).
      destruct (outcome (run E (forAll rest (results ++ pushed)) _)) as [all|err].
      * destruct IH as [Hall Hbound]. rewrite length_app in Hbound.
        split; [constructor; [by rewrite Hparse | exact Hall] | lia].
      * by apply Exists_cons_tl.
    + apply Exists_cons_hd. by rewrite Hparse.
Qed.

(** A body that does not parse ends the loop where the loop over the
    messages before it ended. *)
Lemma run_forMessages_malformed before message after results w err :
  JSON_parse (body message) = Err err ->
  is_ok (outcome (run E (forAll (before ++ message :: after) results) w)) = false
  /\ final (run E (forAll (before ++ message :: after) results) w)
     = final (run E (forAll before results) w)
  /\ trace (run E (forAll (before ++ message :: after) results) w)
     = trace (run E (forAll before results) w).
Proof.
  intros Hparse. revert results w.
  induction before as [|first rest IH]; intros results w.
  - cbn. rewrite Hparse. by cbn.
  - cbn. destruct (JSON_parse (body first)) as [metaTx|e]; cbn; [|done].
    unfold mbind, prog_bind. rewrite !run_bind.
    destruct (outcome (run E (processAndDelete cfg BigNumber_mul first metaTx) w))
      as [pushed|e]; cbn; [|done].
    destruct (IH (results ++ pushed)
                (final (run E (processAndDelete cfg BigNumber_mul first metaTx) w)))
      as (Ho & Hf & Ht).
    destruct (outcome (run E (forAll (rest ++ message :: after) (results ++ pushed)) _))
      eqn:Hout; [discriminate|].
    by rewrite Hf, Ht.
Qed.

Lemma run_handler Records w :
  run E (handle Records) w =
    {| outcome :=
         match outcome (run E (forAll Records []) w) with
         | Ok results => Ok (Status200 results)
         | Err _ => Ok (Status500 "Internal server error")
         end;
       final := final (run E (forAll Records []) w);
       trace := trace (run E (forAll Records []) w) |}.
Proof.
  unfold handler, mbind, prog_bind. rewrite run_try_catch, run_bind.
  destruct (outcome (run E (forAll Records []) w)); cbn; by rewrite app_nil_r.
Qed.

End ResponseFacts.

(** The handler never rejects. It answers 200 exactly when every body of
    the batch parses, with at least one and at most two entries per message
    in [results] (two when the delete of a processed message was
    rejected), and 500 "Internal server error" exactly when some body does
    not parse; a failure of [processMetaTransaction] never turns into a
    500. *)
Theorem handler_always_responds E cfg BigNumber_mul JSON_parse Records w :
  exists response,
    Relay.outcome (Relay.run E (Relay.handler cfg BigNumber_mul JSON_parse Records) w)
      = Ok response
    /\ match response with
       | Relay.Status200 results =>
           Forall (fun message => is_ok (JSON_parse (Relay.body message)) = true)
             Records
           /\ (length Records <= length results <= 2 * length Records)%nat
       | Relay.Status500 error =>
           error = "Internal server error"
           /\ Exists (fun message => is_ok (JSON_parse (Relay.body message)) = false)
                Records
       end.
Proof.
  rewrite run_handler. cbn.
  pose proof (run_forMessages E cfg BigNumber_mul JSON_parse Records [] w) as H.
  destruct (Relay.outcome (Relay.run E (Relay.forMessages _ _ _ Records []) w));
    eexists; (split; [reflexivity|]); cbn in *; [exact H | by split].
Qed.

(** A body that does not parse ends the batch with status 500: the
    messages after it are not touched, and what was done for the messages
    before it (calls, ledger changes, deletes) stands as if the batch had
    ended there. *)
Theorem malformed_body_ends_the_batch E cfg BigNumber_mul JSON_parse
    before message after w err :
  JSON_parse (Relay.body message) = Err err ->
  Relay.outcome
    (Relay.run E (Relay.handler cfg BigNumber_mul JSON_parse
                    (before ++ message :: after)) w)
    = Ok (Relay.Status500 "Internal server error")
  /\ Relay.final
       (Relay.run E (Relay.handler cfg BigNumber_mul JSON_parse
                       (before ++ message :: after)) w)
     = Relay.final (Relay.run E (Relay.handler cfg BigNumber_mul JSON_parse before) w)
  /\ Relay.trace
       (Relay.run E (Relay.handler cfg BigNumber_mul JSON_parse
                       (before ++ message :: after)) w)
     = Relay.trace (Relay.run E (Relay.handler cfg BigNumber_mul JSON_parse before) w).
Proof.
  intros Hparse. rewrite !run_handler. cbn.
  destruct (run_forMessages_malformed E cfg BigNumber_mul JSON_parse
              before message after [] w err Hparse) as (Ho & Hf & Ht).
  destruct (Relay.outcome (Relay.run E (Relay.forMessages _ _ _ (before ++ _) []) w));
    [discriminate|done].
Qed.

Lemma malformed_body_ends_the_batch_witness :
  Relay.outcome
    (Relay.run Ledger.env
       (Relay.handler Relay.config Ledger.BigNumber_mul Ledger.JSON_parse
          ([Ledger.msg "n0" "h0"] ++ Ledger.msg "{" "h1" :: [Ledger.msg "n1" "h2"]))
       (Ledger.genesis (10 ^ 9) (10 ^ 9)))
    = Ok (Relay.Status500 "Internal server error")
  /\ Relay.final
       (Relay.run Ledger.env
          (Relay.handler Relay.config Ledger.BigNumber_mul Ledger.JSON_parse
             ([Ledger.msg "n0" "h0"] ++ Ledger.msg "{" "h1" :: [Ledger.msg "n1" "h2"]))
          (Ledger.genesis (10 ^ 9) (10 ^ 9)))
     = Relay.final
         (Relay.run Ledger.env
            (Relay.handler Relay.config Ledger.BigNumber_mul Ledger.JSON_parse
               [Ledger.msg "n0" "h0"])
            (Ledger.genesis (10 ^ 9) (10 ^ 9)))
  /\ Relay.trace
       (Relay.run Ledger.env
          (Relay.handler Relay.config Ledger.BigNumber_mul Ledger.JSON_parse
             ([Ledger.msg "n0" "h0"] ++ Ledger.msg "{" "h1" :: [Ledger.msg "n1" "h2"]))
          (Ledger.genesis (10 ^ 9) (10 ^ 9)))
     = Relay.trace
         (Relay.run Ledger.env
            (Relay.handler Relay.config Ledger.BigNumber_mul Ledger.JSON_parse
               [Ledger.msg "n0" "h0"])
            (Ledger.genesis (10 ^ 9) (10 ^ 9))).
Proof.
  apply (malformed_body_ends_the_batch Ledger.env Relay.config Ledger.BigNumber_mul
           Ledger.JSON_parse [Ledger.msg "n0" "h0"] (Ledger.msg "{" "h1")
           [Ledger.msg "n1" "h2"] (Ledger.genesis (10 ^ 9) (10 ^ 9))
           "Unexpected token in JSON").
  reflexivity.
Defined.

(** ** The owner's functions *)

Section OwnerFacts.

Import Forwarder TokenPaymentForwarder.

Lemma transact_owner c call : _owner (transact c call) = _owner c.
Proof.
  destruct call as [sender v|sender t]; cbn;
    unfold setMinPayment, setPaymentToken, onlyOwner, require;
    destruct (_owner c =? sender); cbn; try reflexivity.
  by destruct (negb (t =? 0)).
Qed.

Lemma transact_nonces c call :
  _nonces (storage (transact c call)) = _nonces (storage c).
Proof.
  destruct call as [sender v|sender t]; cbn;
    unfold setMinPayment, setPaymentToken, onlyOwner, require;
    destruct (_owner c =? sender); cbn; try reflexivity.
  by destruct (negb (t =? 0)).
Qed.

Lemma transact_paymentToken c call :
  paymentToken (storage c) <> 0 ->
  paymentToken (storage (transact c call)) <> 0.
Proof.
  intros Hc. destruct call as [sender v|sender t]; cbn;
    unfold setMinPayment, setPaymentToken, onlyOwner, require;
    destruct (_owner c =? sender); cbn; try assumption.
  destruct (Z.eqb_spec t 0); cbn; assumption.
Qed.

Lemma transact_minPayment c call :
  minPayment (storage (transact c call))
  = default (minPayment (storage c)) (last (ownerMinimums (_owner c) [call])).
Proof.
  destruct call as [sender v|sender t]; cbn;
    unfold setMinPayment, setPaymentToken, onlyOwner, require;
    destruct (_owner c =? sender); cbn; try reflexivity.
  by destruct (negb (t =? 0)).
Qed.

Lemma default_last_cons {A} (a v : A) l :
  default a (last (v :: l)) = default v (last l).
Proof.
  destruct l as [|x l]; [done|]. cbn [last].
  destruct (last (x :: l)) eqn:Hl; [done|]. by apply last_None in Hl.
Qed.

End OwnerFacts.

(** [setMinPayment], [setPaymentToken] and [withdrawPayments] revert with
    "Ownable: caller is not the owner" for every caller but the owner,
    whatever the arguments: the modifier runs before the zero-address
    checks and before the token is called. *)
Theorem only_the_owner_administers Token token_transfer this c tok msg_sender :
  msg_sender <> TokenPaymentForwarder._owner c ->
  (forall _minPayment,
     TokenPaymentForwarder.setMinPayment c msg_sender _minPayment
     = Err "Ownable: caller is not the owner")
  /\ (forall _paymentToken,
        TokenPaymentForwarder.setPaymentToken c msg_sender _paymentToken
        = Err "Ownable: caller is not the owner")
  /\ (forall recipient amount,
        TokenPaymentForwarder.withdrawPayments Token token_transfer this c tok
          msg_sender recipient amount
        = Err "Ownable: caller is not the owner").
Proof.
  intros Hne.
  assert (Hb : (TokenPaymentForwarder._owner c =? msg_sender) = false)
    by (apply Z.eqb_neq; congruence).
  unfold TokenPaymentForwarder.setMinPayment, TokenPaymentForwarder.setPaymentToken,
    TokenPaymentForwarder.withdrawPayments, TokenPaymentForwarder.onlyOwner.
  rewrite Hb. by cbn.
Qed.

Lemma only_the_owner_administers_witness :
  (forall _minPayment,
     TokenPaymentForwarder.setMinPayment
       {| TokenPaymentForwarder.storage := Ledger.forwarder (Ledger.genesis 0 0);
          TokenPaymentForwarder._owner := 79 |}
       Ledger.alice _minPayment
     = Err "Ownable: caller is not the owner")
  /\ (forall _paymentToken,
        TokenPaymentForwarder.setPaymentToken
          {| TokenPaymentForwarder.storage := Ledger.forwarder (Ledger.genesis 0 0);
             TokenPaymentForwarder._owner := 79 |}
          Ledger.alice _paymentToken
        = Err "Ownable: caller is not the owner")
  /\ (forall recipient amount,
        TokenPaymentForwarder.withdrawPayments Z
          (fun balance _ _ amount => Ok (true, balance - amount)) 70
          {| TokenPaymentForwarder.storage := Ledger.forwarder (Ledger.genesis 0 0);
             TokenPaymentForwarder._owner := 79 |}
          1000000 Ledger.alice recipient amount
        = Err "Ownable: caller is not the owner").
Proof.
  apply (only_the_owner_administers Z
           (fun balance _ _ amount => Ok (true, balance - amount)) 70
           {| TokenPaymentForwarder.storage := Ledger.forwarder (Ledger.genesis 0 0);
              TokenPaymentForwarder._owner := 79 |}
           1000000 Ledger.alice).
  discriminate.
Defined.

(** No sequence of [setMinPayment] and [setPaymentToken] transactions, by
    whomever, changes what [verify] answers for any request and signature,
    nor who the owner is: the setters leave the nonce registry alone. *)
Theorem setters_keep_the_nonce_registry keccak256 _TYPEHASH _hashTypedDataV4
    recover c calls req signature :
  Forwarder.verify keccak256 _TYPEHASH _hashTypedDataV4 recover
    (TokenPaymentForwarder.storage (foldl TokenPaymentForwarder.transact c calls))
    req signature
  = Forwarder.verify keccak256 _TYPEHASH _hashTypedDataV4 recover
      (TokenPaymentForwarder.storage c) req signature
  /\ TokenPaymentForwarder._owner (foldl TokenPaymentForwarder.transact c calls)
     = TokenPaymentForwarder._owner c.
Proof.
  revert c. induction calls as [|call calls IH]; intros c; cbn; [done|].
  destruct (IH (TokenPaymentForwarder.transact c call)) as [Hv Ho].
  rewrite Hv, Ho, transact_owner. split; [|done].
  unfold Forwarder.verify, Forwarder.getNonce. by rewrite transact_nonces.
Qed.

(** The payment token is never the zero address: the constructor refuses
    it, and so does [setPaymentToken], in every sequence of setter
    transactions after deployment. *)
Theorem payment_token_is_never_zero deployer _paymentToken _minPayment c calls :
  TokenPaymentForwarder.constructor deployer _paymentToken _minPayment = Ok c ->
  Forwarder.paymentToken
    (TokenPaymentForwarder.storage (foldl TokenPaymentForwarder.transact c calls))
  <> 0.
Proof.
  intros Hc.
  assert (H0 : Forwarder.paymentToken (TokenPaymentForwarder.storage c) <> 0).
  { unfold TokenPaymentForwarder.constructor, require in Hc.
    destruct (Z.eqb_spec _paymentToken 0); cbn in Hc; [discriminate|].
    by injection Hc as <-. }
  clear Hc. revert c H0. induction calls as [|call calls IH]; intros c H0; cbn.
  - exact H0.
  - by apply IH, transact_paymentToken.
Qed.

Lemma payment_token_is_never_zero_witness :
  Forwarder.paymentToken
    (TokenPaymentForwarder.storage
       (foldl TokenPaymentForwarder.transact
          {| TokenPaymentForwarder.storage :=
               {| Forwarder._nonces := ∅; Forwarder.paymentToken := 777;
                  Forwarder.minPayment := 1000000 |};
             TokenPaymentForwarder._owner := 79 |}
          [TokenPaymentForwarder.SetPaymentToken 79 0;
           TokenPaymentForwarder.SetPaymentToken 65 778;
           TokenPaymentForwarder.SetPaymentToken 79 779]))
  <> 0.
Proof.
  apply (payment_token_is_never_zero 79 777 1000000). reflexivity.
Defined.

(** After any sequence of setter transactions the minimum payment is the
    value the owner passed to [setMinPayment] last, or the initial one if
    the owner never called it; calls by other senders have no effect. *)
Theorem minimum_is_the_owners_last c calls :
  Forwarder.minPayment
    (TokenPaymentForwarder.storage (foldl TokenPaymentForwarder.transact c calls))
  = default (Forwarder.minPayment (TokenPaymentForwarder.storage c))
      (last (TokenPaymentForwarder.ownerMinimums (TokenPaymentForwarder._owner c) calls)).
Proof.
  revert c. induction calls as [|call calls IH]; intros c; cbn; [done|].
  rewrite IH, transact_owner, transact_minPayment.
  unfold TokenPaymentForwarder.ownerMinimums. cbn.
  destruct call as [sender v|sender t]; cbn; [|done].
  destruct (TokenPaymentForwarder._owner c =? sender); cbn; [|done].
  symmetry. apply default_last_cons.
Qed.

(** [executeWithPayment] returns exactly when [verify] accepts the request,
    the payment is at least [minPayment] and within the signer's allowance
    to the contract, the token's [transferFrom] returned true, and the
    forwarded [execute], run on the state after the payment, returned
    success. It never returns with [success = false]: in every other case
    the transaction reverts and the payment is not kept. *)
Theorem payment_and_execution_are_atomic keccak256 _TYPEHASH _hashTypedDataV4
    recover Token token_allowance token_transferFrom execute this
    st tok req signature paymentInfo result s' :
  Forwarder.executeWithPayment keccak256 _TYPEHASH _hashTypedDataV4 recover
    Token token_allowance token_transferFrom execute this
    (st, tok) req signature paymentInfo
  = Ok (result, s')
  <->
  Forwarder.verify keccak256 _TYPEHASH _hashTypedDataV4 recover st req signature
    = Ok true
  /\ Forwarder.minPayment st <= Forwarder.payment paymentInfo
       <= token_allowance tok (Forwarder.from req) this
  /\ exists tok' returndata,
       token_transferFrom tok (Forwarder.from req) this
         (Forwarder.payment paymentInfo)
       = Ok (true, tok')
       /\ execute (st, tok') req signature = Ok ((true, returndata), s')
       /\ result = (true, returndata).
Proof.
  unfold Forwarder.executeWithPayment, Forwarder.verifyPayment, require.
  destruct (Forwarder.verify _ _ _ _ st req signature) as [[|]|msg]; cbn;
    try (split; [discriminate | intros [[=] _]]).
  destruct (Z.ltb_spec (Forwarder.payment paymentInfo) (Forwarder.minPayment st));
    cbn; [split; [discriminate | intros (_ & Hb & _); lia]|].
  destruct (Z.ltb_spec (token_allowance tok (Forwarder.from req) this)
              (Forwarder.payment paymentInfo)); cbn;
    [split; [discriminate | intros (_ & Hb & _); lia]|].
  destruct (token_transferFrom tok (Forwarder.from req) this
              (Forwarder.payment paymentInfo))
    as [[[|] tok']|msg]; cbn;
    try (split; [discriminate | intros (_ & _ & ? & ? & [=] & _)]).
  destruct (execute (st, tok') req signature) as [[[[|] rd] s'']|msg] eqn:He; cbn.
  - split.
    + intros [= <- <-]. repeat split; try lia. by exists tok', rd.
    + intros (_ & _ & ? & rd' & [= <-] & Hx & ->). rewrite He in Hx.
      by injection Hx as <- <-.
  - split; [discriminate|].
    intros (_ & _ & ? & rd' & [= <-] & Hx & _). rewrite He in Hx. discriminate.
  - split; [discriminate|].
    intros (_ & _ & ? & rd' & [= <-] & Hx & _). rewrite He in Hx. discriminate.
Qed.

(** ** The sign of the computed payment *)

Lemma binary_round_aux_not_negative mx ex lx :
  not_negative (binary_round_aux 53 1024 false mx ex lx).
Proof.
  unfold binary_round_aux.
  destruct (shr_fexp 53 1024 mx ex lx) as [mrs' e'].
  destruct (shr_fexp 53 1024 _ e' loc_Exact) as [mrs'' e''].
  destruct (shr_m mrs''); cbn; [done| |done].
  by destruct (_ <=? _).
Qed.

Lemma fmul_not_negative x m e :
  not_negative x -> not_negative (Fee.fmul x (S754_finite false m e)).
Proof.
  destruct x as [s|s| |[|] mx ex]; cbn; try done.
  intros _. apply binary_round_aux_not_negative.
Qed.

Lemma parseFloat_formatEther_not_negative wei :
  0 <= wei -> not_negative (Fee.parseFloat (Fee.formatEther wei)).
Proof.
  intros Hw. unfold Fee.parseFloat, Fee.formatEther. cbn [Fee.digits Fee.scale].
  change (Fee.exact (10 ^ 18)) with (S754_finite false 1000000000000000000 0).
  destruct wei as [|p|p]; [done| |lia].
  unfold Fee.exact, Fee.fdiv, SFdiv.
  destruct (SFdiv_core_binary 53 1024 _ _ _ _) as [[mz ez] lz].
  apply binary_round_aux_not_negative.
Qed.

Lemma toFixed_not_negative fractionDigits x d :
  0 <= fractionDigits -> not_negative x ->
  Fee.toFixed fractionDigits x = Some d ->
  0 <= Fee.digits d /\ Fee.scale d = fractionDigits.
Proof.
  intros Hf Hx. destruct x as [s|s| |[|] m e]; cbn; try done.
  - intros [= <-]. by cbn.
  - destruct (_ <=? _); [done|]. intros [= <-]. cbn. split; [|done].
    apply Z.div_pos; [|nia].
    assert (0 < 2 ^ Z.max e 0) by (apply Z.pow_pos_nonneg; lia).
    assert (0 < 10 ^ fractionDigits) by (apply Z.pow_pos_nonneg; lia).
    assert (0 < 2 ^ Z.max (- e) 0) by (apply Z.pow_pos_nonneg; lia).
    nia.
Qed.

(** For a non-negative gas cost, whatever [calculatePayment] returns is
    not negative. *)
Theorem payment_is_never_negative gasLimit gasPrice payment :
  0 <= gasLimit * gasPrice ->
  Fee.calculatePayment gasLimit gasPrice = Ok payment ->
  0 <= payment.
Proof.
  intros Hg. unfold Fee.calculatePayment.
  pose proof (parseFloat_formatEther_not_negative _ Hg) as H1.
  apply (fmul_not_negative _ 3000 0) in H1.
  apply (fmul_not_negative _ 4953959590107546 (-52)) in H1.
  rewrite <- profitMargin_value in H1.
  change (S754_finite false 3000 0) with Fee.ethToUsdRate in H1.
  destruct (Fee.toFixed 6 _) as [d|] eqn:Hd; [|discriminate].
  destruct (toFixed_not_negative 6 _ d ltac:(lia) H1 Hd) as [Hpos Hscale].
  unfold Fee.parseUnits. rewrite Hscale. cbn.
  intros [= <-]. lia.
Qed.

Lemma payment_is_never_negative_witness :
  Fee.calculatePayment 500000 20000000000 = Ok 33000000 /\ 0 <= 33000000.
Proof.
  split; [vm_compute; reflexivity|].
  apply (payment_is_never_negative 500000 20000000000 33000000);
    [lia | vm_compute; reflexivity].
Defined.

(** ** The client SDK *)

#[global] Arguments Async.ends : simpl never.
#[global] Arguments TypedData.getDomainData : simpl never.
#[global] Arguments TypedData.signRequest : simpl never.

Lemma async_ends_run {Call A} (E : Async.Env Call) P (p : Async.Prog Call A) t w :
  Async.ends P p t ->
  P (t ++ snd (Async.run E p w)) (fst (Async.run E p w)).
Proof.
  revert t w. induction p as [a|m|X c k IH]; intros t w Hp; cbn.
  - rewrite app_nil_r. exact Hp.
  - rewrite app_nil_r. exact Hp.
  - rewrite cons_middle, app_assoc. apply IH, Hp.
Qed.

Ltac async_step :=
  lazymatch goal with
  | |- Async.ends _ (if negb ?b then _ else _) _ => destruct b eqn:?; cbn
  | |- Async.ends _ (if ?b then _ else _) _ => destruct b eqn:?; cbn
  | |- Async.ends _ (Async.lift ?r ≫= _) _ => destruct r eqn:?; cbn
  | |- Async.ends _ ((Async.lift ?r ≫= _) ≫= _) _ => destruct r eqn:?; cbn
  | |- Async.ends _ (Async.bind (Async.lift ?r ≫= _) _) _ =>
      destruct r eqn:?; cbn
  | |- Async.ends _ ((if ?b then _ else _) ≫= _) _ => destruct b eqn:?; cbn
  | |- Async.ends _ (Async.bind (if ?b then _ else _) _) _ => destruct b eqn:?; cbn
  | |- Async.ends _ (match ?o with Some _ => _ | None => _ end) _ =>
      destruct o eqn:?; cbn
  | |- Async.ends _ (Async.await _) _ => unfold Async.await
  | |- Async.ends _ (Async.Await _ _) _ =>
      unfold Async.ends; fold @Async.ends; intros [?|?]; cbn
  | |- Async.ends _ (Async.Ret _) _ => unfold Async.ends
  | |- Async.ends _ (mret _) _ => unfold Async.ends, mret, Async.prog_ret
  | |- Async.ends _ (Async.Throw _) _ => unfold Async.ends
  end.

Ltac unfold_sdk :=
  unfold Sdk.transferUSDT, Sdk.hasUSDTBalance, Sdk.approveUSDT,
    Sdk.createForwardRequest, Sdk.signRequest, Sdk.getDomainData,
    Sdk.submitToRelayer; cbn.

Section SdkFacts.

Import Async Sdk.

Variable parseUnits : string -> Z -> result Z.
Variable formatUnits : Z -> Z -> string.
Variable encodeFunctionData_transfer : string -> Z -> result bytes.
Variable usdtAddress forwarderAddress : Z.
Variable relayerUrl : string.

Abbreviation transferUSDT :=
  (Sdk.transferUSDT parseUnits formatUnits encodeFunctionData_transfer
     usdtAddress forwarderAddress relayerUrl).

Lemma transferUSDT_checks_balance recipient amount payment :
  ends
    (fun t o => forall transferred paid required balance,
       parseUnits amount 6 = Ok transferred ->
       parseUnits payment 6 = Ok paid ->
       parseUnits (formatUnits (transferred + paid) 6) 6 = Ok required ->
       omap balanceRead t = [balance] ->
       balance < required ->
       o = Err "Insufficient USDT balance"
       /\ approvals t = [] /\ signings t = [] /\ posts t = [])
    (transferUSDT recipient amount payment) [].
Proof.
  unfold_sdk. repeat async_step.
  all: intros tr pd rq bal Ht Hp Hr Hb Hlt; simplify_eq/=; try done.
  all: exfalso.
  all: repeat match goal with
         | H1 : ?x = Ok _, H2 : ?x = Ok _ |- _ =>
             rewrite H1 in H2; injection H2 as <-
         | H1 : ?x = Ok _, H2 : ?x = Err _ |- _ =>
             rewrite H1 in H2; discriminate
         end.
  all: lia.
Qed.

Lemma transferUSDT_approves_total recipient amount payment :
  ends
    (fun t o => forall spender value,
       (spender, value) ∈ approvals t ->
       exists transferred paid allowed,
         parseUnits amount 6 = Ok transferred
         /\ parseUnits payment 6 = Ok paid
         /\ parseUnits (formatUnits (transferred + paid) 6) 6 = Ok value
         /\ approvals t = [(forwarderAddress, value)]
         /\ omap allowanceRead t = [allowed]
         /\ allowed < transferred + paid)
    (transferUSDT recipient amount payment) [].
Proof.
  unfold_sdk. repeat async_step.
  all: intros sp v Hin; cbn in Hin; try (by apply elem_of_nil in Hin).
  all: apply list_elem_of_singleton in Hin; injection Hin as -> ->.
  all: do 3 eexists; repeat split; try reflexivity; try eassumption; lia.
Qed.

Lemma transferUSDT_posts_signed recipient amount payment :
  ends
    (fun t o => forall url request signature,
       (url, request, signature) ∈ posts t ->
       url = relayerUrl
       /\ (exists chainId,
             omap networkRead t = [chainId]
             /\ (TypedData.getDomainData chainId forwarderAddress,
                 TypedData.types_ForwardRequest
                   (TypedData.signRequest chainId forwarderAddress),
                 request, signature) ∈ signings t)
       /\ exists transferred paid,
            parseUnits amount 6 = Ok transferred
            /\ parseUnits payment 6 = Ok paid
            /\ to request = usdtAddress
            /\ value request = 0
            /\ gas request = 300000
            /\ encodeFunctionData_transfer recipient transferred
               = Ok (data request)
            /\ Sdk.payment request = paid
            /\ last (omap addressRead t) = Some (from request)
            /\ (from request, nonce request) ∈ omap nonceRead t)
    (transferUSDT recipient amount payment) [].
Proof.
  unfold_sdk. repeat async_step.
  all: intros u rq sg Hin; cbn in Hin; try (by apply elem_of_nil in Hin).
  all: apply list_elem_of_singleton in Hin; injection Hin as -> -> ->.
  all: split; [reflexivity|]; split;
    [eexists; split; [reflexivity|]; cbn; apply list_elem_of_here|].
  all: do 2 eexists; repeat split; cbn; try eassumption; set_solver.
Qed.

Lemma transferUSDT_relayer_answer recipient amount payment :
  ends
    (fun t o => forall response,
       response ∈ omap fetched t ->
       if ok response then omap jsonRead t = [o]
       else omap jsonRead t = []
            /\ forall text, omap textRead t = [text] ->
                  o = Err ("Relayer error: " +:+ text))
    (transferUSDT recipient amount payment) [].
Proof.
  unfold_sdk. repeat async_step.
  all: intros rs Hin; cbn in Hin; try (by apply elem_of_nil in Hin).
  all: apply list_elem_of_singleton in Hin; subst rs.
  all: match goal with H : ok _ = _ |- _ => rewrite H end; cbn; try reflexivity.
  all: split; [reflexivity|]; intros text [=]; by subst.
Qed.

End SdkFacts.

(** [transferUSDT] formats amount plus payment and parses the string
    again; with a balance below what that gives it throws "Insufficient
    USDT balance" before anything is approved, signed or posted to the
    relayer. *)
Theorem transferUSDT_stops_without_balance E parseUnits formatUnits
    encodeFunctionData_transfer usdtAddress forwarderAddress relayerUrl
    recipient amount payment w transferred paid required balance :
  parseUnits amount 6 = Ok transferred ->
  parseUnits payment 6 = Ok paid ->
  parseUnits (formatUnits (transferred + paid) 6) 6 = Ok required ->
  omap Sdk.balanceRead
    (snd (Async.run E
            (Sdk.transferUSDT parseUnits formatUnits encodeFunctionData_transfer
               usdtAddress forwarderAddress relayerUrl
               recipient amount payment) w))
    = [balance] ->
  balance < required ->
  fst (Async.run E
         (Sdk.transferUSDT parseUnits formatUnits encodeFunctionData_transfer
            usdtAddress forwarderAddress relayerUrl
            recipient amount payment) w)
    = Err "Insufficient USDT balance"
  /\ Sdk.approvals
       (snd (Async.run E
               (Sdk.transferUSDT parseUnits formatUnits encodeFunctionData_transfer
                  usdtAddress forwarderAddress relayerUrl
                  recipient amount payment) w))
     = []
  /\ Sdk.signings
       (snd (Async.run E
               (Sdk.transferUSDT parseUnits formatUnits encodeFunctionData_transfer
                  usdtAddress forwarderAddress relayerUrl
                  recipient amount payment) w))
     = []
  /\ Sdk.posts
       (snd (Async.run E
               (Sdk.transferUSDT parseUnits formatUnits encodeFunctionData_transfer
                  usdtAddress forwarderAddress relayerUrl
                  recipient amount payment) w))
     = [].
Proof.
  exact (async_ends_run E _ _ [] w
           (transferUSDT_checks_balance parseUnits formatUnits
              encodeFunctionData_transfer usdtAddress forwarderAddress relayerUrl
              recipient amount payment)
           transferred paid required balance).
Qed.

Lemma transferUSDT_stops_without_balance_witness :
  fst (Async.run Sdk.services (Sdk.example "10.0" "1.0")
         (Sdk.holder 5000000 0 true))
    = Err "Insufficient USDT balance"
  /\ Sdk.approvals
       (snd (Async.run Sdk.services (Sdk.example "10.0" "1.0")
               (Sdk.holder 5000000 0 true)))
     = []
  /\ Sdk.signings
       (snd (Async.run Sdk.services (Sdk.example "10.0" "1.0")
               (Sdk.holder 5000000 0 true)))
     = []
  /\ Sdk.posts
       (snd (Async.run Sdk.services (Sdk.example "10.0" "1.0")
               (Sdk.holder 5000000 0 true)))
     = [].
Proof.
  apply (transferUSDT_stops_without_balance Sdk.services
           Sdk.parseUnits_example Sdk.formatUnits_example
           Sdk.encodeFunctionData_example 777 70 "https://relayer"
           Sdk.bob "10.0" "1.0" (Sdk.holder 5000000 0 true)
           10000000 1000000 11000000 5000000); [reflexivity .. | lia].
Defined.

(** [transferUSDT] approves at most once, and only when the allowance it
    read is below amount plus payment; the approval names the forwarder
    contract as spender, and its value is what [parseUnits] gives for the
    string formatted from amount plus payment. *)
Theorem transferUSDT_approves_the_total_once E parseUnits formatUnits
    encodeFunctionData_transfer usdtAddress forwarderAddress relayerUrl
    recipient amount payment w spender value :
  (spender, value)
    ∈ Sdk.approvals
        (snd (Async.run E
                (Sdk.transferUSDT parseUnits formatUnits
                   encodeFunctionData_transfer usdtAddress forwarderAddress
                   relayerUrl recipient amount payment) w)) ->
  exists transferred paid allowed,
    parseUnits amount 6 = Ok transferred
    /\ parseUnits payment 6 = Ok paid
    /\ parseUnits (formatUnits (transferred + paid) 6) 6 = Ok value
    /\ Sdk.approvals
         (snd (Async.run E
                 (Sdk.transferUSDT parseUnits formatUnits
                    encodeFunctionData_transfer usdtAddress forwarderAddress
                    relayerUrl recipient amount payment) w))
       = [(forwarderAddress, value)]
    /\ omap Sdk.allowanceRead
         (snd (Async.run E
                 (Sdk.transferUSDT parseUnits formatUnits
                    encodeFunctionData_transfer usdtAddress forwarderAddress
                    relayerUrl recipient amount payment) w))
       = [allowed]
    /\ allowed < transferred + paid.
Proof.
  exact (async_ends_run E _ _ [] w
           (transferUSDT_approves_total parseUnits formatUnits
              encodeFunctionData_transfer usdtAddress forwarderAddress relayerUrl
              recipient amount payment)
           spender value).
Qed.

Lemma transferUSDT_approves_the_total_once_witness :
  exists transferred paid allowed,
    Sdk.parseUnits_example "10.0" 6 = Ok transferred
    /\ Sdk.parseUnits_example "1.0" 6 = Ok paid
    /\ Sdk.parseUnits_example
         (Sdk.formatUnits_example (transferred + paid) 6) 6 = Ok 11000000
    /\ Sdk.approvals
         (snd (Async.run Sdk.services (Sdk.example "10.0" "1.0")
                 (Sdk.holder 50000000 0 true)))
       = [(70, 11000000)]
    /\ omap Sdk.allowanceRead
         (snd (Async.run Sdk.services (Sdk.example "10.0" "1.0")
                 (Sdk.holder 50000000 0 true)))
       = [allowed]
    /\ allowed < transferred + paid.
Proof.
  apply (transferUSDT_approves_the_total_once Sdk.services
           Sdk.parseUnits_example Sdk.formatUnits_example
           Sdk.encodeFunctionData_example 777 70 "https://relayer"
           Sdk.bob "10.0" "1.0" (Sdk.holder 50000000 0 true)
           70 11000000).
  vm_compute. apply list_elem_of_here.
Defined.

(** What [transferUSDT] posts to the relayer is what it had signed: the
    request goes to [relayerUrl] with the signature obtained for it under
    the domain of [getDomainData] for the chain id read; the request is for
    the token contract, with value 0, gas 300000, the [transfer] call data
    encoded for the recipient and the parsed amount, the parsed payment,
    the signer's address as read last, and the nonce the forwarder reported
    for that address. *)
Theorem transferUSDT_posts_what_it_signed E parseUnits formatUnits
    encodeFunctionData_transfer usdtAddress forwarderAddress relayerUrl
    recipient amount payment w url request signature :
  (url, request, signature)
    ∈ Sdk.posts
        (snd (Async.run E
                (Sdk.transferUSDT parseUnits formatUnits
                   encodeFunctionData_transfer usdtAddress forwarderAddress
                   relayerUrl recipient amount payment) w)) ->
  url = relayerUrl
  /\ (exists chainId,
        omap Sdk.networkRead
          (snd (Async.run E
                  (Sdk.transferUSDT parseUnits formatUnits
                     encodeFunctionData_transfer usdtAddress forwarderAddress
                     relayerUrl recipient amount payment) w))
        = [chainId]
        /\ (TypedData.getDomainData chainId forwarderAddress,
            TypedData.types_ForwardRequest
              (TypedData.signRequest chainId forwarderAddress),
            request, signature)
             ∈ Sdk.signings
                 (snd (Async.run E
                         (Sdk.transferUSDT parseUnits formatUnits
                            encodeFunctionData_transfer usdtAddress
                            forwarderAddress relayerUrl recipient amount
                            payment) w)))
  /\ exists transferred paid,
       parseUnits amount 6 = Ok transferred
       /\ parseUnits payment 6 = Ok paid
       /\ Sdk.to request = usdtAddress
       /\ Sdk.value request = 0
       /\ Sdk.gas request = 300000
       /\ encodeFunctionData_transfer recipient transferred
          = Ok (Sdk.data request)
       /\ Sdk.payment request = paid
       /\ last (omap Sdk.addressRead
                  (snd (Async.run E
                          (Sdk.transferUSDT parseUnits formatUnits
                             encodeFunctionData_transfer usdtAddress
                             forwarderAddress relayerUrl recipient amount
                             payment) w)))
          = Some (Sdk.from request)
       /\ (Sdk.from request, Sdk.nonce request)
            ∈ omap Sdk.nonceRead
                (snd (Async.run E
                        (Sdk.transferUSDT parseUnits formatUnits
                           encodeFunctionData_transfer usdtAddress
                           forwarderAddress relayerUrl recipient amount
                           payment) w)).
Proof.
  exact (async_ends_run E _ _ [] w
           (transferUSDT_posts_signed parseUnits formatUnits
              encodeFunctionData_transfer usdtAddress forwarderAddress relayerUrl
              recipient amount payment)
           url request signature).
Qed.

(** When the relayer's response is not ok, [transferUSDT] throws "Relayer
    error: " followed by the response text and never reads the response as
    JSON; when it is ok, the result is whatever reading the JSON gave. *)
Theorem transferUSDT_reports_the_relayer E parseUnits formatUnits
    encodeFunctionData_transfer usdtAddress forwarderAddress relayerUrl
    recipient amount payment w response :
  response
    ∈ omap Sdk.fetched
        (snd (Async.run E
                (Sdk.transferUSDT parseUnits formatUnits
                   encodeFunctionData_transfer usdtAddress forwarderAddress
                   relayerUrl recipient amount payment) w)) ->
  if Sdk.ok response
  then omap Sdk.jsonRead
         (snd (Async.run E
                 (Sdk.transferUSDT parseUnits formatUnits
                    encodeFunctionData_transfer usdtAddress forwarderAddress
                    relayerUrl recipient amount payment) w))
       = [fst (Async.run E
                 (Sdk.transferUSDT parseUnits formatUnits
                    encodeFunctionData_transfer usdtAddress forwarderAddress
                    relayerUrl recipient amount payment) w)]
  else omap Sdk.jsonRead
         (snd (Async.run E
                 (Sdk.transferUSDT parseUnits formatUnits
                    encodeFunctionData_transfer usdtAddress forwarderAddress
                    relayerUrl recipient amount payment) w))
       = []
       /\ forall text,
            omap Sdk.textRead
              (snd (Async.run E
                      (Sdk.transferUSDT parseUnits formatUnits
                         encodeFunctionData_transfer usdtAddress
                         forwarderAddress relayerUrl recipient amount
                         payment) w))
            = [text] ->
            fst (Async.run E
                   (Sdk.transferUSDT parseUnits formatUnits
                      encodeFunctionData_transfer usdtAddress forwarderAddress
                      relayerUrl recipient amount payment) w)
            = Err ("Relayer error: " +:+ text).
Proof.
  exact (async_ends_run E _ _ [] w
           (transferUSDT_relayer_answer parseUnits formatUnits
              encodeFunctionData_transfer usdtAddress forwarderAddress relayerUrl
              recipient amount payment)
           response).
Qed.

Lemma transferUSDT_posts_what_it_signed_witness :
  "https://relayer" = "https://relayer"
  /\ (exists chainId,
        omap Sdk.networkRead
          (snd (Async.run Sdk.services (Sdk.example "10.0" "1.0")
                  (Sdk.holder 50000000 50000000 true)))
        = [chainId]
        /\ (TypedData.getDomainData chainId 70,
            TypedData.types_ForwardRequest (TypedData.signRequest chainId 70),
            Sdk.example_request, Ledger.sign Byte.x41)
             ∈ Sdk.signings
                 (snd (Async.run Sdk.services (Sdk.example "10.0" "1.0")
                         (Sdk.holder 50000000 50000000 true))))
  /\ exists transferred paid,
       Sdk.parseUnits_example "10.0" 6 = Ok transferred
       /\ Sdk.parseUnits_example "1.0" 6 = Ok paid
       /\ Sdk.to Sdk.example_request = 777
       /\ Sdk.value Sdk.example_request = 0
       /\ Sdk.gas Sdk.example_request = 300000
       /\ Sdk.encodeFunctionData_example Sdk.bob transferred
          = Ok (Sdk.data Sdk.example_request)
       /\ Sdk.payment Sdk.example_request = paid
       /\ last (omap Sdk.addressRead
                  (snd (Async.run Sdk.services (Sdk.example "10.0" "1.0")
                          (Sdk.holder 50000000 50000000 true))))
          = Some (Sdk.from Sdk.example_request)
       /\ (Sdk.from Sdk.example_request, Sdk.nonce Sdk.example_request)
            ∈ omap Sdk.nonceRead
                (snd (Async.run Sdk.services (Sdk.example "10.0" "1.0")
                        (Sdk.holder 50000000 50000000 true))).
Proof.
  apply (transferUSDT_posts_what_it_signed Sdk.services
           Sdk.parseUnits_example Sdk.formatUnits_example
           Sdk.encodeFunctionData_example 777 70 "https://relayer"
           Sdk.bob "10.0" "1.0" (Sdk.holder 50000000 50000000 true)
           "https://relayer" Sdk.example_request (Ledger.sign Byte.x41)).
  vm_compute. apply list_elem_of_here.
Defined.

Lemma transferUSDT_reports_the_relayer_witness :
  omap Sdk.jsonRead
    (snd (Async.run Sdk.services (Sdk.example "10.0" "1.0")
            (Sdk.holder 50000000 50000000 false)))
    = []
  /\ forall text,
       omap Sdk.textRead
         (snd (Async.run Sdk.services (Sdk.example "10.0" "1.0")
                 (Sdk.holder 50000000 50000000 false)))
       = [text] ->
       fst (Async.run Sdk.services (Sdk.example "10.0" "1.0")
              (Sdk.holder 50000000 50000000 false))
       = Err ("Relayer error: " +:+ text).
Proof.
  apply (transferUSDT_reports_the_relayer Sdk.services
           Sdk.parseUnits_example Sdk.formatUnits_example
           Sdk.encodeFunctionData_example 777 70 "https://relayer"
           Sdk.bob "10.0" "1.0" (Sdk.holder 50000000 50000000 false)
           {| Sdk.ok := false; Sdk.response_id := 0 |}).
  vm_compute. apply list_elem_of_here.
Defined.

(** ** The account route *)

Ltac unfold_route := unfold Accounts.GET, Accounts.PATCH; cbn.

Ltac route_step :=
  lazymatch goal with
  | |- Async.ends _ (Async.try_catch (match ?o with Some _ => _ | None => _ end) _) _ =>
      destruct o eqn:?; cbn
  | |- Async.ends _ (Async.try_catch (if ?b then _ else _) _) _ =>
      destruct b eqn:?; cbn
  | |- _ => async_step
  end.

Lemma invalid_body_false_inv rawBody :
  Accounts.invalid_body rawBody = false ->
  exists members name,
    rawBody = Accounts.JObject members
    /\ Accounts.get "name" rawBody = Some (Accounts.JString name).
Proof.
  unfold Accounts.invalid_body, Accounts.has, Accounts.name_is_string.
  destruct rawBody as [|b|x|s|items|members]; cbn; try done.
  - by destruct b.
  - by destruct x.
  - by destruct (String.eqb s "").
  - destruct (last _) as [[|b|x|s|items'|members']|] eqn:Hl; cbn; try done.
    intros _. by exists members, s.
Qed.

(** The type guard of [PATCH] lets through exactly the objects whose
    [name] member (the last one, if repeated) is a string, the empty string
    included; null, arrays, numbers, strings and objects with a missing or
    non-string [name] are rejected. *)
Theorem valid_bodies_have_a_string_name rawBody :
  Accounts.invalid_body rawBody = false
  <-> exists members name,
        rawBody = Accounts.JObject members
        /\ Accounts.get "name" rawBody = Some (Accounts.JString name).
Proof.
  split; [apply invalid_body_false_inv|].
  intros (members & name & -> & Hget).
  unfold Accounts.invalid_body, Accounts.has, Accounts.name_is_string.
  cbn in *. by rewrite Hget.
Qed.

Section RouteFacts.

Import Async Accounts.

Lemma PATCH_updates address :
  ends
    (fun t o => forall a e n,
       (a, e, n) ∈ updates t ->
       a = or_empty address
       /\ exists session rawBody,
            omap sessionRead t = [session]
            /\ session_email session = Some e
            /\ omap bodyRead t = [rawBody]
            /\ get "name" rawBody = Some (JString n))
    (PATCH address) [].
Proof.
  unfold_route. repeat route_step.
  all: intros a' e' n' Hin; cbn in Hin; try (by apply elem_of_nil in Hin).
  all: apply list_elem_of_singleton in Hin; injection Hin as -> -> ->.
  all: split; [reflexivity|].
  all: match goal with
       | H : invalid_body ?b = false |- _ =>
           apply invalid_body_false_inv in H as (ms & nm & -> & Hget)
       end.
  all: do 2 eexists; repeat split; try eassumption; try reflexivity.
  all: by rewrite Hget.
Qed.

Lemma PATCH_rejects address :
  ends
    (fun t o => forall rawBody,
       omap bodyRead t = [rawBody] ->
       invalid_body rawBody = true ->
       o = Ok invalid_request_body /\ updates t = [])
    (PATCH address) [].
Proof.
  unfold_route. repeat route_step.
  all: intros rb [=] Hinv; subst; try done.
  all: congruence.
Qed.

Lemma route_rejects_only_with_logger address :
  ends
    (fun t o =>
       match o with
       | Ok response =>
           response = NextResponse_error <-> omap logged t <> []
       | Err m => exists error, last t = Some (Ev (logger_error error) (Err m))
       end)
    (PATCH address) []
  /\ ends
       (fun t o =>
          match o with
          | Ok response =>
              response = NextResponse_error <-> omap logged t <> []
          | Err m => exists error, last t = Some (Ev (logger_error error) (Err m))
          end)
       (GET address) [].
Proof.
  split; unfold_route; repeat route_step.
  all: cbn; try (by eexists); split; try done.
Qed.

End RouteFacts.

(** Every [updateWalletName] call of [PATCH] is for the route's address
    (the empty string if none), the e-mail of the session, and the string
    found under [name] in the request body. *)
Theorem PATCH_updates_with_the_string_name E address w a e n :
  (a, e, n) ∈ Accounts.updates (snd (Async.run E (Accounts.PATCH address) w)) ->
  a = Accounts.or_empty address
  /\ exists session rawBody,
       omap Accounts.sessionRead (snd (Async.run E (Accounts.PATCH address) w))
         = [session]
       /\ Accounts.session_email session = Some e
       /\ omap Accounts.bodyRead (snd (Async.run E (Accounts.PATCH address) w))
          = [rawBody]
       /\ Accounts.get "name" rawBody = Some (Accounts.JString n).
Proof. exact (async_ends_run E _ _ [] w (PATCH_updates address) a e n). Qed.

Lemma PATCH_updates_with_the_string_name_witness :
  "0x41" = Accounts.or_empty (Some "0x41")
  /\ exists session rawBody,
       omap Accounts.sessionRead
         (snd (Async.run Accounts.site (Accounts.PATCH (Some "0x41"))
                 (Accounts.signed_in "owner@example.org"
                    (Ok (Accounts.JObject
                           [("name", Accounts.JNull);
                            ("name", Accounts.JString "savings")])))))
         = [session]
       /\ Accounts.session_email session = Some "owner@example.org"
       /\ omap Accounts.bodyRead
            (snd (Async.run Accounts.site (Accounts.PATCH (Some "0x41"))
                    (Accounts.signed_in "owner@example.org"
                       (Ok (Accounts.JObject
                              [("name", Accounts.JNull);
                               ("name", Accounts.JString "savings")])))))
          = [rawBody]
       /\ Accounts.get "name" rawBody = Some (Accounts.JString "savings").
Proof.
  apply (PATCH_updates_with_the_string_name Accounts.site (Some "0x41")
           (Accounts.signed_in "owner@example.org"
              (Ok (Accounts.JObject
                     [("name", Accounts.JNull);
                      ("name", Accounts.JString "savings")])))
           "0x41" "owner@example.org" "savings").
  vm_compute. apply list_elem_of_here.
Defined.

(** A body the type guard rejects is answered with status 400 "Invalid
    request body", and no wallet is updated. *)
Theorem PATCH_answers_400_to_other_bodies E address w rawBody :
  omap Accounts.bodyRead (snd (Async.run E (Accounts.PATCH address) w)) = [rawBody] ->
  Accounts.invalid_body rawBody = true ->
  fst (Async.run E (Accounts.PATCH address) w) = Ok Accounts.invalid_request_body
  /\ Accounts.updates (snd (Async.run E (Accounts.PATCH address) w)) = [].
Proof. exact (async_ends_run E _ _ [] w (PATCH_rejects address) rawBody). Qed.

Lemma PATCH_answers_400_to_other_bodies_witness :
  fst (Async.run Accounts.site (Accounts.PATCH (Some "0x41"))
         (Accounts.signed_in "owner@example.org"
            (Ok (Accounts.JArray [Accounts.JString "name"]))))
    = Ok Accounts.invalid_request_body
  /\ Accounts.updates
       (snd (Async.run Accounts.site (Accounts.PATCH (Some "0x41"))
               (Accounts.signed_in "owner@example.org"
                  (Ok (Accounts.JArray [Accounts.JString "name"])))))
     = [].
Proof.
  apply (PATCH_answers_400_to_other_bodies Accounts.site (Some "0x41")
           (Accounts.signed_in "owner@example.org"
              (Ok (Accounts.JArray [Accounts.JString "name"])))
           (Accounts.JArray [Accounts.JString "name"])); reflexivity.
Defined.

(** When the session has no e-mail (no session, no user, or an empty
    e-mail), [GET] and [PATCH] answer 401 "Not authorized" after that one
    call: the request body is not read and no wallet is looked up or
    updated. *)
Theorem route_answers_401_without_a_session_email E address w session :
  fst (Async.answer E _ Accounts.getServerSession w) = Ok session ->
  Accounts.session_email session = None ->
  Async.run E (Accounts.PATCH address) w
    = (Ok Accounts.not_authorized, [Async.Ev Accounts.getServerSession (Ok session)])
  /\ Async.run E (Accounts.GET address) w
     = (Ok Accounts.not_authorized, [Async.Ev Accounts.getServerSession (Ok session)]).
Proof.
  intros Hfirst Hnone.
  unfold Accounts.PATCH, Accounts.GET. cbn. rewrite Hfirst. cbn.
  by rewrite Hnone.
Qed.

Lemma route_answers_401_without_a_session_email_witness :
  Async.run Accounts.site (Accounts.PATCH None)
    {| Accounts.visitor := Some {| Accounts.user := Some {| Accounts.email := Some "" |} |};
       Accounts.sent := Err "Unexpected end of JSON input" |}
    = (Ok Accounts.not_authorized,
       [Async.Ev Accounts.getServerSession
          (Ok (Some {| Accounts.user := Some {| Accounts.email := Some "" |} |}))])
  /\ Async.run Accounts.site (Accounts.GET None)
       {| Accounts.visitor := Some {| Accounts.user := Some {| Accounts.email := Some "" |} |};
          Accounts.sent := Err "Unexpected end of JSON input" |}
     = (Ok Accounts.not_authorized,
        [Async.Ev Accounts.getServerSession
           (Ok (Some {| Accounts.user := Some {| Accounts.email := Some "" |} |}))]).
Proof.
  apply (route_answers_401_without_a_session_email Accounts.site None
           {| Accounts.visitor :=
                Some {| Accounts.user := Some {| Accounts.email := Some "" |} |};
              Accounts.sent := Err "Unexpected end of JSON input" |}
           (Some {| Accounts.user := Some {| Accounts.email := Some "" |} |}));
    reflexivity.
Defined.

(** [GET] and [PATCH] answer [NextResponse.error()] exactly when an
    exception was caught and logged, and they reject only if [logger.error]
    itself throws. *)
Theorem route_rejects_only_if_the_logger_throws E address w :
  match fst (Async.run E (Accounts.PATCH address) w) with
  | Ok response =>
      response = Accounts.NextResponse_error
      <-> omap Accounts.logged (snd (Async.run E (Accounts.PATCH address) w)) <> []
  | Err m =>
      exists error,
        last (snd (Async.run E (Accounts.PATCH address) w))
        = Some (Async.Ev (Accounts.logger_error error) (Err m))
  end
  /\ match fst (Async.run E (Accounts.GET address) w) with
     | Ok response =>
         response = Accounts.NextResponse_error
         <-> omap Accounts.logged (snd (Async.run E (Accounts.GET address) w)) <> []
     | Err m =>
         exists error,
           last (snd (Async.run E (Accounts.GET address) w))
           = Some (Async.Ev (Accounts.logger_error error) (Err m))
     end.
Proof.
  split.
  - exact (async_ends_run E _ _ [] w (proj1 (route_rejects_only_with_logger address))).
  - exact (async_ends_run E _ _ [] w (proj2 (route_rejects_only_with_logger address))).
Qed.

(** ** Batches *)

Section BatchFacts.

Import Relay.

Variable E : Env.
Variable cfg : Config.
Variable BigNumber_mul : Z -> Fee.double -> result Z.
Variable JSON_parse : string -> result MetaTx.

Abbreviation forAll := (forMessages cfg BigNumber_mul JSON_parse).
Abbreviation handle := (handler cfg BigNumber_mul JSON_parse).

(** The entries already in [results] stay in front. *)
Lemma run_forMessages_results Records results w :
  run E (forAll Records results) w =
    {| outcome :=
         match outcome (run E (forAll Records []) w) with
         | Ok pushed => Ok (results ++ pushed)
         | Err m => Err m
         end;
       final := final (run E (forAll Records []) w);
       trace := trace (run E (forAll Records []) w) |}.
Proof.
  revert results w. induction Records as [|message rest IH]; intros results w.
  - cbn. by rewrite app_nil_r.
  - cbn. destruct (JSON_parse (body message)) as [metaTx|err]; cbn; [|done].
    unfold mbind, prog_bind. rewrite !run_bind.
    destruct (outcome (run E (processAndDelete cfg BigNumber_mul message metaTx) w))
      as [pushed|err]; cbn; [|done].
    rewrite (IH (results ++ pushed)), (IH pushed). cbn.
    destruct (outcome (run E (forAll rest []) _)); cbn; [|done].
    by rewrite app_assoc.
Qed.

Lemma run_forMessages_app before after results w :
  run E (forAll (before ++ after) results) w =
    match outcome (run E (forAll before results) w) with
    | Ok first =>
        {| outcome := outcome (run E (forAll after first)
                                 (final (run E (forAll before results) w)));
           final := final (run E (forAll after first)
                             (final (run E (forAll before results) w)));
           trace := trace (run E (forAll before results) w)
                      ++ trace (run E (forAll after first)
                                  (final (run E (forAll before results) w))) |}
    | Err m => run E (forAll before results) w
    end.
Proof.
  revert results w. induction before as [|message rest IH]; intros results w.
  - cbn. by destruct (run E (forAll after results) w).
  - cbn. destruct (JSON_parse (body message)) as [metaTx|err]; cbn; [|done].
    unfold mbind, prog_bind. rewrite !run_bind.
    destruct (outcome (run E (processAndDelete cfg BigNumber_mul message metaTx) w))
      as [pushed|err]; cbn; [|done].
    rewrite IH.
    destruct (outcome (run E (forAll rest (results ++ pushed)) _)) eqn:Hout; cbn.
    + by rewrite app_assoc.
    + by rewrite Hout.
Qed.

End BatchFacts.

(** Batches compose: when the handler answers 200 for [before], handling
    [before ++ after] makes the calls for [before], then those for [after]
    in the world [before] left, and answers with the results of both in
    order, or with the 500 of [after]. *)
Theorem handler_batches_compose E cfg BigNumber_mul JSON_parse before after w first :
  Relay.outcome (Relay.run E (Relay.handler cfg BigNumber_mul JSON_parse before) w)
    = Ok (Relay.Status200 first) ->
  Relay.outcome
    (Relay.run E (Relay.handler cfg BigNumber_mul JSON_parse (before ++ after)) w)
    = match Relay.outcome
              (Relay.run E (Relay.handler cfg BigNumber_mul JSON_parse after)
                 (Relay.final
                    (Relay.run E (Relay.handler cfg BigNumber_mul JSON_parse before) w)))
      with
      | Ok (Relay.Status200 second) => Ok (Relay.Status200 (first ++ second))
      | other => other
      end
  /\ Relay.final
       (Relay.run E (Relay.handler cfg BigNumber_mul JSON_parse (before ++ after)) w)
     = Relay.final
         (Relay.run E (Relay.handler cfg BigNumber_mul JSON_parse after)
            (Relay.final
               (Relay.run E (Relay.handler cfg BigNumber_mul JSON_parse before) w)))
  /\ Relay.trace
       (Relay.run E (Relay.handler cfg BigNumber_mul JSON_parse (before ++ after)) w)
     = Relay.trace (Relay.run E (Relay.handler cfg BigNumber_mul JSON_parse before) w)
       ++ Relay.trace
            (Relay.run E (Relay.handler cfg BigNumber_mul JSON_parse after)
               (Relay.final
                  (Relay.run E (Relay.handler cfg BigNumber_mul JSON_parse before) w))).
Proof.
  rewrite !run_handler. cbn. intros Hfirst.
  rewrite run_forMessages_app.
  destruct (Relay.outcome (Relay.run E (Relay.forMessages _ _ _ before []) w))
    as [rs|m] eqn:Hb; [|discriminate].
  injection Hfirst as ->. cbn.
  rewrite (run_forMessages_results E cfg BigNumber_mul JSON_parse after first). cbn.
  by destruct (Relay.outcome (Relay.run E (Relay.forMessages _ _ _ after []) _)).
Qed.

Lemma handler_batches_compose_witness :
  Relay.outcome
    (Relay.run Ledger.env
       (Relay.handler Relay.config Ledger.BigNumber_mul Ledger.JSON_parse
          ([Ledger.msg "n0" "h0"] ++ [Ledger.msg "n1" "h1"]))
       (Ledger.genesis (10 ^ 9) (10 ^ 9)))
    = match Relay.outcome
              (Relay.run Ledger.env
                 (Relay.handler Relay.config Ledger.BigNumber_mul Ledger.JSON_parse
                    [Ledger.msg "n1" "h1"])
                 (Relay.final
                    (Relay.run Ledger.env
                       (Relay.handler Relay.config Ledger.BigNumber_mul
                          Ledger.JSON_parse [Ledger.msg "n0" "h0"])
                       (Ledger.genesis (10 ^ 9) (10 ^ 9)))))
      with
      | Ok (Relay.Status200 second) =>
          Ok (Relay.Status200
                (Ledger.replies [Ledger.msg "n0" "h0"]
                   (Ledger.genesis (10 ^ 9) (10 ^ 9)) ++ second))
      | other => other
      end
  /\ Relay.final
       (Relay.run Ledger.env
          (Relay.handler Relay.config Ledger.BigNumber_mul Ledger.JSON_parse
             ([Ledger.msg "n0" "h0"] ++ [Ledger.msg "n1" "h1"]))
          (Ledger.genesis (10 ^ 9) (10 ^ 9)))
     = Relay.final
         (Relay.run Ledger.env
            (Relay.handler Relay.config Ledger.BigNumber_mul Ledger.JSON_parse
               [Ledger.msg "n1" "h1"])
            (Relay.final
               (Relay.run Ledger.env
                  (Relay.handler Relay.config Ledger.BigNumber_mul Ledger.JSON_parse
                     [Ledger.msg "n0" "h0"])
                  (Ledger.genesis (10 ^ 9) (10 ^ 9)))))
  /\ Relay.trace
       (Relay.run Ledger.env
          (Relay.handler Relay.config Ledger.BigNumber_mul Ledger.JSON_parse
             ([Ledger.msg "n0" "h0"] ++ [Ledger.msg "n1" "h1"]))
          (Ledger.genesis (10 ^ 9) (10 ^ 9)))
     = Relay.trace
         (Relay.run Ledger.env
            (Relay.handler Relay.config Ledger.BigNumber_mul Ledger.JSON_parse
               [Ledger.msg "n0" "h0"])
            (Ledger.genesis (10 ^ 9) (10 ^ 9)))
       ++ Relay.trace
            (Relay.run Ledger.env
               (Relay.handler Relay.config Ledger.BigNumber_mul Ledger.JSON_parse
                  [Ledger.msg "n1" "h1"])
               (Relay.final
                  (Relay.run Ledger.env
                     (Relay.handler Relay.config Ledger.BigNumber_mul
                        Ledger.JSON_parse [Ledger.msg "n0" "h0"])
                     (Ledger.genesis (10 ^ 9) (10 ^ 9))))).
Proof.
  apply (handler_batches_compose Ledger.env Relay.config Ledger.BigNumber_mul
           Ledger.JSON_parse [Ledger.msg "n0" "h0"] [Ledger.msg "n1" "h1"]
           (Ledger.genesis (10 ^ 9) (10 ^ 9))
           (Ledger.replies [Ledger.msg "n0" "h0"]
              (Ledger.genesis (10 ^ 9) (10 ^ 9)))).
  vm_compute. reflexivity.
Defined.

(** ** A message whose body does not parse *)

Section MalformedFacts.

Import Relay.

Variable E : Env.
Variable cfg : Config.
Variable BigNumber_mul : Z -> Fee.double -> result Z.
Variable JSON_parse : string -> result MetaTx.
Variable policy : Queue.Config.

Abbreviation handle := (handler cfg BigNumber_mul JSON_parse).
Abbreviation poll := (Queue.poll cfg BigNumber_mul JSON_parse policy E).
Abbreviation polls := (Queue.polls cfg BigNumber_mul JSON_parse policy E).




End MalformedFacts.



(** ** Requests as configured *)


